(** * supertodoo: the todos router over its relational store

    A shallow embedding of the oRPC router [todosRouter] together with the
    tables declared in [packages/db/src/schema/todos.ts].  The sources hold
    two copies of the router: the full one, with all ten procedures (module
    [todosRouter] below), and an earlier one with six of them, at
    [packages/api/src/routers/todos.ts] (module [earlierRouter]).

    - Rows are records, tables are lists of rows (scan order = list order).
    - A drizzle condition is a value of [SQL]; [eval] gives it SQL's
      three-valued meaning on a row.
    - A handler is a program [prog] whose nodes are the statements it awaits,
      one node per [await db. ...]; [run] executes a program against a store,
      [run2] interleaves two of them statement by statement.
    - [new Date()] is the clock reading [now] handed to the handler.
    - JavaScript numbers are IEEE-754 binary64 values ([SpecFloat]).
    - Text is the byte sequence of its UTF-8 encoding.
    - An optional key of an input object is a [field]: absent, present with
      the value [undefined], or present with a value. *)

From Stdlib Require Import List String Ascii Bool ZArith Lia Permutation.
From Stdlib Require Import SpecFloat.
Import ListNotations.
Local Open Scope string_scope.
Local Open Scope Z_scope.

(** ** Data model (schema/todos.ts) *)

(** [pgEnum("priority", ["low","medium","high","urgent"])] *)
Inductive priority : Set := low | medium | high | urgent.

Definition priority_eqb (a b : priority) : bool :=
  match a, b with
  | low, low | medium, medium | high, high | urgent, urgent => true
  | _, _ => false
  end.

(** A pg enum sorts by declaration order. *)
Definition priority_rank (p : priority) : Z :=
  match p with low => 0 | medium => 1 | high => 2 | urgent => 3 end.

(** [timestamp] columns and [Date] values: milliseconds since the epoch. *)
Definition timestamp : Set := Z.

Module Todo.
Record t : Set := mk {
  id : string;
  title : string;
  description : option string;
  completed : bool;
  priority : priority;
  dueDate : option timestamp;
  userId : string;
  createdAt : timestamp;
  updatedAt : timestamp
}.
End Todo.

Module Tag.
Record t : Set := mk {
  id : string;
  name : string;
  color : string;
  userId : string;
  createdAt : timestamp
}.
End Tag.

Module TodoTag.
Record t : Set := mk {
  todoId : string;
  tagId : string;
  createdAt : timestamp
}.
End TodoTag.

(** The three tables. *)
Record store : Set := mkStore {
  todos : list Todo.t;
  tags : list Tag.t;
  todoTags : list TodoTag.t
}.

(** [todos.id] and [tags.id] are primary keys. *)
Definition pk_unique (s : store) : Prop :=
  NoDup (map Todo.id (todos s)) /\ NoDup (map Tag.id (tags s)).

(** ** Strings *)

(** [s.includes(sub)]: [sub] occurs in [s] as a contiguous substring. *)
Fixpoint includes (sub s : string) : bool :=
  String.prefix sub s
  || match s with
     | EmptyString => false
     | String _ s' => includes sub s'
     end.

(** [any_suffix f s]: [f] accepts some suffix of [s] ([s] itself included). *)
Fixpoint any_suffix (f : string -> bool) (s : string) : bool :=
  f s
  || match s with
     | EmptyString => false
     | String _ s' => any_suffix f s'
     end.

(** The escape character of LIKE (code 92). *)
Definition backslash : ascii := "092"%char.

(** Text is held as the bytes of its UTF-8 encoding, as the store holds it.
    A character is one leading byte followed by its continuation bytes, the
    bytes of the form 10xxxxxx. *)
Definition continuation (c : ascii) : bool :=
  match c with
  | Ascii _ _ _ _ _ _ false true => true
  | _ => false
  end.

Fixpoint drop_continuation (s : string) : string :=
  match s with
  | EmptyString => EmptyString
  | String c s' => if continuation c then drop_continuation s' else s
  end.

(** SQL [s LIKE pattern] with the default escape character: [%] matches any
    run of characters, [_] any single character (all the bytes of its
    encoding), a backslash makes the next pattern character literal.  A
    pattern ending in a lone backslash is an error in the store; no pattern
    built below ends that way, it is given [false] here.  Literal text is
    compared byte by byte (case-sensitive). *)
Fixpoint like (pattern : string) : string -> bool :=
  match pattern with
  | EmptyString =>
      fun s => match s with EmptyString => true | String _ _ => false end
  | String c p' =>
      if Ascii.eqb c "%" then any_suffix (like p')
      else if Ascii.eqb c "_" then
        fun s => match s with
                 | EmptyString => false
                 | String x s' =>
                     negb (continuation x) && like p' (drop_continuation s')
                 end
      else if Ascii.eqb c backslash then
        match p' with
        | EmptyString => fun _ => false
        | String d p'' =>
            fun s => match s with
                     | EmptyString => false
                     | String x s' => Ascii.eqb x d && like p'' s'
                     end
        end
      else
        fun s => match s with
                 | EmptyString => false
                 | String x s' => Ascii.eqb x c && like p' s'
                 end
  end.

(** The characters LIKE treats specially. *)
Definition like_special (c : ascii) : bool :=
  Ascii.eqb c "%" || Ascii.eqb c "_" || Ascii.eqb c backslash.

Fixpoint plain (s : string) : bool :=
  match s with
  | EmptyString => true
  | String c s' => negb (like_special c) && plain s'
  end.

(** JavaScript truthiness of a string: the empty string is falsy. *)
Definition truthy (s : string) : bool :=
  match s with EmptyString => false | String _ _ => true end.

(** ** Conditions (drizzle [SQL] values over the [todos] table) *)

#[warnings="-register-all"]
Inductive SQL : Set :=
| Eq_id (v : string)                 (* eq(todos.id, v) *)
| Eq_userId (v : string)             (* eq(todos.userId, v) *)
| Eq_completed (v : bool)            (* eq(todos.completed, v) *)
| Eq_priority (v : priority)         (* eq(todos.priority, v) *)
| Like_title (pattern : string)      (* like(todos.title, pattern) *)
| Like_description (pattern : string)(* like(todos.description, pattern) *)
| Or (a b : SQL)                     (* or(a, b) *)
| And (conditions : list SQL)        (* and(...conditions) *)
| InArray_id_todoTags (tagId : string).
    (* inArray(todos.id,
         db.select({todoId}).from(todoTags).where(eq(todoTags.tagId, tagId))) *)

(** SQL truth values: [None] is NULL (unknown). *)
Definition sql_or (a b : option bool) : option bool :=
  match a, b with
  | Some true, _ | _, Some true => Some true
  | Some false, Some false => Some false
  | _, _ => None
  end.

Definition sql_and (a b : option bool) : option bool :=
  match a, b with
  | Some false, _ | _, Some false => Some false
  | Some true, Some true => Some true
  | _, _ => None
  end.

(** The subquery of the tag filter: the [todoId] of every association row
    whose [tagId] is the given one. *)
Definition todoIds_of_tag (tt : list TodoTag.t) (tagId : string) : list string :=
  map TodoTag.todoId (filter (fun r => TodoTag.tagId r =? tagId)%string tt).

Definition mem_string (x : string) (l : list string) : bool :=
  existsb (String.eqb x) l.

Fixpoint eval (tt : list TodoTag.t) (c : SQL) (r : Todo.t) : option bool :=
  match c with
  | Eq_id v => Some (Todo.id r =? v)%string
  | Eq_userId v => Some (Todo.userId r =? v)%string
  | Eq_completed v => Some (Bool.eqb (Todo.completed r) v)
  | Eq_priority v => Some (priority_eqb (Todo.priority r) v)
  | Like_title p => Some (like p (Todo.title r))
  | Like_description p => option_map (like p) (Todo.description r)
  | Or a b => sql_or (eval tt a r) (eval tt b r)
  | And cs => fold_right sql_and (Some true) (map (fun c' => eval tt c' r) cs)
  | InArray_id_todoTags g => Some (mem_string (Todo.id r) (todoIds_of_tag tt g))
  end.

(** A WHERE clause keeps the rows on which the condition is TRUE. *)
Definition holds (tt : list TodoTag.t) (c : SQL) (r : Todo.t) : bool :=
  match eval tt c r with Some true => true | _ => false end.

(** ** Ordering ([orderBy: [asc(col)]] / [[desc(col)]]) *)

Module SortBy.
Inductive t : Set := createdAt | dueDate | priority | title.
End SortBy.

Module SortOrder.
Inductive t : Set := asc | desc.
End SortOrder.

(** [column_leb k a b]: the value of column [k] in [a] is at most the one in
    [b].  NULL sorts as larger than every value (the store's default: last
    ascending, first descending); text compares character by character. *)
Definition column_leb (k : SortBy.t) (a b : Todo.t) : bool :=
  match k with
  | SortBy.createdAt => Todo.createdAt a <=? Todo.createdAt b
  | SortBy.dueDate =>
      match Todo.dueDate a, Todo.dueDate b with
      | _, None => true
      | None, Some _ => false
      | Some x, Some y => x <=? y
      end
  | SortBy.priority =>
      priority_rank (Todo.priority a) <=? priority_rank (Todo.priority b)
  | SortBy.title => String.leb (Todo.title a) (Todo.title b)
  end.

Definition order_leb (k : SortBy.t) (o : SortOrder.t) (a b : Todo.t) : bool :=
  match o with
  | SortOrder.asc => column_leb k a b
  | SortOrder.desc => column_leb k b a
  end.

Fixpoint insert_by {A : Type} (le : A -> A -> bool) (x : A) (l : list A)
  : list A :=
  match l with
  | [] => [x]
  | y :: l' => if le x y then x :: l else y :: insert_by le x l'
  end.

(** Rows with equal keys keep their scan order (the store leaves it open). *)
Definition sort_by {A : Type} (le : A -> A -> bool) (l : list A) : list A :=
  fold_right (insert_by le) [] l.

Definition ordered (orderBy : option (SortBy.t * SortOrder.t))
  (rows : list Todo.t) : list Todo.t :=
  match orderBy with
  | None => rows
  | Some (k, o) => sort_by (order_leb k o) rows
  end.

(** ** Statements *)

(** [db.select(...).from(todos).where(w)] *)
Definition select (s : store) (w : SQL) : list Todo.t :=
  filter (holds (todoTags s) w) (todos s).

(** A row of [db.query.todos.findMany({ with: { todoTags: { with: { tag:
    true } } } })]: the todo, its association rows, each with the tag its
    [tagId] references ([null] when there is none). *)
Module WithRelations.
Record t : Set := mk {
  todo : Todo.t;
  todoTags : list (TodoTag.t * option Tag.t)
}.
End WithRelations.

Definition tag_of (s : store) (r : TodoTag.t) : option Tag.t :=
  find (fun g => Tag.id g =? TodoTag.tagId r)%string (tags s).

Definition todoTags_of (s : store) (todoId : string) : list TodoTag.t :=
  filter (fun r => TodoTag.todoId r =? todoId)%string (todoTags s).

Definition with_relations (s : store) (r : Todo.t) : WithRelations.t :=
  WithRelations.mk r
    (map (fun a => (a, tag_of s a)) (todoTags_of s (Todo.id r))).

Definition findMany (s : store) (w : SQL)
  (orderBy : option (SortBy.t * SortOrder.t)) : list WithRelations.t :=
  map (with_relations s) (ordered orderBy (select s w)).

(** The object given to [.set(...)]; an [undefined] entry ([None]) leaves the
    column alone, [Some None] writes NULL into a nullable column. *)
Module SetTodo.
Record t : Set := mk {
  title : option string;
  description : option (option string);
  completed : option bool;
  priority : option priority;
  dueDate : option (option timestamp);
  updatedAt : option timestamp
}.
End SetTodo.

Definition assign {A : Type} (v : option A) (old : A) : A :=
  match v with Some x => x | None => old end.

Definition apply_set (v : SetTodo.t) (r : Todo.t) : Todo.t :=
  Todo.mk (Todo.id r)
    (assign (SetTodo.title v) (Todo.title r))
    (assign (SetTodo.description v) (Todo.description r))
    (assign (SetTodo.completed v) (Todo.completed r))
    (assign (SetTodo.priority v) (Todo.priority r))
    (assign (SetTodo.dueDate v) (Todo.dueDate r))
    (Todo.userId r)
    (Todo.createdAt r)
    (assign (SetTodo.updatedAt v) (Todo.updatedAt r)).

(** [db.update(todos).set(v).where(w).returning()] *)
Definition update (s : store) (v : SetTodo.t) (w : SQL)
  : list Todo.t * store :=
  (map (apply_set v) (select s w),
   mkStore
     (map (fun r => if holds (todoTags s) w r then apply_set v r else r)
        (todos s))
     (tags s) (todoTags s)).

(** [db.delete(todos).where(w).returning(...)]; [todo_tags.todo_id]
    references [todos.id] with ON DELETE CASCADE. *)
Definition delete (s : store) (w : SQL) : list Todo.t * store :=
  let gone := select s w in
  (gone,
   mkStore
     (filter (fun r => negb (holds (todoTags s) w r)) (todos s))
     (tags s)
     (filter (fun a => negb (mem_string (TodoTag.todoId a) (map Todo.id gone)))
        (todoTags s))).

(** [tx.delete(todoTags).where(eq(todoTags.todoId, id))] *)
Definition delete_todoTags (s : store) (todoId : string) : store :=
  mkStore (todos s) (tags s)
    (filter (fun a => negb (TodoTag.todoId a =? todoId)%string) (todoTags s)).

(** [tx.insert(todoTags).values(vs)]: each value is a (todoId, tagId) pair,
    [createdAt] defaults to the store's clock.  Both columns are foreign
    keys; a value referencing no row is refused and nothing is inserted. *)
Definition references_ok (s : store) (v : string * string) : bool :=
  mem_string (fst v) (map Todo.id (todos s))
  && mem_string (snd v) (map Tag.id (tags s)).

Definition insert_todoTags (now : timestamp) (s : store)
  (vs : list (string * string)) : option store :=
  if forallb (references_ok s) vs then
    Some (mkStore (todos s) (tags s)
            (todoTags s ++ map (fun v => TodoTag.mk (fst v) (snd v) now) vs))
  else None.

(** ** Programs *)

Inductive error : Set :=
| ORPCError (code : string) (message : string)
| ForeignKeyViolation.

Inductive result (A : Type) : Type :=
| Ok (a : A)
| Err (e : error).
Arguments Ok {A} a.
Arguments Err {A} e.

(** One constructor per awaited statement; the continuation receives the
    rows the statement returns.  A [select] with a projection hands over the
    whole rows, the handler reads the selected columns only. *)
Inductive prog (A : Type) : Type :=
| Return (a : A)
| Throw (e : error)
| Select (w : SQL) (k : list Todo.t -> prog A)
| FindMany (w : SQL) (orderBy : option (SortBy.t * SortOrder.t))
    (k : list WithRelations.t -> prog A)
| Update (v : SetTodo.t) (w : SQL) (k : list Todo.t -> prog A)
| Delete (w : SQL) (k : list Todo.t -> prog A)
| DeleteTodoTags (todoId : string) (k : unit -> prog A)
| InsertTodoTags (vs : list (string * string)) (k : unit -> prog A)
| Transaction (body : prog A).
Arguments Return {A} a.
Arguments Throw {A} e.
Arguments Select {A} w k.
Arguments FindMany {A} w orderBy k.
Arguments Update {A} v w k.
Arguments Delete {A} w k.
Arguments DeleteTodoTags {A} todoId k.
Arguments InsertTodoTags {A} vs k.
Arguments Transaction {A} body.

(** Sequential execution.  [db.transaction] commits the body's writes when it
    returns and discards them when it throws. *)
Fixpoint run {A : Type} (now : timestamp) (p : prog A) (s : store)
  : result A * store :=
  match p with
  | Return a => (Ok a, s)
  | Throw e => (Err e, s)
  | Select w k => run now (k (select s w)) s
  | FindMany w o k => run now (k (findMany s w o)) s
  | Update v w k => run now (k (fst (update s v w))) (snd (update s v w))
  | Delete w k => run now (k (fst (delete s w))) (snd (delete s w))
  | DeleteTodoTags i k => run now (k tt) (delete_todoTags s i)
  | InsertTodoTags vs k =>
      match insert_todoTags now s vs with
      | Some s' => run now (k tt) s'
      | None => (Err ForeignKeyViolation, s)
      end
  | Transaction body =>
      match run now body s with
      | (Ok a, s') => (Ok a, s')
      | (Err e, _) => (Err e, s)
      end
  end.

(** One statement of a program, executed atomically. *)
Definition step {A : Type} (now : timestamp) (p : prog A) (s : store)
  : prog A * store :=
  match p with
  | Return _ | Throw _ => (p, s)
  | Select w k => (k (select s w), s)
  | FindMany w o k => (k (findMany s w o), s)
  | Update v w k => (k (fst (update s v w)), snd (update s v w))
  | Delete w k => (k (fst (delete s w)), snd (delete s w))
  | DeleteTodoTags i k => (k tt, delete_todoTags s i)
  | InsertTodoTags vs k =>
      match insert_todoTags now s vs with
      | Some s' => (k tt, s')
      | None => (Throw ForeignKeyViolation, s)
      end
  | Transaction body =>
      match run now body s with
      | (Ok a, s') => (Return a, s')
      | (Err e, _) => (Throw e, s)
      end
  end.

(** Two requests served concurrently: the schedule says whose statement runs
    next ([true]: the first request). *)
Fixpoint run2 {A B : Type} (now : timestamp) (schedule : list bool)
  (p : prog A) (q : prog B) (s : store) : prog A * prog B * store :=
  match schedule with
  | [] => (p, q, s)
  | true :: rest =>
      run2 now rest (fst (step now p s)) q (snd (step now p s))
  | false :: rest =>
      run2 now rest p (fst (step now q s)) (snd (step now q s))
  end.

(** ** JavaScript numbers *)

Module JS.
(** IEEE-754 binary64. *)
Definition number : Set := spec_float.
Definition prec : Z := 53.
Definition emax : Z := 1024.

(** The number denoting an integer (exact below 2^53). *)
Definition of_Z (n : Z) : number := binary_normalize prec emax n 0 false.

Definition div (x y : number) : number := SFdiv prec emax x y.
Definition mul (x y : number) : number := SFmul prec emax x y.

(** [Math.round]: the integer nearest to [x], the larger one on a tie;
    integral values, zeros, infinities and NaN are returned as they are.
    Computed exactly as floor(x + 1/2) on the value m * 2^e. *)
Definition Math_round (x : number) : number :=
  match x with
  | S754_finite sg m e =>
      if 0 <=? e then x
      else
        let d := 2 ^ (- e) in
        let v := if sg then Z.neg m else Z.pos m in
        binary_normalize prec emax ((2 * v + d) / (2 * d)) 0 sg
  | _ => x
  end.
End JS.

(** ** Inputs and results of the procedures *)

Module GetTodosInput.
Record t : Set := mk {
  completed : option bool;
  priority : option priority;
  search : option string;
  tagId : option string;
  sortBy : SortBy.t;
  sortOrder : SortOrder.t
}.
End GetTodosInput.

(** An optional key of an input object.  The parsed object keeps a key that
    was sent with the value [undefined], so a key is absent, present and
    [undefined], or present with a value. *)
Inductive field (A : Type) : Type :=
| Absent
| Undefined
| Value (a : A).
Arguments Absent {A}.
Arguments Undefined {A}.
Arguments Value {A} a.

(** [key in object] *)
Definition present {A : Type} (f : field A) : bool :=
  match f with Absent => false | _ => true end.

(** [object.key]: [None] is [undefined]. *)
Definition defined {A : Type} (f : field A) : option A :=
  match f with Value a => Some a | _ => None end.

(** [dueDate] holds the instant its ISO string denotes; [Value None] is an
    explicit [null].  The handler only tests [tagIds !== undefined], so for
    [tagIds] an absent key and [undefined] are one case, [None]. *)
Module UpdateTodoInput.
Record t : Set := mk {
  id : string;
  title : field string;
  description : field (option string);
  completed : field bool;
  priority : field priority;
  dueDate : field (option timestamp);
  tagIds : option (list string)
}.
End UpdateTodoInput.

(** [{ ...todo, tags: todo.todoTags.map((tt) => tt.tag) }] *)
Module Enriched.
Record t : Set := mk {
  todo : Todo.t;
  todoTags : list (TodoTag.t * option Tag.t);
  tags : list (option Tag.t)
}.
End Enriched.

Definition enrich (r : WithRelations.t) : Enriched.t :=
  Enriched.mk (WithRelations.todo r) (WithRelations.todoTags r)
    (map snd (WithRelations.todoTags r)).

Module Deleted.
Record t : Set := mk { success : bool; id : string }.
End Deleted.

Module Stats.
Record byPriority_t : Set := mkByPriority {
  low : Z; medium : Z; high : Z; urgent : Z
}.
Record t : Set := mk {
  total : Z;
  completed : Z;
  pending : Z;
  overdue : Z;
  dueToday : Z;
  completionRate : JS.number;
  byPriority : byPriority_t
}.
End Stats.

(** [array.length] and [array.filter(f).length] *)
Definition length_Z {A : Type} (l : list A) : Z := Z.of_nat (List.length l).
Definition count {A : Type} (f : A -> bool) (l : list A) : Z :=
  length_Z (filter f l).

(** [d.toDateString()] names the calendar day of [d] in the server's zone;
    [zone d] is that zone's offset from UTC at [d], in milliseconds. *)
Definition local_day (zone : timestamp -> Z) (d : timestamp) : Z :=
  (d + zone d) / 86400000.

(** ** The router (the copy with all ten procedures, kept in the sources
    after the schema in [packages/db/src/schema/todos.ts]) *)

Module todosRouter.

Definition not_found : error :=
  ORPCError "NOT_FOUND" "Todo not found or you don't have access to it".

(** The [conditions] array of [getTodos], one push per guard. *)
Definition conditions (userId : string) (input : GetTodosInput.t)
  : list SQL :=
  ([Eq_userId userId]
   ++ match GetTodosInput.completed input with
      | Some b => [Eq_completed b]
      | None => []
      end
   ++ match GetTodosInput.priority input with
      | Some p => [Eq_priority p]
      | None => []
      end
   ++ match GetTodosInput.search input with
      | Some q =>
          if truthy q
          then [Or (Like_title ("%" ++ q ++ "%")%string)
                  (Like_description ("%" ++ q ++ "%")%string)]
          else []
      | None => []
      end
   ++ match GetTodosInput.tagId input with
      | Some g => if truthy g then [InArray_id_todoTags g] else []
      | None => []
      end)%list.

Definition getTodos (userId : string) (input : GetTodosInput.t)
  : prog (list Enriched.t) :=
  FindMany (And (conditions userId input))
    (Some (GetTodosInput.sortBy input, GetTodosInput.sortOrder input))
    (fun userTodos => Return (map enrich userTodos)).

Definition getTodo (userId : string) (id : string) : prog Enriched.t :=
  FindMany (And [Eq_id id; Eq_userId userId]) None
    (fun found =>
       match found with
       | [] => Throw not_found
       | todo :: _ => Return (enrich todo)
       end).

(** [Object.keys(updateData)], where
    [const { id, tagIds, ...updateData } = input]: the keys of the input other
    than [id] and [tagIds], whatever their value. *)
Definition key {A : Type} (name : string) (f : field A) : list string :=
  if present f then [name] else [].

Definition updateData_keys (input : UpdateTodoInput.t) : list string :=
  (key "title" (UpdateTodoInput.title input)
   ++ key "description" (UpdateTodoInput.description input)
   ++ key "completed" (UpdateTodoInput.completed input)
   ++ key "priority" (UpdateTodoInput.priority input)
   ++ key "dueDate" (UpdateTodoInput.dueDate input))%list.

(** [Object.keys(updateData).length > 0] *)
Definition has_updateData (input : UpdateTodoInput.t) : bool :=
  0 <? length_Z (updateData_keys input).

(** [{ ...updateData, dueDate: ..., updatedAt: new Date() }]; an entry whose
    value is [undefined] is left out of the UPDATE. *)
Definition updateTodo_set (now : timestamp) (input : UpdateTodoInput.t)
  : SetTodo.t :=
  SetTodo.mk
    (defined (UpdateTodoInput.title input))
    (defined (UpdateTodoInput.description input))
    (defined (UpdateTodoInput.completed input))
    (defined (UpdateTodoInput.priority input))
    (match defined (UpdateTodoInput.dueDate input) with
     | Some None => Some None
     | Some (Some d) => Some (Some d)
     | None => None
     end)
    (Some now).

(** "Fetch and return updated todo with tags" *)
Definition fetch_updated (id : string) : prog Enriched.t :=
  FindMany (Eq_id id) None
    (fun found =>
       match found with
       | [] => Throw (ORPCError "INTERNAL_SERVER_ERROR"
                        "Could not retrieve updated todo")
       | updatedTodo :: _ => Return (enrich updatedTodo)
       end).

(** "Update tags if provided" *)
Definition update_tags (id : string) (tagIds : option (list string))
  : prog Enriched.t :=
  match tagIds with
  | Some tagIds =>
      DeleteTodoTags id
        (fun _ =>
           match tagIds with
           | [] => fetch_updated id
           | _ :: _ =>
               InsertTodoTags (map (fun tagId => (id, tagId)) tagIds)
                 (fun _ => fetch_updated id)
           end)
  | None => fetch_updated id
  end.

Definition updateTodo (userId : string) (now : timestamp)
  (input : UpdateTodoInput.t) : prog Enriched.t :=
  let id := UpdateTodoInput.id input in
  let tagIds := UpdateTodoInput.tagIds input in
  Transaction
    (Select (And [Eq_id id; Eq_userId userId])
       (fun found =>
          match found with
          | [] => Throw not_found
          | existing :: _ =>
              if has_updateData input
              then Update (updateTodo_set now input) (Eq_id id)
                     (fun _ => update_tags id tagIds)
              else update_tags id tagIds
          end)).

(** The store after the field update, when there is one. *)
Definition fields_updated (now : timestamp) (input : UpdateTodoInput.t)
  (s : store) : store :=
  if has_updateData input
  then snd (update s (updateTodo_set now input)
              (Eq_id (UpdateTodoInput.id input)))
  else s.

(** [{ completed: !existing.completed, updatedAt: new Date() }] *)
Definition toggle_set (now : timestamp) (existing : Todo.t) : SetTodo.t :=
  SetTodo.mk None None (Some (negb (Todo.completed existing))) None None
    (Some now).

(** [updated] is [undefined] ([None]) when the update matched no row. *)
Definition toggleTodo (userId : string) (now : timestamp) (id : string)
  : prog (option Todo.t) :=
  Select (And [Eq_id id; Eq_userId userId])
    (fun found =>
       match found with
       | [] => Throw not_found
       | existing :: _ =>
           Update (toggle_set now existing) (Eq_id id)
             (fun rows => Return (hd_error rows))
       end).

Definition deleteTodo (userId : string) (id : string) : prog Deleted.t :=
  Delete (And [Eq_id id; Eq_userId userId])
    (fun rows =>
       match rows with
       | [] => Throw not_found
       | deletedTodo :: _ => Return (Deleted.mk true (Todo.id deletedTodo))
       end).

Definition is_priority (p : priority) (r : Todo.t) : bool :=
  priority_eqb (Todo.priority r) p.

Definition is_overdue (now : timestamp) (r : Todo.t) : bool :=
  negb (Todo.completed r)
  && match Todo.dueDate r with
     | Some d => d <? now
     | None => false
     end.

Definition is_dueToday (zone : timestamp -> Z) (now : timestamp)
  (r : Todo.t) : bool :=
  match Todo.dueDate r with
  | None => false
  | Some due =>
      if Todo.completed r then false
      else local_day zone due =? local_day zone now
  end.

Definition completionRate (total completed : Z) : JS.number :=
  if 0 <? total
  then JS.Math_round
         (JS.mul (JS.div (JS.of_Z completed) (JS.of_Z total)) (JS.of_Z 100))
  else JS.of_Z 0.

Definition getStats (userId : string) (zone : timestamp -> Z)
  (now : timestamp) : prog Stats.t :=
  Select (Eq_userId userId)
    (fun allTodos =>
       let total := length_Z allTodos in
       let completed := count Todo.completed allTodos in
       let pending := total - completed in
       Return
         (Stats.mk total completed pending
            (count (is_overdue now) allTodos)
            (count (is_dueToday zone now) allTodos)
            (completionRate total completed)
            (Stats.mkByPriority
               (count (is_priority low) allTodos)
               (count (is_priority medium) allTodos)
               (count (is_priority high) allTodos)
               (count (is_priority urgent) allTodos)))).

End todosRouter.

(** ** The earlier copy of the router ([packages/api/src/routers/todos.ts])

    It has [getTodos], [createTodo], [updateTodo], [deleteTodo], [getTags]
    and [createTag] only.  Its [getTodos] and [updateTodo] are those above up
    to the message of the NOT_FOUND error; its [deleteTodo] differs in what
    it returns. *)

Module earlierRouter.

Definition not_found : error := ORPCError "NOT_FOUND" "Todo not found".

Module Deleted.
Record t : Set := mk { success : bool }.
End Deleted.

Definition deleteTodo (userId : string) (id : string) : prog Deleted.t :=
  Delete (And [Eq_id id; Eq_userId userId])
    (fun rows =>
       match rows with
       | [] => Throw not_found
       | deletedTodo :: _ => Return (Deleted.mk true)
       end).

End earlierRouter.

(** ** Observations used in the statements *)

(** The rows a [getTodos] call returns, without their tags. *)
Definition getTodos_rows (now : timestamp) (userId : string)
  (input : GetTodosInput.t) (s : store) : list Todo.t :=
  match fst (run now (todosRouter.getTodos userId input) s) with
  | Ok l => map Enriched.todo l
  | Err _ => []
  end.

(** The tag ids associated with a task, in table order. *)
Definition tagIds_of (s : store) (todoId : string) : list string :=
  map TodoTag.tagId (todoTags_of s todoId).

Definition owned_by (userId : string) (r : Todo.t) : bool :=
  (Todo.userId r =? userId)%string.

(** The predicate [getTodos] applies, read off its guards: a string filter
    counts only when it is non-empty, and the search is a LIKE match. *)
Definition applied_predicate (s : store) (userId : string)
  (input : GetTodosInput.t) (r : Todo.t) : bool :=
  owned_by userId r
  && match GetTodosInput.completed input with
     | Some b => Bool.eqb (Todo.completed r) b
     | None => true
     end
  && match GetTodosInput.priority input with
     | Some p => priority_eqb (Todo.priority r) p
     | None => true
     end
  && match GetTodosInput.search input with
     | Some q =>
         if truthy q then
           like ("%" ++ q ++ "%") (Todo.title r)
           || match Todo.description r with
              | Some d => like ("%" ++ q ++ "%") d
              | None => false
              end
         else true
     | None => true
     end
  && match GetTodosInput.tagId input with
     | Some g =>
         if truthy g
         then mem_string (Todo.id r) (todoIds_of_tag (todoTags s) g)
         else true
     | None => true
     end.

(** The store once the associations of a task are deleted and one row per
    supplied tag id is inserted. *)
Definition replace_tagIds (now : timestamp) (s : store) (todoId : string)
  (tagIds : list string) : store :=
  mkStore (todos s) (tags s)
    (filter (fun a => negb (TodoTag.todoId a =? todoId)%string) (todoTags s)
     ++ map (fun g => TodoTag.mk todoId g now) tagIds).

(** The tag a tag id names, if any. *)
Definition tag_named (s : store) (tagId : string) : option Tag.t :=
  find (fun g => Tag.id g =? tagId)%string (tags s).

(** A condition that can only hold on rows of the given owner. *)
Definition owner_scoped (userId : string) (w : SQL) : Prop :=
  forall tt r, holds tt w r = true -> Todo.userId r = userId.

Definition finished {A : Type} (p : prog A) : Prop :=
  match p with
  | Return _ | Throw _ => True
  | _ => False
  end.

(** A single conditional write: the first statement is the write, its WHERE
    clause is owner-scoped, and nothing is awaited after it. *)
Definition combined_conditional_write {A : Type} (userId : string)
  (p : prog A) : Prop :=
  match p with
  | Update _ w k | Delete w k =>
      owner_scoped userId w /\ forall rows, finished (k rows)
  | _ => False
  end.

(** An owner-scoped read followed, when it finds a row, by a separate update
    whose WHERE clause is not owner-scoped. *)
Definition read_then_write {A : Type} (userId : string) (p : prog A)
  : Prop :=
  match p with
  | Select w k =>
      owner_scoped userId w
      /\ k [] = Throw todosRouter.not_found
      /\ forall existing rest,
           exists v w' k',
             k (existing :: rest) = Update v w' k'
             /\ ~ owner_scoped userId w'
             /\ forall rows, finished (k' rows)
  | _ => False
  end.

(** A search that LIKE takes literally: it has none of the characters [%],
    [_] and backslash. *)
Definition plain_search (input : GetTodosInput.t) : bool :=
  match GetTodosInput.search input with
  | Some q => plain q
  | None => true
  end.

(** The input with a tag id that is the empty string taken as absent. *)
Definition guarded (input : GetTodosInput.t) : GetTodosInput.t :=
  GetTodosInput.mk
    (GetTodosInput.completed input)
    (GetTodosInput.priority input)
    (GetTodosInput.search input)
    (match GetTodosInput.tagId input with
     | Some g => if truthy g then Some g else None
     | None => None
     end)
    (GetTodosInput.sortBy input)
    (GetTodosInput.sortOrder input).

(** ** The specification's wording, for comparison with the code *)

Module Claimed.

(** "owner = caller AND (completed filter if present) AND (priority filter
    if present) AND (title contains search OR description contains search,
    if present) AND (task id is among the task ids associated with tagId,
    if present)". *)
Definition filter_predicate (s : store) (caller : string)
  (input : GetTodosInput.t) (r : Todo.t) : bool :=
  owned_by caller r
  && match GetTodosInput.completed input with
     | Some b => Bool.eqb (Todo.completed r) b
     | None => true
     end
  && match GetTodosInput.priority input with
     | Some p => priority_eqb (Todo.priority r) p
     | None => true
     end
  && match GetTodosInput.search input with
     | Some q =>
         includes q (Todo.title r)
         || match Todo.description r with
            | Some d => includes q d
            | None => false
            end
     | None => true
     end
  && match GetTodosInput.tagId input with
     | Some g => mem_string (Todo.id r) (todoIds_of_tag (todoTags s) g)
     | None => true
     end.

(** "round(completed / total x 100) as an integer percentage; 0 when
    total = 0", in exact arithmetic, a tie going up. *)
Definition completionRate (total completed : Z) : Z :=
  if 0 <? total then (2 * (100 * completed) + total) / (2 * total) else 0.

End Claimed.

Definition is_nan (x : JS.number) : bool :=
  match x with S754_nan => true | _ => false end.

(** Structural equality of numbers, and the check that the computed
    percentage is the exactly rounded one for every count up to a total. *)
Definition number_eqb (x y : JS.number) : bool :=
  match x, y with
  | S754_zero a, S754_zero b => Bool.eqb a b
  | S754_infinity a, S754_infinity b => Bool.eqb a b
  | S754_nan, S754_nan => true
  | S754_finite a m e, S754_finite b n f =>
      Bool.eqb a b && Pos.eqb m n && Z.eqb e f
  | _, _ => false
  end.

Definition rate_exact (total completed : nat) : bool :=
  number_eqb
    (todosRouter.completionRate (Z.of_nat total) (Z.of_nat completed))
    (JS.of_Z (Claimed.completionRate (Z.of_nat total) (Z.of_nat completed))).

Definition rates_exact_below (bound : nat) : bool :=
  forallb (fun total => forallb (rate_exact total) (seq 0 (S total)))
    (seq 0 bound).

(** ** Sample data *)

Module Sample.

Definition alice : string := "alice".
Definition bob : string := "bob".

Definition t1 : Todo.t :=
  Todo.mk "t1" "Buy milk" None false high None alice 10 10.
Definition t2 : Todo.t :=
  Todo.mk "t2" "proj a_b" (Some "100% done") true low (Some 5) alice 20 20.
Definition t3 : Todo.t :=
  Todo.mk "t3" "secret" None false urgent None bob 30 30.

Definition g1 : Tag.t := Tag.mk "g1" "home" "#3B82F6" alice 1.
Definition g2 : Tag.t := Tag.mk "g2" "work" "#3B82F6" bob 1.

Definition db : store :=
  mkStore [t1; t2; t3] [g1; g2]
    [TodoTag.mk "t1" "g1" 2; TodoTag.mk "t3" "g2" 2].

Definition no_filter : GetTodosInput.t :=
  GetTodosInput.mk None None None None SortBy.createdAt SortOrder.desc.

Definition empty_tagId : GetTodosInput.t :=
  GetTodosInput.mk None None None (Some EmptyString)
    SortBy.createdAt SortOrder.desc.

Definition search_for (q : string) : GetTodosInput.t :=
  GetTodosInput.mk None None (Some q) None SortBy.createdAt SortOrder.desc.

Definition tagged (g : string) : GetTodosInput.t :=
  GetTodosInput.mk None None None (Some g) SortBy.title SortOrder.asc.

Definition only_tagIds (id : string) (ids : list string)
  : UpdateTodoInput.t :=
  UpdateTodoInput.mk id Absent Absent Absent Absent Absent (Some ids).

Definition digit (n : nat) : ascii := ascii_of_nat (48 + n).

(** Task number [n] of a user: completed when [n] is below [done]. *)
Definition task (user : string) (done n : nat) : Todo.t :=
  Todo.mk
    (String "t" (String (digit (n / 10)) (String (digit (n mod 10))
       EmptyString)))
    "task" None (Nat.ltb n done) medium None user
    (Z.of_nat n) (Z.of_nat n).

(** A store holding [total] tasks of alice, the first [done] completed. *)
Definition tasks (total done : nat) : store :=
  mkStore (map (task alice done) (seq 0 total)) [] [].

Definition utc : timestamp -> Z := fun _ => 0.

End Sample.

(** ** Integrity of a store *)

(** Every association row references an existing todo and an existing tag
    (the two foreign keys of [todo_tags]). *)
Definition references_hold (s : store) : Prop :=
  forall a,
    In a (todoTags s) ->
    In (TodoTag.todoId a) (map Todo.id (todos s))
    /\ In (TodoTag.tagId a) (map Tag.id (tags s)).

Definition integrity (s : store) : Prop := pk_unique s /\ references_hold s.

(** A list is in the order given by a comparison: each element is below or
    equal to its successor. *)
Fixpoint in_order {A : Type} (le : A -> A -> bool) (l : list A) : Prop :=
  match l with
  | [] => True
  | x :: l' =>
      match l' with
      | [] => True
      | y :: _ => le x y = true /\ in_order le l'
      end
  end.

(** No filter takes effect: [completed] and [priority] are absent, [search]
    and [tagId] are absent or the empty string. *)
Definition unfiltered (input : GetTodosInput.t) : bool :=
  match GetTodosInput.completed input, GetTodosInput.priority input with
  | None, None => true
  | _, _ => false
  end
  && negb (match GetTodosInput.search input with
           | Some q => truthy q
           | None => false
           end)
  && negb (match GetTodosInput.tagId input with
           | Some g => truthy g
           | None => false
           end).

(** The row a toggle leaves: [completed] negated, [updatedAt] refreshed. *)
Definition toggled (now : timestamp) (t : Todo.t) : Todo.t :=
  Todo.mk (Todo.id t) (Todo.title t) (Todo.description t)
    (negb (Todo.completed t)) (Todo.priority t) (Todo.dueDate t)
    (Todo.userId t) (Todo.createdAt t) now.

(** One column after a field update: a key that carries a value gives the
    new value, a key that is absent or [undefined] keeps the old one. *)
Definition supplied {A : Type} (f : field A) (old : A) : A :=
  match f with
  | Value x => x
  | Absent | Undefined => old
  end.

(** The row a field update leaves, [updatedAt] refreshed. *)
Definition patched (now : timestamp) (input : UpdateTodoInput.t) (t : Todo.t)
  : Todo.t :=
  Todo.mk (Todo.id t)
    (supplied (UpdateTodoInput.title input) (Todo.title t))
    (supplied (UpdateTodoInput.description input) (Todo.description t))
    (supplied (UpdateTodoInput.completed input) (Todo.completed t))
    (supplied (UpdateTodoInput.priority input) (Todo.priority t))
    (supplied (UpdateTodoInput.dueDate input) (Todo.dueDate t))
    (Todo.userId t) (Todo.createdAt t) now.

(** The call names one of title, description, completed, priority, dueDate:
    the key is in the input, be it with the value [undefined]. *)
Definition names_a_field (input : UpdateTodoInput.t) : Prop :=
  UpdateTodoInput.title input <> Absent
  \/ UpdateTodoInput.description input <> Absent
  \/ UpdateTodoInput.completed input <> Absent
  \/ UpdateTodoInput.priority input <> Absent
  \/ UpdateTodoInput.dueDate input <> Absent.

(** The call has none of the five keys. *)
Definition names_no_field (input : UpdateTodoInput.t) : Prop :=
  UpdateTodoInput.title input = Absent
  /\ UpdateTodoInput.description input = Absent
  /\ UpdateTodoInput.completed input = Absent
  /\ UpdateTodoInput.priority input = Absent
  /\ UpdateTodoInput.dueDate input = Absent.

(** The due date of a task lies before the given instant; it lies on the
    calendar day of the given instant. *)
Definition due_before (now : timestamp) (t : Todo.t) : bool :=
  match Todo.dueDate t with
  | Some d => d <? now
  | None => false
  end.

Definition due_on_day (zone : timestamp -> Z) (now : timestamp) (t : Todo.t)
  : bool :=
  match Todo.dueDate t with
  | Some d => local_day zone d =? local_day zone now
  | None => false
  end.

(** The count of one priority in the [byPriority] object of the statistics. *)
Definition by_priority (b : Stats.byPriority_t) (p : priority) : Z :=
  match p with
  | low => Stats.low b
  | medium => Stats.medium b
  | high => Stats.high b
  | urgent => Stats.urgent b
  end.

(** [l] with every occurrence of [old] replaced by [new]. *)
Definition replace_row (old new : Todo.t) (l : list Todo.t) : list Todo.t :=
  map (fun r => if (Todo.id r =? Todo.id old)%string then new else r) l.

(** ** Statements on the [tags] table and inserts *)

(** Conditions over [tags]; its columns are NOT NULL, so they are
    two-valued. *)
#[warnings="-register-all"]
Inductive TagSQL : Set :=
| Eq_tag_id (v : string)          (* eq(tags.id, v) *)
| Eq_tag_userId (v : string)      (* eq(tags.userId, v) *)
| And_tag (conditions : list TagSQL).

Fixpoint holds_tag (c : TagSQL) (g : Tag.t) : bool :=
  match c with
  | Eq_tag_id v => (Tag.id g =? v)%string
  | Eq_tag_userId v => (Tag.userId g =? v)%string
  | And_tag cs => forallb (fun c' => holds_tag c' g) cs
  end.

(** [db.query.tags.findMany({ where: w, orderBy: [asc(tags.name)] })] *)
Definition findMany_tags (s : store) (w : TagSQL) : list Tag.t :=
  sort_by (fun a b => String.leb (Tag.name a) (Tag.name b))
    (filter (holds_tag w) (tags s)).

(** [db.delete(tags).where(w).returning(...)]; [todo_tags.tag_id] references
    [tags.id] with ON DELETE CASCADE. *)
Definition delete_tags (s : store) (w : TagSQL) : list Tag.t * store :=
  let gone := filter (holds_tag w) (tags s) in
  (gone,
   mkStore (todos s)
     (filter (fun g => negb (holds_tag w g)) (tags s))
     (filter (fun a => negb (mem_string (TodoTag.tagId a) (map Tag.id gone)))
        (todoTags s))).

(** The object given to [insert(todos).values(...)]: [id] comes from
    [crypto.randomUUID()], [completed] defaults to false, an absent
    [priority] to medium, [createdAt] and [updatedAt] to the store's clock.
    [user_id] references the [user] table of the auth schema, which is not
    part of this model: the caller's id comes from a verified session. *)
Module NewTodo.
Record t : Set := mk {
  title : string;
  description : option string;
  priority : option priority;
  dueDate : option timestamp;
  userId : string
}.
End NewTodo.

Definition new_todo (uuid : string) (now : timestamp) (v : NewTodo.t)
  : Todo.t :=
  Todo.mk uuid (NewTodo.title v) (NewTodo.description v) false
    (assign (NewTodo.priority v) medium) (NewTodo.dueDate v)
    (NewTodo.userId v) now now.

(** [insert(todos).values(v).returning()]: refused when the id is taken
    (primary key). *)
Definition insert_todo (uuid : string) (now : timestamp) (s : store)
  (v : NewTodo.t) : option (Todo.t * store) :=
  if mem_string uuid (map Todo.id (todos s)) then None
  else Some (new_todo uuid now v,
             mkStore (todos s ++ [new_todo uuid now v]) (tags s) (todoTags s)).

(** [insert(tags).values({ name, color, userId }).returning()] *)
Definition new_tag (uuid : string) (now : timestamp)
  (name : string) (color : option string) (userId : string) : Tag.t :=
  Tag.mk uuid name (assign color "#3B82F6") userId now.

Definition insert_tag (uuid : string) (now : timestamp) (s : store)
  (name : string) (color : option string) (userId : string)
  : option (Tag.t * store) :=
  if mem_string uuid (map Tag.id (tags s)) then None
  else Some (new_tag uuid now name color userId,
             mkStore (todos s) (tags s ++ [new_tag uuid now name color userId])
               (todoTags s)).

(** ** Actions: the handlers that insert or work on [tags]

    An action threads the store and may fail; [uuid] is what
    [crypto.randomUUID()] returns for the insert of the request. *)

Inductive failure : Set :=
| Thrown (e : error)
| UniqueViolation.

Inductive outcome (A : Type) : Type :=
| Done (a : A)
| Failed (f : failure).
Arguments Done {A} a.
Arguments Failed {A} f.

Definition action (A : Type) : Type := store -> outcome A * store.

Definition ret {A : Type} (a : A) : action A := fun s => (Done a, s).

Definition throw {A : Type} (e : error) : action A :=
  fun s => (Failed (Thrown e), s).

Definition bind {A B : Type} (m : action A) (k : A -> action B) : action B :=
  fun s =>
    match m s with
    | (Done a, s') => k a s'
    | (Failed f, s') => (Failed f, s')
    end.

Notation "x <- m ;; k" := (bind m (fun x => k))
  (at level 61, m at next level, right associativity).

(** A program of statements run as an action. *)
Definition lift {A : Type} (now : timestamp) (p : prog A) : action A :=
  fun s =>
    match run now p s with
    | (Ok a, s') => (Done a, s')
    | (Err e, s') => (Failed (Thrown e), s')
    end.

(** [db.transaction(async (tx) => ...)] *)
Definition transaction {A : Type} (m : action A) : action A :=
  fun s =>
    match m s with
    | (Done a, s') => (Done a, s')
    | (Failed f, _) => (Failed f, s)
    end.

Definition insertTodo (uuid : string) (now : timestamp) (v : NewTodo.t)
  : action (list Todo.t) :=
  fun s =>
    match insert_todo uuid now s v with
    | Some (r, s') => (Done [r], s')
    | None => (Failed UniqueViolation, s)
    end.

Definition insertTag (uuid : string) (now : timestamp) (name : string)
  (color : option string) (userId : string) : action (list Tag.t) :=
  fun s =>
    match insert_tag uuid now s name color userId with
    | Some (g, s') => (Done [g], s')
    | None => (Failed UniqueViolation, s)
    end.

Definition findManyTags (w : TagSQL) : action (list Tag.t) :=
  fun s => (Done (findMany_tags s w), s).

Definition deleteTags (w : TagSQL) : action (list Tag.t) :=
  fun s => (Done (fst (delete_tags s w)), snd (delete_tags s w)).

(** Inputs as the schemas deliver them ([priority] and [color] carry their
    zod defaults). *)
Module CreateTodoInput.
Record t : Set := mk {
  title : string;
  description : option string;
  priority : priority;
  dueDate : option timestamp;
  tagIds : option (list string)
}.
End CreateTodoInput.

Module CreateTagInput.
Record t : Set := mk { name : string; color : string }.
End CreateTagInput.

(** The rows an action answers with (none when it fails). *)
Definition listed {A : Type} (r : outcome (list A) * store) : list A :=
  match fst r with
  | Done l => l
  | Failed _ => []
  end.

(** ** The router, continued: createTodo, getTags, createTag, deleteTag *)

Module todosRouter'.

Definition createTodo (uuid : string) (now : timestamp) (userId : string)
  (input : CreateTodoInput.t) : action Todo.t :=
  transaction
    (rows <- insertTodo uuid now
               (NewTodo.mk (CreateTodoInput.title input)
                  (CreateTodoInput.description input)
                  (Some (CreateTodoInput.priority input))
                  (CreateTodoInput.dueDate input) userId) ;;
     match rows with
     | [] => throw (ORPCError "INTERNAL_SERVER_ERROR" "Failed to create todo")
     | newTodo :: _ =>
         _ <- match CreateTodoInput.tagIds input with
              | Some (tagId :: rest) =>
                  lift now
                    (InsertTodoTags
                       (map (fun tagId => (Todo.id newTodo, tagId))
                          (tagId :: rest))
                       (fun _ => Return tt))
              | _ => ret tt
              end ;;
         ret newTodo
     end).

Definition getTags (userId : string) : action (list Tag.t) :=
  findManyTags (Eq_tag_userId userId).

Definition createTag (uuid : string) (now : timestamp) (userId : string)
  (input : CreateTagInput.t) : action Tag.t :=
  rows <- insertTag uuid now (CreateTagInput.name input)
            (Some (CreateTagInput.color input)) userId ;;
  match rows with
  | [] => throw (ORPCError "INTERNAL_SERVER_ERROR" "Failed to create tag")
  | newTag :: _ => ret newTag
  end.

Definition deleteTag (userId : string) (id : string) : action Deleted.t :=
  rows <- deleteTags (And_tag [Eq_tag_id id; Eq_tag_userId userId]) ;;
  match rows with
  | [] => throw (ORPCError "NOT_FOUND"
                   "Tag not found or you don't have access to it")
  | deletedTag :: _ => ret (Deleted.mk true (Tag.id deletedTag))
  end.

End todosRouter'.

(** The earlier copy's [createTag] returns the first returned row without
    checking it ([undefined] is [None]). *)
Module earlierRouter'.

Definition createTag (uuid : string) (now : timestamp) (userId : string)
  (input : CreateTagInput.t) : action (option Tag.t) :=
  rows <- insertTag uuid now (CreateTagInput.name input)
            (Some (CreateTagInput.color input)) userId ;;
  ret (hd_error rows).

End earlierRouter'.

(** * Properties *)

(** ** Lists, ordering *)

Lemma filter_all {A : Type} (f : A -> bool) (l : list A) :
  (forall x, In x l -> f x = true) -> filter f l = l.
Proof.
  induction l as [|a l IH]; intros H; simpl; [reflexivity|].
  rewrite (H a (or_introl eq_refl)).
  f_equal. apply IH. intros x Hx. apply H. now right.
Qed.

Lemma filter_none {A : Type} (f : A -> bool) (l : list A) :
  (forall x, In x l -> f x = false) -> filter f l = [].
Proof.
  induction l as [|a l IH]; intros H; simpl; [reflexivity|].
  rewrite (H a (or_introl eq_refl)).
  apply IH. intros x Hx. apply H. now right.
Qed.

Lemma filter_andb {A : Type} (f g : A -> bool) (l : list A) :
  filter (fun x => f x && g x) l = filter g (filter f l).
Proof.
  induction l as [|a l IH]; simpl; [reflexivity|].
  destruct (f a); simpl; [|exact IH].
  destruct (g a); now rewrite IH.
Qed.

Lemma insert_by_perm {A : Type} (le : A -> A -> bool) (x : A) (l : list A) :
  Permutation (insert_by le x l) (x :: l).
Proof.
  induction l as [|y l IH]; simpl.
  - apply Permutation_refl.
  - destruct (le x y).
    + apply Permutation_refl.
    + eapply perm_trans; [apply perm_skip, IH|apply perm_swap].
Qed.

Lemma sort_by_perm {A : Type} (le : A -> A -> bool) (l : list A) :
  Permutation (sort_by le l) l.
Proof.
  induction l as [|x l IH]; simpl.
  - apply perm_nil.
  - eapply perm_trans; [apply insert_by_perm|apply perm_skip, IH].
Qed.

Lemma ordered_In (o : option (SortBy.t * SortOrder.t)) (l : list Todo.t)
  (r : Todo.t) : In r (ordered o l) <-> In r l.
Proof.
  destruct o as [[k d]|]; simpl; [|tauto].
  split; apply Permutation_in;
    [apply sort_by_perm|apply Permutation_sym, sort_by_perm].
Qed.

Lemma priority_eqb_eq (a b : priority) : priority_eqb a b = true <-> a = b.
Proof. destruct a, b; simpl; split; congruence. Qed.

(** ** getTodos *)

Lemma run_getTodos (now : timestamp) (u : string) (input : GetTodosInput.t)
  (s : store) :
  run now (todosRouter.getTodos u input) s
  = (Ok (map enrich
           (findMany s (And (todosRouter.conditions u input))
              (Some (GetTodosInput.sortBy input,
                     GetTodosInput.sortOrder input)))), s).
Proof. reflexivity. Qed.

Lemma getTodos_rows_eq (now : timestamp) (u : string)
  (input : GetTodosInput.t) (s : store) :
  getTodos_rows now u input s
  = sort_by (order_leb (GetTodosInput.sortBy input)
               (GetTodosInput.sortOrder input))
      (select s (And (todosRouter.conditions u input))).
Proof.
  unfold getTodos_rows. rewrite run_getTodos. simpl fst.
  unfold findMany, enrich. rewrite !map_map. simpl.
  apply map_id.
Qed.

(** The conjunction of the pushed conditions is TRUE on a row exactly when
    the predicate read off the guards is. *)
Lemma holds_conditions (s : store) (u : string) (input : GetTodosInput.t)
  (r : Todo.t) :
  holds (todoTags s) (And (todosRouter.conditions u input)) r
  = applied_predicate s u input r.
Proof.
  unfold holds, applied_predicate, todosRouter.conditions, owned_by.
  destruct input as [c p q g sb so]; simpl.
  destruct (Todo.userId r =? u)%string;
    destruct c as [c|]; simpl;
    try destruct (Bool.eqb (Todo.completed r) c);
    destruct p as [p|]; simpl;
    try destruct (priority_eqb (Todo.priority r) p);
    destruct q as [q|]; simpl;
    try (destruct (truthy q); simpl);
    try destruct (any_suffix (like (q ++ "%")) (Todo.title r));
    try (destruct (Todo.description r) as [d|]; simpl);
    try destruct (any_suffix (like (q ++ "%")) d);
    destruct g as [g|]; simpl;
    try (destruct (truthy g); simpl);
    try destruct (mem_string (Todo.id r) (todoIds_of_tag (todoTags s) g));
    reflexivity.
Qed.

Lemma select_conditions (s : store) (u : string) (input : GetTodosInput.t) :
  select s (And (todosRouter.conditions u input))
  = filter (applied_predicate s u input) (todos s).
Proof.
  unfold select. apply filter_ext. intros r. apply holds_conditions.
Qed.

Lemma applied_predicate_owner (s : store) (u : string)
  (input : GetTodosInput.t) (r : Todo.t) :
  applied_predicate s u input r = true -> Todo.userId r = u.
Proof.
  unfold applied_predicate, owned_by. intros H.
  repeat (apply andb_prop in H; destruct H as [H _]).
  now apply String.eqb_eq.
Qed.

(** C1. Whatever the filters, sort key and direction, [getTodos] returns, and
    every task it returns belongs to the caller; tasks of other users never
    appear, also when [tagId] names somebody else's tag. *)
Theorem getTodos_only_own_tasks (now : timestamp) (caller : string)
  (input : GetTodosInput.t) (s : store) :
  exists l,
    run now (todosRouter.getTodos caller input) s = (Ok l, s)
    /\ forall e, In e l -> Todo.userId (Enriched.todo e) = caller.
Proof.
  eexists. split; [apply run_getTodos|].
  intros e He. apply in_map_iff in He. destruct He as [w [<- Hw]].
  unfold findMany in Hw. apply in_map_iff in Hw.
  destruct Hw as [r [<- Hr]]. simpl.
  apply ordered_In in Hr. rewrite select_conditions in Hr.
  apply filter_In in Hr. destruct Hr as [_ Hr].
  eapply applied_predicate_owner, Hr.
Qed.

(** *** LIKE against substring containment *)

Lemma any_suffix_ext (f g : string -> bool) (x : string) :
  (forall y, f y = g y) -> any_suffix f x = any_suffix g x.
Proof.
  intros H. induction x as [|c x IH]; simpl; rewrite H; [reflexivity|].
  now rewrite IH.
Qed.

Lemma any_suffix_like_empty (x : string) :
  any_suffix (like EmptyString) x = true.
Proof.
  induction x as [|c x IH]; simpl; [reflexivity|exact IH].
Qed.

Lemma like_literal (c : ascii) (p x : string) :
  like_special c = false ->
  like (String c p) x
  = match x with
    | EmptyString => false
    | String a x' => Ascii.eqb a c && like p x'
    end.
Proof.
  unfold like_special. intros H.
  apply orb_false_elim in H. destruct H as [H Hb].
  apply orb_false_elim in H. destruct H as [Hp Hu].
  simpl. rewrite Hp, Hu, Hb. reflexivity.
Qed.

Lemma like_plain_prefix (q x : string) :
  plain q = true -> like (q ++ "%") x = String.prefix q x.
Proof.
  revert x. induction q as [|c q IH]; intros x Hq.
  - simpl. rewrite any_suffix_like_empty. now destruct x.
  - simpl in Hq. apply andb_prop in Hq. destruct Hq as [Hc Hq].
    apply negb_true_iff in Hc.
    change (String c q ++ "%") with (String c (q ++ "%")).
    rewrite (like_literal _ _ _ Hc).
    destruct x as [|a x]; simpl; [reflexivity|].
    destruct (ascii_dec c a) as [->|Hne].
    + rewrite Ascii.eqb_refl. simpl. now apply IH.
    + destruct (Ascii.eqb_spec a c) as [->|_]; [now elim Hne|reflexivity].
Qed.

Lemma like_includes (q x : string) :
  plain q = true -> like ("%" ++ q ++ "%") x = includes q x.
Proof.
  intros Hq.
  change (like ("%" ++ q ++ "%") x) with (any_suffix (like (q ++ "%")) x).
  rewrite (any_suffix_ext _ (String.prefix q))
    by (intros y; now apply like_plain_prefix).
  induction x as [|c x IH]; simpl; [reflexivity|].
  now rewrite IH.
Qed.

(** [_] takes one character whatever the length of its encoding: the bytes
    195, 169 encode a single character. *)
Lemma like_underscore_one_character :
  let e := String "195" (String "169" EmptyString) in
  like "_" e = true /\ like "__" e = false /\ like "%_" e = true.
Proof. repeat split. Qed.

Lemma includes_empty (x : string) : includes EmptyString x = true.
Proof. now destruct x. Qed.

Lemma applied_predicate_plain (s : store) (u : string)
  (input : GetTodosInput.t) (r : Todo.t) :
  plain_search input = true ->
  applied_predicate s u input r
  = Claimed.filter_predicate s u (guarded input) r.
Proof.
  unfold plain_search, applied_predicate, Claimed.filter_predicate.
  cbn [guarded GetTodosInput.completed GetTodosInput.priority
       GetTodosInput.search GetTodosInput.tagId].
  intros Hq. f_equal; [f_equal|].
  - destruct (GetTodosInput.search input) as [q|]; [|reflexivity].
    destruct q as [|c q].
    + simpl. now rewrite includes_empty.
    + cbn [truthy]. rewrite (like_includes _ _ Hq).
      destruct (Todo.description r) as [d|]; [|reflexivity].
      now rewrite (like_includes _ _ Hq).
  - destruct (GetTodosInput.tagId input) as [g|]; [|reflexivity].
    now destruct (truthy g).
Qed.

(** C2 (as amended). For a search that has none of the characters [%], [_]
    and backslash, [getTodos] returns exactly the stored tasks satisfying:
    owner = caller AND completed = input.completed (when present) AND
    priority = input.priority (when present) AND (title contains search OR
    description contains search, when search is present) AND (task id among
    the task ids associated with tagId, when tagId is present and not the
    empty string); an absent filter, and a tag id that is the empty string,
    impose no constraint.  Each such task is returned once. *)
Theorem getTodos_applied_predicate (now : timestamp) (caller : string)
  (input : GetTodosInput.t) (s : store) :
  plain_search input = true ->
  exists l,
    run now (todosRouter.getTodos caller input) s = (Ok l, s)
    /\ Permutation (map Enriched.todo l)
         (filter (Claimed.filter_predicate s caller (guarded input)) (todos s))
    /\ forall r,
         In r (map Enriched.todo l)
         <-> In r (todos s)
             /\ Claimed.filter_predicate s caller (guarded input) r = true.
Proof.
  intros Hplain.
  assert (Hperm : Permutation (getTodos_rows now caller input s)
            (filter (Claimed.filter_predicate s caller (guarded input))
               (todos s))).
  { rewrite getTodos_rows_eq, select_conditions.
    rewrite (filter_ext _ _ (fun r => applied_predicate_plain s caller input r
                                        Hplain)).
    apply sort_by_perm. }
  eexists. split; [apply run_getTodos|].
  unfold getTodos_rows in Hperm. rewrite run_getTodos in Hperm.
  cbn [fst] in Hperm. split; [exact Hperm|].
  intros r. rewrite <- filter_In.
  split; apply Permutation_in;
    [exact Hperm|apply Permutation_sym, Hperm].
Qed.

Lemma getTodos_applied_predicate_witness :
  exists l,
    run 0 (todosRouter.getTodos Sample.alice (Sample.search_for "milk"))
      Sample.db
    = (Ok l, Sample.db)
    /\ Permutation (map Enriched.todo l) [Sample.t1].
Proof.
  destruct (getTodos_applied_predicate 0 Sample.alice
              (Sample.search_for "milk") Sample.db eq_refl)
    as [l [Hrun [Hperm _]]].
  exists l. split; [exact Hrun|exact Hperm].
Defined.

(** C2 as stated fails: with [tagId] the empty string the guard skips the
    tag filter, so a task is returned that the stated predicate, which asks
    for an association with that tag id, rejects. *)
Lemma getTodos_claimed_predicate_counterexample :
  In Sample.t2 (getTodos_rows 0 Sample.alice Sample.empty_tagId Sample.db)
  /\ Claimed.filter_predicate Sample.db Sample.alice Sample.empty_tagId
       Sample.t2 = false.
Proof.
  split; [|reflexivity].
  vm_compute. left. reflexivity.
Qed.

(** The search text goes into the LIKE pattern as it is: a search of [_]
    returns a task whose title has no underscore, and so does [%]. *)
Lemma getTodos_search_not_escaped :
  In Sample.t1
    (getTodos_rows 0 Sample.alice (Sample.search_for "_") Sample.db)
  /\ In Sample.t1
       (getTodos_rows 0 Sample.alice (Sample.search_for "%") Sample.db)
  /\ includes "_" (Todo.title Sample.t1) = false
  /\ includes "%" (Todo.title Sample.t1) = false.
Proof.
  split; [|split; [|split; reflexivity]].
  - vm_compute. right. left. reflexivity.
  - vm_compute. right. left. reflexivity.
Qed.

(** ** Conditions on the key and the owner *)

Lemma holds_id (tt : list TodoTag.t) (i : string) (r : Todo.t) :
  holds tt (Eq_id i) r = (Todo.id r =? i)%string.
Proof. unfold holds. simpl. now destruct (Todo.id r =? i)%string. Qed.

Lemma holds_userId (tt : list TodoTag.t) (u : string) (r : Todo.t) :
  holds tt (Eq_userId u) r = owned_by u r.
Proof.
  unfold holds, owned_by. simpl. now destruct (Todo.userId r =? u)%string.
Qed.

Lemma holds_id_userId (tt : list TodoTag.t) (i u : string) (r : Todo.t) :
  holds tt (And [Eq_id i; Eq_userId u]) r
  = ((Todo.id r =? i)%string && owned_by u r).
Proof.
  unfold holds, owned_by. simpl.
  now destruct (Todo.id r =? i)%string, (Todo.userId r =? u)%string.
Qed.

Lemma owner_scoped_id_userId (i u : string) :
  owner_scoped u (And [Eq_id i; Eq_userId u]).
Proof.
  intros tt r H. rewrite holds_id_userId in H.
  apply andb_prop in H. now apply String.eqb_eq.
Qed.

Lemma string_cons_neq (c : ascii) (x : string) : String c x <> x.
Proof.
  intros H. apply (f_equal String.length) in H. simpl in H. lia.
Qed.

Lemma not_owner_scoped_id (i u : string) : ~ owner_scoped u (Eq_id i).
Proof.
  intros H.
  pose (r := Todo.mk i EmptyString None false low None (String "x" u) 0 0).
  specialize (H [] r). rewrite holds_id in H. simpl in H.
  rewrite String.eqb_refl in H.
  exact (string_cons_neq _ _ (H eq_refl)).
Qed.

(** ** Rows under a primary key *)

Lemma NoDup_map_inj {A B : Type} (f : A -> B) (l : list A) (a b : A) :
  NoDup (map f l) -> In a l -> In b l -> f a = f b -> a = b.
Proof.
  induction l as [|x l IH]; simpl; intros Hnd Ha Hb Hf; [contradiction|].
  inversion Hnd as [|? ? Hx Hl]; subst.
  destruct Ha as [->|Ha], Hb as [->|Hb]; auto.
  - exfalso. apply Hx. rewrite Hf. now apply in_map.
  - exfalso. apply Hx. rewrite <- Hf. now apply in_map.
Qed.

Lemma filter_key {A : Type} (key : A -> string) (l : list A) (a : A) :
  NoDup (map key l) -> In a l ->
  filter (fun r => key r =? key a)%string l = [a].
Proof.
  induction l as [|x l IH]; simpl; intros Hnd Ha; [contradiction|].
  inversion Hnd as [|? ? Hx Hl]; subst.
  destruct Ha as [->|Ha].
  - rewrite String.eqb_refl. f_equal.
    apply filter_none. intros y Hy.
    apply String.eqb_neq. intros E. apply Hx. rewrite <- E. now apply in_map.
  - assert (E : (key x =? key a)%string = false).
    { apply String.eqb_neq. intros E. apply Hx. rewrite E. now apply in_map. }
    rewrite E. now apply IH.
Qed.

Lemma select_id (s : store) (t : Todo.t) :
  NoDup (map Todo.id (todos s)) -> In t (todos s) ->
  select s (Eq_id (Todo.id t)) = [t].
Proof.
  intros Hnd Ht. unfold select.
  rewrite (filter_ext _ (fun r => Todo.id r =? Todo.id t)%string)
    by (intros r; apply holds_id).
  now apply filter_key.
Qed.

Lemma select_id_userId (s : store) (t : Todo.t) :
  NoDup (map Todo.id (todos s)) -> In t (todos s) ->
  select s (And [Eq_id (Todo.id t); Eq_userId (Todo.userId t)]) = [t].
Proof.
  intros Hnd Ht. unfold select.
  rewrite (filter_ext _ (fun r => (Todo.id r =? Todo.id t)%string
                                  && owned_by (Todo.userId t) r))
    by (intros r; apply holds_id_userId).
  rewrite filter_andb.
  rewrite (filter_key Todo.id _ _ Hnd Ht). simpl.
  unfold owned_by. now rewrite String.eqb_refl.
Qed.

Lemma update_ids (s : store) (v : SetTodo.t) (w : SQL) :
  map Todo.id (todos (snd (update s v w))) = map Todo.id (todos s).
Proof.
  simpl. rewrite map_map. apply map_ext. intros r.
  now destruct (holds (todoTags s) w r).
Qed.

Lemma update_pk_unique (s : store) (v : SetTodo.t) (w : SQL) :
  pk_unique s -> pk_unique (snd (update s v w)).
Proof.
  intros [Ht Hg]. split; [rewrite update_ids; exact Ht|exact Hg].
Qed.

Lemma update_In (s : store) (v : SetTodo.t) (w : SQL) (t : Todo.t) :
  In t (todos s) -> holds (todoTags s) w t = true ->
  In (apply_set v t) (todos (snd (update s v w))).
Proof.
  intros Ht Hw. simpl. apply in_map_iff. exists t. now rewrite Hw.
Qed.

(** ** toggleTodo *)

Lemma run_toggleTodo (s : store) (now : timestamp) (t : Todo.t) :
  pk_unique s -> In t (todos s) ->
  run now (todosRouter.toggleTodo (Todo.userId t) now (Todo.id t)) s
  = (Ok (Some (apply_set (todosRouter.toggle_set now t) t)),
     snd (update s (todosRouter.toggle_set now t) (Eq_id (Todo.id t)))).
Proof.
  intros [Hnd _] Ht. unfold todosRouter.toggleTodo. cbn [run].
  rewrite (select_id_userId s t Hnd Ht). cbn [run].
  unfold update at 1. cbn [fst]. now rewrite (select_id s t Hnd Ht).
Qed.

(** C5. Toggling a task of the caller twice in succession brings its
    [completed] flag back: the first call returns and stores the negation,
    the second the original value. *)
Theorem toggleTodo_twice (s : store) (caller : string)
  (now1 now2 : timestamp) (t : Todo.t) :
  pk_unique s -> In t (todos s) -> Todo.userId t = caller ->
  exists t1 s1 t2 s2,
    run now1 (todosRouter.toggleTodo caller now1 (Todo.id t)) s
    = (Ok (Some t1), s1)
    /\ Todo.completed t1 = negb (Todo.completed t)
    /\ In t1 (todos s1)
    /\ run now2 (todosRouter.toggleTodo caller now2 (Todo.id t)) s1
       = (Ok (Some t2), s2)
    /\ Todo.completed t2 = Todo.completed t
    /\ In t2 (todos s2)
    /\ forall r,
         In r (todos s2) -> Todo.id r = Todo.id t ->
         Todo.completed r = Todo.completed t.
Proof.
  intros Hpk Ht <-.
  set (v1 := todosRouter.toggle_set now1 t).
  set (t1 := apply_set v1 t).
  set (s1 := snd (update s v1 (Eq_id (Todo.id t)))).
  assert (Hpk1 : pk_unique s1) by now apply update_pk_unique.
  assert (Ht1 : In t1 (todos s1)).
  { apply update_In; [exact Ht|]. rewrite holds_id. apply String.eqb_refl. }
  set (v2 := todosRouter.toggle_set now2 t1).
  set (t2 := apply_set v2 t1).
  set (s2 := snd (update s1 v2 (Eq_id (Todo.id t1)))).
  assert (Hpk2 : pk_unique s2) by now apply update_pk_unique.
  assert (Ht2 : In t2 (todos s2)).
  { apply update_In; [exact Ht1|]. rewrite holds_id. apply String.eqb_refl. }
  assert (Hc2 : Todo.completed t2 = Todo.completed t).
  { simpl. apply negb_involutive. }
  exists t1, s1, t2, s2. repeat split.
  - now apply run_toggleTodo.
  - exact Ht1.
  - exact (run_toggleTodo s1 now2 t1 Hpk1 Ht1).
  - exact Hc2.
  - exact Ht2.
  - intros r Hr Hid. rewrite <- Hc2. f_equal.
    exact (NoDup_map_inj Todo.id _ r t2 (proj1 Hpk2) Hr Ht2 Hid).
Qed.

Lemma toggleTodo_twice_witness :
  exists t1 s1 t2 s2,
    run 40 (todosRouter.toggleTodo Sample.alice 40 "t1") Sample.db
    = (Ok (Some t1), s1)
    /\ Todo.completed t1 = true
    /\ In t1 (todos s1)
    /\ run 50 (todosRouter.toggleTodo Sample.alice 50 "t1") s1
       = (Ok (Some t2), s2)
    /\ Todo.completed t2 = false
    /\ In t2 (todos s2)
    /\ forall r,
         In r (todos s2) -> Todo.id r = "t1" -> Todo.completed r = false.
Proof.
  apply (toggleTodo_twice Sample.db Sample.alice 40 50 Sample.t1).
  - split; repeat constructor; simpl; intuition discriminate.
  - simpl. tauto.
  - reflexivity.
Defined.

(** Two toggles of the same task served concurrently, each reading before
    either writes: both write the negation of the value they read, so the
    flag ends up flipped once. *)
Lemma toggleTodo_lost_update (s : store) (now : timestamp) (t : Todo.t) :
  pk_unique s -> In t (todos s) ->
  let p := todosRouter.toggleTodo (Todo.userId t) now (Todo.id t) in
  exists r1 r2 s',
    run2 now [true; false; true; false] p p s
    = (Return (Some r1), Return (Some r2), s')
    /\ Todo.completed r1 = negb (Todo.completed t)
    /\ Todo.completed r2 = negb (Todo.completed t)
    /\ In r2 (todos s')
    /\ forall r,
         In r (todos s') -> Todo.id r = Todo.id t ->
         Todo.completed r = negb (Todo.completed t).
Proof.
  intros Hpk Ht p.
  set (v := todosRouter.toggle_set now t).
  set (t1 := apply_set v t).
  set (s1 := snd (update s v (Eq_id (Todo.id t)))).
  assert (Hpk1 : pk_unique s1) by now apply update_pk_unique.
  assert (Ht1 : In t1 (todos s1)).
  { apply update_In; [exact Ht|]. rewrite holds_id. apply String.eqb_refl. }
  set (t2 := apply_set v t1).
  set (s2 := snd (update s1 v (Eq_id (Todo.id t)))).
  assert (Hpk2 : pk_unique s2) by now apply update_pk_unique.
  assert (Ht2 : In t2 (todos s2)).
  { apply update_In; [exact Ht1|]. rewrite holds_id. apply String.eqb_refl. }
  exists t1, t2, s2. repeat split.
  - unfold p, todosRouter.toggleTodo. cbn [run2 step fst snd].
    rewrite (select_id_userId s t (proj1 Hpk) Ht). cbn [run2 step fst snd].
    fold v. fold s1. unfold update at 1. cbn [fst].
    rewrite (select_id s t (proj1 Hpk) Ht).
    fold s2. unfold update at 1. cbn [fst].
    change (Eq_id (Todo.id t)) with (Eq_id (Todo.id t1)).
    rewrite (select_id s1 t1 (proj1 Hpk1) Ht1). reflexivity.
  - exact Ht2.
  - intros r Hr Hid.
    change (negb (Todo.completed t)) with (Todo.completed t2). f_equal.
    exact (NoDup_map_inj Todo.id _ r t2 (proj1 Hpk2) Hr Ht2 Hid).
Qed.

(** ** How toggleTodo and deleteTodo write *)

Lemma deleteTodo_combined (u i : string) :
  combined_conditional_write u (todosRouter.deleteTodo u i).
Proof.
  simpl. split; [apply owner_scoped_id_userId|].
  intros [|r rows]; exact I.
Qed.

Lemma toggleTodo_read_then_write (u : string) (now : timestamp) (i : string) :
  read_then_write u (todosRouter.toggleTodo u now i).
Proof.
  simpl. split; [apply owner_scoped_id_userId|]. split; [reflexivity|].
  intros existing rest. eexists _, _, _. split; [reflexivity|].
  split; [apply not_owner_scoped_id|]. intros rows. exact I.
Qed.

(** C3. [deleteTodo] does what the claim says: it checks ownership and
    deletes in one conditional write whose WHERE clause is owner-scoped.
    [toggleTodo] departs from it: it reads the row under an owner-scoped
    condition and then issues a separate update conditioned on the id alone,
    outside any transaction; when two toggles of a task are served
    concurrently and both read before either writes, both return the same
    negated flag and the flag is flipped once instead of twice. *)
Theorem deleteTodo_combined_toggleTodo_read_then_write (caller : string)
  (now : timestamp) (id : string) :
  combined_conditional_write caller (todosRouter.deleteTodo caller id)
  /\ read_then_write caller (todosRouter.toggleTodo caller now id)
  /\ forall s t,
       pk_unique s -> In t (todos s) ->
       Todo.id t = id -> Todo.userId t = caller ->
       exists r1 r2 s',
         run2 now [true; false; true; false]
           (todosRouter.toggleTodo caller now id)
           (todosRouter.toggleTodo caller now id) s
         = (Return (Some r1), Return (Some r2), s')
         /\ Todo.completed r1 = negb (Todo.completed t)
         /\ Todo.completed r2 = negb (Todo.completed t)
         /\ In r2 (todos s')
         /\ forall r,
              In r (todos s') -> Todo.id r = id ->
              Todo.completed r = negb (Todo.completed t).
Proof.
  split; [apply deleteTodo_combined|].
  split; [apply toggleTodo_read_then_write|].
  intros s t Hpk Ht <- <-. now apply toggleTodo_lost_update.
Qed.

Lemma deleteTodo_combined_toggleTodo_read_then_write_witness :
  exists r1 r2 s',
    run2 40 [true; false; true; false]
      (todosRouter.toggleTodo Sample.alice 40 "t1")
      (todosRouter.toggleTodo Sample.alice 40 "t1") Sample.db
    = (Return (Some r1), Return (Some r2), s')
    /\ Todo.completed r1 = true
    /\ Todo.completed r2 = true
    /\ In r2 (todos s')
    /\ forall r,
         In r (todos s') -> Todo.id r = "t1" -> Todo.completed r = true.
Proof.
  apply (proj2 (proj2 (deleteTodo_combined_toggleTodo_read_then_write
                         Sample.alice 40 "t1")) Sample.db Sample.t1).
  - split; repeat constructor; simpl; intuition discriminate.
  - simpl. tauto.
  - reflexivity.
  - reflexivity.
Defined.

(** C3, against the claim: [toggleTodo] is not a single conditional write,
    its first statement is a read. *)
Lemma toggleTodo_combined_write_counterexample :
  ~ (combined_conditional_write Sample.alice
       (todosRouter.toggleTodo Sample.alice 40 "t1")
     /\ combined_conditional_write Sample.alice
          (todosRouter.deleteTodo Sample.alice "t1")).
Proof. intros [H _]. exact H. Qed.

(** ** deleteTodo *)

Lemma select_head (s : store) (w : SQL) (t : Todo.t) :
  In t (todos s) -> holds (todoTags s) w t = true ->
  exists r rest,
    select s w = r :: rest
    /\ In r (todos s) /\ holds (todoTags s) w r = true.
Proof.
  intros Ht Hw.
  assert (Hin : In t (select s w)) by (apply filter_In; now split).
  destruct (select s w) as [|r rest] eqn:E; [contradiction|].
  exists r, rest. split; [reflexivity|].
  apply filter_In. unfold select in E. rewrite E. now left.
Qed.

Lemma holds_own (tt : list TodoTag.t) (t : Todo.t) :
  holds tt (And [Eq_id (Todo.id t); Eq_userId (Todo.userId t)]) t = true.
Proof.
  rewrite holds_id_userId. unfold owned_by. now rewrite !String.eqb_refl.
Qed.

Lemma store_eta (s : store) : mkStore (todos s) (tags s) (todoTags s) = s.
Proof. now destruct s. Qed.

Lemma delete_nothing (s : store) (w : SQL) :
  select s w = [] -> delete s w = ([], s).
Proof.
  intros E. unfold delete. rewrite E. f_equal.
  assert (Hkeep : filter (fun r => negb (holds (todoTags s) w r)) (todos s)
                  = todos s).
  { apply filter_all. intros r Hr.
    destruct (holds (todoTags s) w r) eqn:Hw; [|reflexivity].
    assert (Hin : In r (select s w)) by (apply filter_In; now split).
    rewrite E in Hin. contradiction. }
  rewrite Hkeep. simpl. rewrite filter_all by reflexivity.
  apply store_eta.
Qed.

Lemma select_not_owned (s : store) (u i : string) :
  (forall r, In r (todos s) -> Todo.id r = i -> Todo.userId r <> u) ->
  select s (And [Eq_id i; Eq_userId u]) = [].
Proof.
  intros H. apply filter_none. intros r Hr.
  rewrite holds_id_userId. unfold owned_by.
  destruct (String.eqb_spec (Todo.id r) i) as [Hi|]; [|reflexivity].
  destruct (String.eqb_spec (Todo.userId r) u) as [Hu|]; [|reflexivity].
  now elim (H r Hr Hi).
Qed.

(** The full router: a successful delete answers with the id. *)
Lemma deleteTodo_result (s : store) (caller : string) (now : timestamp)
  (t : Todo.t) :
  In t (todos s) -> Todo.userId t = caller ->
  fst (run now (todosRouter.deleteTodo caller (Todo.id t)) s)
  = Ok (Deleted.mk true (Todo.id t)).
Proof.
  intros Ht <-.
  destruct (select_head s _ t Ht (holds_own _ t)) as [r [rest [E [_ Hr]]]].
  unfold todosRouter.deleteTodo. cbn [run]. unfold delete at 1. cbn [fst].
  rewrite E. simpl. do 2 f_equal.
  rewrite holds_id_userId in Hr. apply andb_prop in Hr.
  now apply String.eqb_eq.
Qed.

(** C7. The copy of the router in [packages/api/src/routers/todos.ts]
    answers a successful delete with [{ success: true }], without the id; the
    full router answers the same call with [{ success: true, id }]. *)
Theorem earlierRouter_deleteTodo_omits_id :
  fst (run 40 (earlierRouter.deleteTodo Sample.alice "t1") Sample.db)
  = Ok (earlierRouter.Deleted.mk true)
  /\ fst (run 40 (todosRouter.deleteTodo Sample.alice "t1") Sample.db)
     = Ok (Deleted.mk true "t1").
Proof. split; reflexivity. Qed.

(** C8. [deleteTodo] on an id that names no task of the caller (no such
    task, or a task of somebody else) fails with NOT_FOUND and leaves the
    store as it was. *)
Theorem deleteTodo_not_found (s : store) (caller : string) (now : timestamp)
  (id : string) :
  (forall r, In r (todos s) -> Todo.id r = id -> Todo.userId r <> caller) ->
  run now (todosRouter.deleteTodo caller id) s
  = (Err (ORPCError "NOT_FOUND"
            "Todo not found or you don't have access to it"), s).
Proof.
  intros H. unfold todosRouter.deleteTodo. cbn [run].
  rewrite (delete_nothing s _ (select_not_owned s caller id H)).
  reflexivity.
Qed.

Lemma deleteTodo_not_found_witness :
  run 40 (todosRouter.deleteTodo Sample.alice "t3") Sample.db
  = (Err (ORPCError "NOT_FOUND"
            "Todo not found or you don't have access to it"), Sample.db)
  /\ In Sample.t3 (todos Sample.db).
Proof.
  split.
  - apply (deleteTodo_not_found Sample.db Sample.alice 40 "t3").
    simpl. intros r [<-|[<-|[<-|[]]]] E; discriminate.
  - simpl. tauto.
Defined.

(** The earlier copy fails the same way. *)
Lemma earlierRouter_deleteTodo_not_found (s : store) (caller : string)
  (now : timestamp) (id : string) :
  (forall r, In r (todos s) -> Todo.id r = id -> Todo.userId r <> caller) ->
  run now (earlierRouter.deleteTodo caller id) s
  = (Err (ORPCError "NOT_FOUND" "Todo not found"), s).
Proof.
  intros H. unfold earlierRouter.deleteTodo. cbn [run].
  rewrite (delete_nothing s _ (select_not_owned s caller id H)).
  reflexivity.
Qed.

(** ** getStats *)

Lemma count_filter {A : Type} (f g : A -> bool) (l : list A) :
  count g (filter f l) = count (fun x => f x && g x) l.
Proof. unfold count. now rewrite filter_andb. Qed.

Lemma length_filter_split {A : Type} (f : A -> bool) (l : list A) :
  length_Z l = count f l + count (fun x => negb (f x)) l.
Proof.
  unfold count, length_Z. rewrite <- Nat2Z.inj_add. f_equal.
  induction l as [|a l IH]; simpl; [reflexivity|].
  destruct (f a); simpl; lia.
Qed.

Lemma count_nonneg {A : Type} (f : A -> bool) (l : list A) : 0 <= count f l.
Proof. unfold count, length_Z. lia. Qed.

Lemma count_le {A : Type} (f : A -> bool) (l : list A) :
  count f l <= length_Z l.
Proof.
  rewrite (length_filter_split f l).
  pose proof (count_nonneg (fun x => negb (f x)) l). lia.
Qed.

Lemma select_userId (s : store) (u : string) :
  select s (Eq_userId u) = filter (owned_by u) (todos s).
Proof. unfold select. apply filter_ext. intros r. apply holds_userId. Qed.

Lemma run_getStats (s : store) (u : string) (zone : timestamp -> Z)
  (now : timestamp) :
  exists r,
    run now (todosRouter.getStats u zone now) s = (Ok r, s)
    /\ Stats.total r = count (owned_by u) (todos s)
    /\ Stats.completed r
       = count (fun t => owned_by u t && Todo.completed t) (todos s)
    /\ Stats.pending r = Stats.total r - Stats.completed r
    /\ Stats.completionRate r
       = todosRouter.completionRate (Stats.total r) (Stats.completed r).
Proof.
  eexists. split; [reflexivity|].
  cbn [Stats.total Stats.completed Stats.pending Stats.completionRate].
  rewrite select_userId.
  split; [reflexivity|]. split; [apply count_filter|]. split; reflexivity.
Qed.

(** C9. The statistics satisfy total = completed + pending, where total
    counts the owner's tasks, completed those of them that are completed, and
    pending the others. *)
Theorem getStats_total_is_completed_plus_pending (s : store)
  (caller : string) (zone : timestamp -> Z) (now : timestamp) :
  exists r,
    run now (todosRouter.getStats caller zone now) s = (Ok r, s)
    /\ Stats.total r = Stats.completed r + Stats.pending r
    /\ Stats.total r = count (owned_by caller) (todos s)
    /\ Stats.completed r
       = count (fun t => owned_by caller t && Todo.completed t) (todos s)
    /\ Stats.pending r
       = count (fun t => owned_by caller t && negb (Todo.completed t))
           (todos s).
Proof.
  destruct (run_getStats s caller zone now) as [r [Hr [Ht [Hc [Hp _]]]]].
  exists r. split; [exact Hr|].
  split; [lia|]. split; [exact Ht|]. split; [exact Hc|].
  rewrite Hp, Ht, Hc, <- !count_filter.
  pose proof (length_filter_split Todo.completed
                (filter (owned_by caller) (todos s))) as E.
  unfold count in *. lia.
Qed.

(** *** Binary64: the operations of [completionRate] never give NaN *)

Lemma iter_pos_invariant {A : Type} (P : A -> Prop) (f : A -> A) :
  (forall x, P x -> P (f x)) ->
  forall n x, P x -> P (iter_pos f n x).
Proof.
  intros Hf. induction n as [n IH|n IH|]; intros x Hx; simpl; auto.
Qed.

Lemma shr_1_nonneg (mrs : shr_record) :
  0 <= shr_m mrs -> 0 <= shr_m (shr_1 mrs).
Proof.
  destruct mrs as [m r s]. simpl.
  destruct m as [|[p|p|]|[p|p|]]; simpl; intros H; lia.
Qed.

Lemma shr_nonneg (mrs : shr_record) (e n : Z) :
  0 <= shr_m mrs -> 0 <= shr_m (fst (shr mrs e n)).
Proof.
  intros H. unfold shr. destruct n as [|p|p]; simpl; auto.
  apply iter_pos_invariant; [apply shr_1_nonneg|exact H].
Qed.

Lemma shr_fexp_nonneg (m e : Z) (l : location) :
  0 <= m -> 0 <= shr_m (fst (shr_fexp JS.prec JS.emax m e l)).
Proof.
  intros H. unfold shr_fexp. apply shr_nonneg.
  destruct l as [|[| |]]; exact H.
Qed.

Lemma round_nearest_even_nonneg (m : Z) (l : location) :
  0 <= m -> 0 <= round_nearest_even m l.
Proof.
  intros H. unfold round_nearest_even.
  destruct l as [|[| |]]; try destruct (Z.even m); lia.
Qed.

Lemma binary_round_aux_not_nan (sx : bool) (mx ex : Z) (lx : location) :
  0 <= mx -> is_nan (binary_round_aux JS.prec JS.emax sx mx ex lx) = false.
Proof.
  intros H. unfold binary_round_aux.
  pose proof (shr_fexp_nonneg mx ex lx H) as H1.
  destruct (shr_fexp JS.prec JS.emax mx ex lx) as [mrs' e']. simpl in H1.
  pose proof (shr_fexp_nonneg _ e' loc_Exact
                (round_nearest_even_nonneg _ (loc_of_shr_record mrs') H1))
    as H2.
  destruct (shr_fexp JS.prec JS.emax _ e' loc_Exact) as [mrs'' e''].
  simpl in H2.
  destruct (shr_m mrs'') as [|p|p]; [reflexivity| |lia].
  now destruct (e'' <=? JS.emax - JS.prec).
Qed.

Lemma binary_normalize_not_nan (m e : Z) (sz : bool) :
  is_nan (binary_normalize JS.prec JS.emax m e sz) = false.
Proof.
  unfold binary_normalize, binary_round.
  destruct m as [|p|p]; [reflexivity| |];
    destruct (shl_align _ _ _) as [mz ez];
    now apply binary_round_aux_not_nan.
Qed.

Lemma digits2_pos_bounds (p : positive) :
  2 ^ (Z.pos (digits2_pos p) - 1) <= Z.pos p < 2 ^ Z.pos (digits2_pos p).
Proof.
  induction p as [p IH|p IH|]; simpl digits2_pos.
  - rewrite Pos2Z.inj_succ.
    replace (Z.succ (Z.pos (digits2_pos p)) - 1)
      with (Z.succ (Z.pos (digits2_pos p) - 1)) by lia.
    rewrite !Z.pow_succ_r by lia. lia.
  - rewrite Pos2Z.inj_succ.
    replace (Z.succ (Z.pos (digits2_pos p)) - 1)
      with (Z.succ (Z.pos (digits2_pos p) - 1)) by lia.
    rewrite !Z.pow_succ_r by lia. lia.
  - simpl. lia.
Qed.

Lemma digits2_pos_iter_xO (p k : positive) :
  Z.pos (digits2_pos (Pos.iter xO p k)) = Z.pos (digits2_pos p) + Z.pos k.
Proof.
  induction k as [|k IH] using Pos.peano_ind.
  - simpl. lia.
  - rewrite Pos.iter_succ. simpl digits2_pos.
    rewrite Pos2Z.inj_succ, IH. lia.
Qed.

Lemma binary_round_aux_canonical (sx : bool) (mz : positive) (ez : Z) :
  Z.pos (digits2_pos mz) = 53 -> -1074 <= ez <= 971 ->
  binary_round_aux JS.prec JS.emax sx (Z.pos mz) ez loc_Exact
  = S754_finite sx mz ez.
Proof.
  intros Hd He.
  assert (Hs : forall l, l = loc_Exact ->
             shr_fexp JS.prec JS.emax (Z.pos mz) ez l
             = (Build_shr_record (Z.pos mz) false false, ez)).
  { intros l ->. unfold shr_fexp, fexp, emin, Zdigits2, JS.prec, JS.emax.
    rewrite Hd.
    replace (Z.max (53 + ez - 53) (3 - 1024 - 53) - ez) with 0 by lia.
    reflexivity. }
  unfold binary_round_aux. rewrite (Hs _ eq_refl). simpl.
  rewrite (Hs _ eq_refl). simpl.
  match goal with
  | |- context [?a <=? ?b] => destruct (Z.leb_spec a b) as [_|Hgt]
  end; [reflexivity|].
  unfold JS.emax, JS.prec in Hgt. lia.
Qed.

Lemma of_Z_finite (n : Z) :
  0 < n < 2 ^ 53 -> exists m e, JS.of_Z n = S754_finite false m e.
Proof.
  intros Hn. destruct n as [|p|p]; try lia.
  pose proof (digits2_pos_bounds p) as [Hlo Hhi].
  assert (Hd : Z.pos (digits2_pos p) <= 53).
  { destruct (Z.le_gt_cases (Z.pos (digits2_pos p)) 53) as [|Hgt]; [easy|].
    assert (2 ^ 53 <= 2 ^ (Z.pos (digits2_pos p) - 1))
      by (apply Z.pow_le_mono_r; lia).
    lia. }
  unfold JS.of_Z, binary_normalize, binary_round, shl_align.
  unfold fexp, emin, JS.prec, JS.emax.
  replace (Z.max (Z.pos (digits2_pos p) + 0 - 53) (3 - 1024 - 53) - 0)
    with (Z.pos (digits2_pos p) - 53) by lia.
  replace (Z.max (Z.pos (digits2_pos p) + 0 - 53) (3 - 1024 - 53))
    with (Z.pos (digits2_pos p) - 53) by lia.
  destruct (Z.pos (digits2_pos p) - 53) as [|k|k] eqn:E; try lia.
  - eexists _, _. apply binary_round_aux_canonical; lia.
  - eexists _, _. apply binary_round_aux_canonical.
    + rewrite digits2_pos_iter_xO. lia.
    + lia.
Qed.

Lemma of_Z_not_nan (n : Z) : is_nan (JS.of_Z n) = false.
Proof. apply binary_normalize_not_nan. Qed.

Lemma div_not_nan (c t : Z) :
  0 <= c < 2 ^ 53 -> 0 < t < 2 ^ 53 ->
  is_nan (JS.div (JS.of_Z c) (JS.of_Z t)) = false.
Proof.
  intros Hc Ht. destruct (of_Z_finite t Ht) as [mt [et ->]].
  assert (Hcz : c = 0 \/ 0 < c < 2 ^ 53) by lia.
  destruct Hcz as [->|Hc'].
  - reflexivity.
  - destruct (of_Z_finite c Hc') as [mc [ec ->]].
    unfold JS.div, SFdiv.
    destruct (SFdiv_core_binary _ _ _ _ _ _) as [[mz ez] lz] eqn:E.
    apply binary_round_aux_not_nan.
    unfold SFdiv_core_binary in E.
    match type of E with
    | (let '(q, r) := Z.div_eucl ?a ?b in _) = _ =>
        pose proof (Z.div_pos a b) as Hq;
        unfold Z.div in Hq; destruct (Z.div_eucl a b) as [q r];
        injection E as <- _ _; simpl in Hq; apply Hq; [|lia]
    end.
    match goal with
    | |- 0 <= match ?s with _ => _ end => destruct s
    end; try lia.
    apply Z.shiftl_nonneg. lia.
Qed.

Lemma mul_not_nan (x : JS.number) (m : positive) (e : Z) :
  is_nan x = false -> is_nan (JS.mul x (S754_finite false m e)) = false.
Proof.
  destruct x as [s|s| |s mx ex]; simpl; try reflexivity; try discriminate.
  intros _. now apply binary_round_aux_not_nan.
Qed.

Lemma Math_round_not_nan (x : JS.number) :
  is_nan x = false -> is_nan (JS.Math_round x) = false.
Proof.
  destruct x as [s|s| |s m e]; simpl; try reflexivity; try discriminate.
  intros _. destruct (0 <=? e); [reflexivity|].
  apply binary_normalize_not_nan.
Qed.

Lemma completionRate_not_nan (total completed : Z) :
  0 <= total < 2 ^ 53 -> 0 <= completed <= total ->
  is_nan (todosRouter.completionRate total completed) = false.
Proof.
  intros Ht Hc. unfold todosRouter.completionRate.
  destruct (Z.ltb_spec 0 total); [|reflexivity].
  apply Math_round_not_nan.
  destruct (of_Z_finite 100) as [m [e ->]]; [lia|].
  apply mul_not_nan, div_not_nan; lia.
Qed.

(** *** The percentage *)

Lemma number_eqb_eq (x y : JS.number) : number_eqb x y = true -> x = y.
Proof.
  destruct x as [a|a| |a m e], y as [b|b| |b n f]; simpl;
    try discriminate; try reflexivity; intros H.
  - now rewrite (Bool.eqb_prop _ _ H).
  - now rewrite (Bool.eqb_prop _ _ H).
  - apply andb_prop in H. destruct H as [H He].
    apply andb_prop in H. destruct H as [Hs Hm].
    apply Bool.eqb_prop in Hs. apply Pos.eqb_eq in Hm. apply Z.eqb_eq in He.
    now subst.
Qed.

Lemma rates_exact_below_40 : rates_exact_below 40 = true.
Proof. vm_compute. reflexivity. Qed.

(** Up to 39 tasks the computed percentage is the exactly rounded one. *)
Lemma completionRate_exact_below_40 (total completed : Z) :
  0 < total < 40 -> 0 <= completed <= total ->
  todosRouter.completionRate total completed
  = JS.of_Z (Claimed.completionRate total completed).
Proof.
  intros Ht Hc.
  pose proof rates_exact_below_40 as H. unfold rates_exact_below in H.
  rewrite forallb_forall in H.
  specialize (H (Z.to_nat total)).
  rewrite forallb_forall in H.
  specialize (fun Hn => H Hn (Z.to_nat completed)).
  unfold rate_exact in H. rewrite !Z2Nat.id in H by lia.
  apply number_eqb_eq, H; apply in_seq; lia.
Qed.

(** C4. [getStats] returns, and its [completionRate] is 0 when the owner has
    no task and is never NaN.  With tasks it is computed as [Math.round] of
    the double-precision product (completed / total) * 100, which is the
    rounded percentage round(100 * completed / total) of the claim for every
    total below 40; at 23 of 40 the two part, as evaluated further down. *)
Theorem getStats_completionRate (s : store) (caller : string)
  (zone : timestamp -> Z) (now : timestamp) :
  exists r,
    run now (todosRouter.getStats caller zone now) s = (Ok r, s)
    /\ Stats.total r = count (owned_by caller) (todos s)
    /\ Stats.completed r
       = count (fun t => owned_by caller t && Todo.completed t) (todos s)
    /\ (Stats.total r = 0 -> Stats.completionRate r = JS.of_Z 0)
    /\ (0 < Stats.total r ->
        Stats.completionRate r
        = JS.Math_round
            (JS.mul (JS.div (JS.of_Z (Stats.completed r))
                       (JS.of_Z (Stats.total r)))
               (JS.of_Z 100)))
    /\ (Stats.total r < 2 ^ 53 -> is_nan (Stats.completionRate r) = false)
    /\ (0 < Stats.total r < 40 ->
        Stats.completionRate r
        = JS.of_Z (Claimed.completionRate (Stats.total r)
                     (Stats.completed r))).
Proof.
  destruct (run_getStats s caller zone now) as [r [Hr [Ht [Hc [_ Hrate]]]]].
  exists r. split; [exact Hr|]. split; [exact Ht|]. split; [exact Hc|].
  assert (Hle : 0 <= Stats.completed r <= Stats.total r).
  { rewrite Hc, Ht. split; [apply count_nonneg|].
    rewrite <- count_filter.
    exact (count_le Todo.completed (filter (owned_by caller) (todos s))). }
  rewrite Hrate. unfold todosRouter.completionRate at 1 2.
  split; [|split; [|split]].
  - intros ->. reflexivity.
  - intros H. apply Z.ltb_lt in H. now rewrite H.
  - intros H. apply completionRate_not_nan; lia.
  - intros H. now apply completionRate_exact_below_40.
Qed.

Lemma getStats_completionRate_witness :
  exists r,
    run 0 (todosRouter.getStats Sample.alice Sample.utc 0) Sample.db
    = (Ok r, Sample.db)
    /\ Stats.total r = 2
    /\ Stats.completed r = 1
    /\ is_nan (Stats.completionRate r) = false
    /\ Stats.completionRate r = JS.of_Z 50.
Proof.
  destruct (getStats_completionRate Sample.db Sample.alice Sample.utc 0)
    as [r [Hr [Ht [Hc [_ [_ [Hnan Hexact]]]]]]].
  exists r. split; [exact Hr|].
  change (Stats.total r = 2) in Ht. change (Stats.completed r = 1) in Hc.
  split; [exact Ht|]. split; [exact Hc|].
  split; [apply Hnan; rewrite Ht; reflexivity|].
  rewrite Hexact by (rewrite Ht; lia).
  rewrite Ht, Hc. reflexivity.
Defined.

(** C4, against the claim: with 23 of 40 tasks completed the percentage is
    57.5, which rounds to 58; the quotient 23 / 40 is rounded to a double
    before it is multiplied, the product is 57.49999999999999 and
    [Math.round] gives 57. *)
Lemma getStats_completionRate_counterexample :
  exists r,
    run 0 (todosRouter.getStats Sample.alice Sample.utc 0)
      (Sample.tasks 40 23)
    = (Ok r, Sample.tasks 40 23)
    /\ Stats.total r = 40
    /\ Stats.completed r = 23
    /\ Stats.completionRate r = JS.of_Z 57
    /\ Claimed.completionRate (Stats.total r) (Stats.completed r) = 58
    /\ Stats.completionRate r
       <> JS.of_Z (Claimed.completionRate (Stats.total r)
                     (Stats.completed r)).
Proof.
  eexists. split; [reflexivity|].
  split; [reflexivity|]. split; [reflexivity|].
  split; [vm_compute; reflexivity|]. split; [reflexivity|].
  vm_compute. discriminate.
Qed.

(** ** updateTodo *)

Lemma mem_string_In (x : string) (l : list string) :
  mem_string x l = true <-> In x l.
Proof.
  unfold mem_string. rewrite existsb_exists. split.
  - intros [y [Hy E]]. apply String.eqb_eq in E. now subst.
  - intros H. exists x. split; [exact H|apply String.eqb_refl].
Qed.

Lemma replace_tagIds_nil (now : timestamp) (s : store) (i : string) :
  replace_tagIds now s i [] = delete_todoTags s i.
Proof. unfold replace_tagIds, delete_todoTags. simpl. now rewrite app_nil_r. Qed.

Lemma insert_after_delete (now : timestamp) (s : store) (i : string)
  (ids : list string) :
  In i (map Todo.id (todos s)) ->
  (forall g, In g ids -> In g (map Tag.id (tags s))) ->
  insert_todoTags now (delete_todoTags s i) (map (fun g => (i, g)) ids)
  = Some (replace_tagIds now s i ids).
Proof.
  intros Hi Hg. unfold insert_todoTags.
  assert (Hok : forallb (references_ok (delete_todoTags s i))
                  (map (fun g => (i, g)) ids) = true).
  { apply forallb_forall. intros v Hv.
    apply in_map_iff in Hv. destruct Hv as [g [<- Hin]].
    unfold references_ok. simpl.
    apply andb_true_intro. split; apply mem_string_In; auto. }
  rewrite Hok. unfold replace_tagIds. simpl. now rewrite map_map.
Qed.

Lemma todoTags_of_replaced (now : timestamp) (s : store) (i : string)
  (ids : list string) :
  todoTags_of (replace_tagIds now s i ids) i
  = map (fun g => TodoTag.mk i g now) ids.
Proof.
  unfold todoTags_of, replace_tagIds. simpl. rewrite filter_app.
  rewrite <- filter_andb, filter_none, filter_all; [reflexivity| |].
  - intros a Ha. apply in_map_iff in Ha. destruct Ha as [g [<- _]].
    simpl. apply String.eqb_refl.
  - intros a _. now destruct (TodoTag.todoId a =? i)%string.
Qed.

Lemma todoTags_of_other (now : timestamp) (s : store) (i other : string)
  (ids : list string) :
  other <> i ->
  todoTags_of (replace_tagIds now s i ids) other = todoTags_of s other.
Proof.
  intros Hne. unfold todoTags_of, replace_tagIds. simpl. rewrite filter_app.
  rewrite <- filter_andb, (filter_none _ (map _ ids)), app_nil_r.
  - apply filter_ext. intros a.
    destruct (String.eqb_spec (TodoTag.todoId a) other) as [->|];
      [|apply andb_false_r].
    apply String.eqb_neq in Hne. now rewrite Hne.
  - intros a Ha. apply in_map_iff in Ha. destruct Ha as [g [<- _]].
    simpl. apply String.eqb_neq. congruence.
Qed.

Lemma tagIds_of_replaced (now : timestamp) (s : store) (i : string)
  (ids : list string) :
  tagIds_of (replace_tagIds now s i ids) i = ids.
Proof.
  unfold tagIds_of. rewrite todoTags_of_replaced, map_map. apply map_id.
Qed.

(** The tags shown for a row whose id is [i], once its tags were replaced. *)
Lemma tags_of_replaced (now : timestamp) (s : store) (r : Todo.t)
  (ids : list string) :
  Enriched.tags
    (enrich (with_relations (replace_tagIds now s (Todo.id r) ids) r))
  = map (tag_named s) ids.
Proof.
  unfold enrich, with_relations. simpl.
  rewrite todoTags_of_replaced, !map_map. reflexivity.
Qed.

(** The final read of [updateTodo] and the read of [getTodo]. *)
Lemma select_id_head (s : store) (t : Todo.t) :
  In t (todos s) ->
  exists r rest,
    select s (Eq_id (Todo.id t)) = r :: rest /\ Todo.id r = Todo.id t.
Proof.
  intros Ht.
  assert (Hw : holds (todoTags s) (Eq_id (Todo.id t)) t = true)
    by (rewrite holds_id; apply String.eqb_refl).
  destruct (select_head s _ t Ht Hw) as [r [rest [E [_ Hr]]]].
  exists r, rest. split; [exact E|].
  rewrite holds_id in Hr. now apply String.eqb_eq.
Qed.

Lemma run_getTodo (s : store) (now : timestamp) (t : Todo.t) :
  In t (todos s) ->
  exists r,
    run now (todosRouter.getTodo (Todo.userId t) (Todo.id t)) s
    = (Ok (enrich (with_relations s r)), s)
    /\ In r (todos s)
    /\ Todo.id r = Todo.id t /\ Todo.userId r = Todo.userId t.
Proof.
  intros Ht.
  destruct (select_head s _ t Ht (holds_own _ t)) as [r [rest [E [Hin Hr]]]].
  exists r. unfold todosRouter.getTodo. cbn [run]. unfold findMany.
  cbn [ordered]. rewrite E. simpl. split; [reflexivity|].
  split; [exact Hin|].
  rewrite holds_id_userId in Hr. apply andb_prop in Hr. destruct Hr as [Hi Hu].
  split; now apply String.eqb_eq.
Qed.

Lemma run_fetch_updated (s : store) (now : timestamp) (t : Todo.t) :
  In t (todos s) ->
  exists r,
    run now (todosRouter.fetch_updated (Todo.id t)) s
    = (Ok (enrich (with_relations s r)), s)
    /\ hd_error (select s (Eq_id (Todo.id t))) = Some r
    /\ In r (todos s) /\ Todo.id r = Todo.id t.
Proof.
  intros Ht.
  assert (Hw : holds (todoTags s) (Eq_id (Todo.id t)) t = true)
    by (rewrite holds_id; apply String.eqb_refl).
  destruct (select_head s _ t Ht Hw) as [r [rest [E [Hin Hr]]]].
  exists r. unfold todosRouter.fetch_updated. cbn [run]. unfold findMany.
  cbn [ordered]. rewrite E. simpl. repeat split; [exact Hin|].
  rewrite holds_id in Hr. now apply String.eqb_eq.
Qed.

Lemma run_update_tags (s : store) (now : timestamp) (t : Todo.t)
  (ids : list string) :
  In t (todos s) ->
  (forall g, In g ids -> In g (map Tag.id (tags s))) ->
  let s' := replace_tagIds now s (Todo.id t) ids in
  exists r,
    run now (todosRouter.update_tags (Todo.id t) (Some ids)) s
    = (Ok (enrich (with_relations s' r)), s')
    /\ hd_error (select s' (Eq_id (Todo.id t))) = Some r
    /\ In r (todos s) /\ Todo.id r = Todo.id t.
Proof.
  intros Ht Hfk s'.
  destruct (run_fetch_updated s' now t Ht) as [r [Hrun Hr]].
  exists r. split; [|exact Hr].
  unfold todosRouter.update_tags. cbn [run].
  destruct ids as [|g ids].
  - subst s'. rewrite replace_tagIds_nil in *. exact Hrun.
  - cbn [run]. rewrite insert_after_delete; [exact Hrun| |exact Hfk].
    now apply in_map.
Qed.

Lemma fields_updated_row (s : store) (now : timestamp)
  (input : UpdateTodoInput.t) (t : Todo.t) :
  In t (todos s) -> Todo.id t = UpdateTodoInput.id input ->
  exists ta,
    In ta (todos (todosRouter.fields_updated now input s))
    /\ Todo.id ta = Todo.id t /\ Todo.userId ta = Todo.userId t.
Proof.
  intros Ht Hid. unfold todosRouter.fields_updated.
  destruct (todosRouter.has_updateData input).
  - exists (apply_set (todosRouter.updateTodo_set now input) t).
    split; [|split; reflexivity].
    apply update_In; [exact Ht|].
    rewrite holds_id, Hid. apply String.eqb_refl.
  - exists t. repeat split. exact Ht.
Qed.

Lemma fields_updated_tags (s : store) (now : timestamp)
  (input : UpdateTodoInput.t) :
  tags (todosRouter.fields_updated now input s) = tags s
  /\ todoTags (todosRouter.fields_updated now input s) = todoTags s.
Proof.
  unfold todosRouter.fields_updated.
  now destruct (todosRouter.has_updateData input).
Qed.

(** An owned task, tag ids that exist: the transaction commits, leaving the
    field update (if any) and the replaced associations. *)
Lemma run_updateTodo (s : store) (now : timestamp)
  (input : UpdateTodoInput.t) (ids : list string) (t : Todo.t) :
  In t (todos s) -> Todo.id t = UpdateTodoInput.id input ->
  UpdateTodoInput.tagIds input = Some ids ->
  (forall g, In g ids -> In g (map Tag.id (tags s))) ->
  let s' :=
    replace_tagIds now (todosRouter.fields_updated now input s)
      (Todo.id t) ids in
  exists r,
    run now (todosRouter.updateTodo (Todo.userId t) now input) s
    = (Ok (enrich (with_relations s' r)), s')
    /\ hd_error (select s' (Eq_id (Todo.id t))) = Some r
    /\ Todo.id r = Todo.id t.
Proof.
  intros Ht Hid Htags Hfk s'.
  destruct (fields_updated_row s now input t Ht Hid) as [ta [Hta [Hia _]]].
  assert (Hfk' : forall g, In g ids ->
            In g (map Tag.id (tags (todosRouter.fields_updated now input s)))).
  { rewrite (proj1 (fields_updated_tags s now input)). exact Hfk. }
  destruct (run_update_tags _ now ta ids Hta Hfk') as [r [Hrun [Hhd [_ Hr]]]].
  rewrite Hia in Hrun, Hhd, Hr. fold s' in Hrun, Hhd.
  exists r. split; [|split; assumption].
  destruct (select_head s _ t Ht (holds_own _ t)) as [r0 [rest0 [E0 _]]].
  unfold todosRouter.updateTodo. rewrite <- Hid, Htags. cbn [run].
  rewrite E0. unfold todosRouter.fields_updated in Hrun.
  rewrite <- Hid in Hrun.
  destruct (todosRouter.has_updateData input); cbn [run];
    now rewrite Hrun.
Qed.

(** C6 (as amended). For a task of the caller, [updateTodo] with [tagIds]
    supplied, each id naming an existing tag, commits and leaves the task
    associated with exactly the supplied ids, the associations of other
    tasks untouched; the returned task and a subsequent [getTodo] show the
    tags those ids name.  With [tagIds = []] the task is left without
    associations and [getTodo] shows an empty [tags] sequence. *)
Theorem updateTodo_replaces_tags (s : store) (caller : string)
  (now : timestamp) (input : UpdateTodoInput.t) (ids : list string)
  (t : Todo.t) :
  In t (todos s) -> Todo.id t = UpdateTodoInput.id input ->
  Todo.userId t = caller ->
  UpdateTodoInput.tagIds input = Some ids ->
  (forall g, In g ids -> In g (map Tag.id (tags s))) ->
  exists e s',
    run now (todosRouter.updateTodo caller now input) s = (Ok e, s')
    /\ tagIds_of s' (UpdateTodoInput.id input) = ids
    /\ (forall other,
          other <> UpdateTodoInput.id input ->
          todoTags_of s' other = todoTags_of s other)
    /\ Enriched.tags e = map (tag_named s) ids
    /\ exists e',
         run now (todosRouter.getTodo caller (UpdateTodoInput.id input)) s'
         = (Ok e', s')
         /\ Enriched.tags e' = map (tag_named s) ids
         /\ (ids = [] ->
             todoTags_of s' (UpdateTodoInput.id input) = []
             /\ Enriched.tags e' = []).
Proof.
  intros Ht Hid <- Htags Hfk.
  destruct (run_updateTodo s now input ids t Ht Hid Htags Hfk)
    as [r [Hrun [_ Hr]]].
  set (sa := todosRouter.fields_updated now input s) in *.
  set (s' := replace_tagIds now sa (Todo.id t) ids) in *.
  destruct (fields_updated_tags s now input) as [Htg Htt]. fold sa in Htg, Htt.
  assert (Hnamed : forall x, tag_named sa x = tag_named s x)
    by (intros x; unfold tag_named; now rewrite Htg).
  assert (Hshown : forall r', Todo.id r' = Todo.id t ->
            Enriched.tags (enrich (with_relations s' r'))
            = map (tag_named s) ids).
  { intros r' E. unfold s'. rewrite <- E, tags_of_replaced.
    apply map_ext, Hnamed. }
  exists (enrich (with_relations s' r)), s'. rewrite <- Hid.
  split; [exact Hrun|].
  split; [apply tagIds_of_replaced|].
  split.
  { intros other Hne. unfold s'. rewrite todoTags_of_other by exact Hne.
    unfold todoTags_of. now rewrite Htt. }
  split; [now apply Hshown|].
  destruct (fields_updated_row s now input t Ht Hid) as [ta [Hta [Hia Hua]]].
  fold sa in Hta.
  destruct (run_getTodo s' now ta Hta) as [r1 [Hget [_ [Hi1 _]]]].
  rewrite Hia, Hua in Hget. rewrite Hia in Hi1.
  exists (enrich (with_relations s' r1)).
  split; [exact Hget|]. split; [now apply Hshown|].
  intros ->. split.
  - unfold s'. now rewrite todoTags_of_replaced.
  - now rewrite Hshown.
Qed.

Lemma updateTodo_replaces_tags_witness :
  exists e s',
    run 40
      (todosRouter.updateTodo Sample.alice 40 (Sample.only_tagIds "t1" []))
      Sample.db
    = (Ok e, s')
    /\ tagIds_of s' "t1" = []
    /\ Enriched.tags e = []
    /\ exists e',
         run 40 (todosRouter.getTodo Sample.alice "t1") s' = (Ok e', s')
         /\ Enriched.tags e' = [].
Proof.
  destruct (updateTodo_replaces_tags Sample.db Sample.alice 40
              (Sample.only_tagIds "t1" []) [] Sample.t1)
    as [e [s' [Hrun [Hids [_ [He [e' [Hget [He' _]]]]]]]]].
  - simpl. tauto.
  - reflexivity.
  - reflexivity.
  - reflexivity.
  - simpl. tauto.
  - exists e, s'. repeat split; try assumption.
    exists e'. split; assumption.
Defined.

(** C6 as stated fails: a supplied id that names no tag is refused by the
    foreign key of the association table; the call fails and the task keeps
    the associations it had instead of the supplied ones. *)
Lemma updateTodo_replaces_tags_counterexample :
  exists s',
    run 40
      (todosRouter.updateTodo Sample.alice 40
         (Sample.only_tagIds "t1" ["ghost"]))
      Sample.db
    = (Err ForeignKeyViolation, s')
    /\ tagIds_of s' "t1" = ["g1"]
    /\ tagIds_of s' "t1" <> ["ghost"].
Proof.
  exists Sample.db. split; [reflexivity|].
  split; [reflexivity|]. discriminate.
Qed.

(** A supplied id that names no tag: the insert is refused and the
    transaction leaves the store as it was. *)
Lemma updateTodo_unknown_tag (s : store) (now : timestamp)
  (input : UpdateTodoInput.t) (ids : list string) (t : Todo.t) (g : string) :
  In t (todos s) -> Todo.id t = UpdateTodoInput.id input ->
  UpdateTodoInput.tagIds input = Some ids ->
  In g ids -> ~ In g (map Tag.id (tags s)) ->
  run now (todosRouter.updateTodo (Todo.userId t) now input) s
  = (Err ForeignKeyViolation, s).
Proof.
  intros Ht Hid Htags Hg Hno.
  destruct (select_head s _ t Ht (holds_own _ t)) as [r0 [rest0 [E0 _]]].
  unfold todosRouter.updateTodo. rewrite <- Hid, Htags. cbn [run].
  rewrite E0.
  assert (Hins : forall s0, tags s0 = tags s ->
            insert_todoTags now (delete_todoTags s0 (Todo.id t))
              (map (fun tagId => (Todo.id t, tagId)) ids) = None).
  { intros s0 Hs0. unfold insert_todoTags.
    destruct (forallb _ _) eqn:F; [|reflexivity].
    rewrite forallb_forall in F.
    specialize (F (Todo.id t, g) (in_map _ _ _ Hg)).
    unfold references_ok in F. apply andb_prop in F. destruct F as [_ F].
    apply mem_string_In in F. simpl in F. rewrite Hs0 in F. contradiction. }
  unfold todosRouter.update_tags.
  destruct ids as [|g0 ids]; [contradiction|].
  destruct (todosRouter.has_updateData input); cbn [run];
    now rewrite Hins.
Qed.

(** A tag-only update writes to the association table only. *)
Lemma insert_todoTags_todos (now : timestamp) (s s' : store)
  (vs : list (string * string)) :
  insert_todoTags now s vs = Some s' -> todos s' = todos s.
Proof.
  unfold insert_todoTags. destruct (forallb (references_ok s) vs);
    [|discriminate].
  intros E. injection E as <-. reflexivity.
Qed.

Lemma fetch_updated_store (s : store) (now : timestamp) (i : string) :
  snd (run now (todosRouter.fetch_updated i) s) = s.
Proof.
  unfold todosRouter.fetch_updated. cbn [run].
  now destruct (findMany s (Eq_id i) None).
Qed.

Lemma transaction_todos {A : Type} (now : timestamp) (body : prog A)
  (s : store) :
  todos (snd (run now body s)) = todos s ->
  todos (snd (run now (Transaction body) s)) = todos s.
Proof.
  cbn [run]. destruct (run now body s) as [[a|e] s0]; simpl; auto.
Qed.

(** The guard of the field update against the keys of the input. *)
Lemma has_updateData_none (input : UpdateTodoInput.t) :
  names_no_field input -> todosRouter.has_updateData input = false.
Proof.
  intros (H1 & H2 & H3 & H4 & H5).
  unfold todosRouter.has_updateData, todosRouter.updateData_keys.
  now rewrite H1, H2, H3, H4, H5.
Qed.

Lemma has_updateData_some (input : UpdateTodoInput.t) :
  names_a_field input -> todosRouter.has_updateData input = true.
Proof.
  unfold names_a_field, todosRouter.has_updateData,
    todosRouter.updateData_keys.
  destruct input as [i a b c d e g].
  cbn [UpdateTodoInput.title UpdateTodoInput.description
       UpdateTodoInput.completed UpdateTodoInput.priority
       UpdateTodoInput.dueDate].
  intros H.
  destruct a, b, c, d, e; try reflexivity.
  exfalso. destruct H as [H|[H|[H|[H|H]]]]; now apply H.
Qed.

Lemma updateTodo_tags_only_todos (s : store) (caller : string)
  (now : timestamp) (input : UpdateTodoInput.t) (ids : list string) :
  names_no_field input ->
  UpdateTodoInput.tagIds input = Some ids ->
  todos (snd (run now (todosRouter.updateTodo caller now input) s)) = todos s.
Proof.
  intros Hno Htags. apply has_updateData_none in Hno.
  unfold todosRouter.updateTodo.
  apply transaction_todos. cbn [run]. rewrite Hno, Htags.
  destruct (select s _) as [|r0 rest]; [reflexivity|].
  unfold todosRouter.update_tags. cbn [run].
  destruct ids as [|g ids].
  - now rewrite fetch_updated_store.
  - cbn [run].
    destruct (insert_todoTags now _ _) as [s''|] eqn:E; [|reflexivity].
    rewrite fetch_updated_store.
    now rewrite (insert_todoTags_todos _ _ _ _ E).
Qed.

(** C10. [updateTodo] with [tagIds] supplied and none of the keys title,
    description, completed, priority, dueDate in the call leaves the [todos]
    table as it was, whatever the outcome; for a task of the caller it
    replaces the associations and returns the task row unchanged,
    [updatedAt] included.  A call that has one of the keys with the value
    [undefined] is not covered; one is evaluated further down. *)
Theorem updateTodo_tags_only_keeps_updatedAt (s : store) (caller : string)
  (now : timestamp) (input : UpdateTodoInput.t) (ids : list string) :
  UpdateTodoInput.title input = Absent ->
  UpdateTodoInput.description input = Absent ->
  UpdateTodoInput.completed input = Absent ->
  UpdateTodoInput.priority input = Absent ->
  UpdateTodoInput.dueDate input = Absent ->
  UpdateTodoInput.tagIds input = Some ids ->
  todos (snd (run now (todosRouter.updateTodo caller now input) s)) = todos s
  /\ forall t,
       pk_unique s -> In t (todos s) ->
       Todo.id t = UpdateTodoInput.id input -> Todo.userId t = caller ->
       (forall g, In g ids -> In g (map Tag.id (tags s))) ->
       exists e s',
         run now (todosRouter.updateTodo caller now input) s = (Ok e, s')
         /\ todos s' = todos s
         /\ In t (todos s')
         /\ Enriched.todo e = t
         /\ Todo.updatedAt (Enriched.todo e) = Todo.updatedAt t
         /\ tagIds_of s' (UpdateTodoInput.id input) = ids.
Proof.
  intros H1 H2 H3 H4 H5 Htags.
  assert (Hnone : names_no_field input) by (repeat split; assumption).
  split; [now apply (updateTodo_tags_only_todos s caller now input ids)|].
  intros t Hpk Ht Hid <- Hfk.
  destruct (run_updateTodo s now input ids t Ht Hid Htags Hfk)
    as [r [Hrun [Hhd _]]].
  unfold todosRouter.fields_updated in Hrun, Hhd.
  rewrite (has_updateData_none input Hnone) in Hrun, Hhd.
  set (s' := replace_tagIds now s (Todo.id t) ids) in *.
  assert (Hsel : select s' (Eq_id (Todo.id t)) = [t])
    by (apply select_id; [exact (proj1 Hpk)|exact Ht]).
  rewrite Hsel in Hhd. simpl in Hhd. injection Hhd as <-.
  exists (enrich (with_relations s' t)), s'.
  split; [exact Hrun|]. repeat split; try assumption.
  rewrite <- Hid. apply tagIds_of_replaced.
Qed.

Lemma updateTodo_tags_only_keeps_updatedAt_witness :
  todos (snd (run 40
                (todosRouter.updateTodo Sample.alice 40
                   (Sample.only_tagIds "t1" ["g2"])) Sample.db))
  = todos Sample.db
  /\ exists e s',
       run 40
         (todosRouter.updateTodo Sample.alice 40
            (Sample.only_tagIds "t1" ["g2"])) Sample.db
       = (Ok e, s')
       /\ todos s' = todos Sample.db
       /\ In Sample.t1 (todos s')
       /\ Enriched.todo e = Sample.t1
       /\ Todo.updatedAt (Enriched.todo e) = 10
       /\ tagIds_of s' "t1" = ["g2"].
Proof.
  destruct (updateTodo_tags_only_keeps_updatedAt Sample.db Sample.alice 40
              (Sample.only_tagIds "t1" ["g2"]) ["g2"]
              eq_refl eq_refl eq_refl eq_refl eq_refl eq_refl)
    as [Hkeep Hown].
  split; [exact Hkeep|].
  apply (Hown Sample.t1).
  - split; repeat constructor; simpl; intuition discriminate.
  - simpl. tauto.
  - reflexivity.
  - reflexivity.
  - simpl. intros g [<-|[]]. tauto.
Defined.

(** C10, against the claim: a call that carries [tagIds] and the key
    [title] with the value [undefined] supplies no scalar field, yet the key
    counts for [Object.keys]: the update runs, the columns keep their values
    and [updatedAt] moves from 10 to 40. *)
Lemma updateTodo_undefined_key_counterexample :
  exists e s',
    run 40
      (todosRouter.updateTodo Sample.alice 40
         (UpdateTodoInput.mk "t1" Undefined Absent Absent Absent Absent
            (Some ["g1"])))
      Sample.db
    = (Ok e, s')
    /\ Todo.title (Enriched.todo e) = Todo.title Sample.t1
    /\ Todo.updatedAt Sample.t1 = 10
    /\ Todo.updatedAt (Enriched.todo e) = 40
    /\ In (Enriched.todo e) (todos s')
    /\ todos s' <> todos Sample.db.
Proof.
  eexists _, _. split; [reflexivity|].
  split; [reflexivity|]. split; [reflexivity|]. split; [reflexivity|].
  split; [left; reflexivity|]. discriminate.
Qed.

(** * Further properties of the router *)

(** ** Integrity is kept *)

Lemma filter_keeps_keys_unique {K R : Type} (key : R -> K)
  (keep : R -> bool) (rows : list R) :
  NoDup (map key rows) -> NoDup (map key (filter keep rows)).
Proof.
  intros Hnd. induction rows as [|r rows IH]; simpl; [constructor|].
  simpl in Hnd. inversion Hnd as [|? ? Hr Hrows]; subst.
  destruct (keep r); simpl; [|now apply IH].
  constructor; [|now apply IH].
  intros Hin. apply Hr. apply in_map_iff in Hin.
  destruct Hin as [x [E Hx]]. apply filter_In in Hx.
  apply in_map_iff. exists x. tauto.
Qed.

Lemma In_map_filter_negb {A : Type} (key : A -> string) (p : A -> bool)
  (l : list A) (i : string) :
  In i (map key l) -> ~ In i (map key (filter p l)) ->
  In i (map key (filter (fun x => negb (p x)) l)).
Proof.
  intros Hin Hno. apply in_map_iff in Hin. destruct Hin as [x [E Hx]].
  apply in_map_iff. exists x. split; [exact E|].
  apply filter_In. split; [exact Hx|].
  destruct (p x) eqn:Hp; [|reflexivity].
  exfalso. apply Hno. apply in_map_iff. exists x.
  split; [exact E|]. apply filter_In. now split.
Qed.

Lemma mem_string_false (x : string) (l : list string) :
  mem_string x l = false <-> ~ In x l.
Proof.
  rewrite <- mem_string_In. now destruct (mem_string x l).
Qed.

Lemma update_integrity (s : store) (v : SetTodo.t) (w : SQL) :
  integrity s -> integrity (snd (update s v w)).
Proof.
  intros [Hpk Href]. split; [now apply update_pk_unique|].
  intros a Ha. rewrite update_ids. exact (Href a Ha).
Qed.

Lemma delete_integrity (s : store) (w : SQL) :
  integrity s -> integrity (snd (delete s w)).
Proof.
  intros [[Ht Hg] Href]. split; [split|].
  - simpl. now apply filter_keeps_keys_unique.
  - exact Hg.
  - intros a Ha. simpl in Ha. apply filter_In in Ha. destruct Ha as [Ha Hm].
    apply negb_true_iff, mem_string_false in Hm.
    destruct (Href a Ha) as [H1 H2]. split; [|exact H2].
    simpl. now apply In_map_filter_negb.
Qed.

Lemma delete_todoTags_integrity (s : store) (i : string) :
  integrity s -> integrity (delete_todoTags s i).
Proof.
  intros [Hpk Href]. split; [exact Hpk|].
  intros a Ha. simpl in Ha. apply filter_In in Ha. now apply Href.
Qed.

Lemma insert_todoTags_integrity (now : timestamp) (s s' : store)
  (vs : list (string * string)) :
  insert_todoTags now s vs = Some s' -> integrity s -> integrity s'.
Proof.
  unfold insert_todoTags.
  destruct (forallb (references_ok s) vs) eqn:F; [|discriminate].
  intros E [Hpk Href]. injection E as <-. split; [exact Hpk|].
  intros a Ha. simpl in Ha. apply in_app_or in Ha. destruct Ha as [Ha|Ha].
  - now apply Href.
  - apply in_map_iff in Ha. destruct Ha as [v [<- Hv]].
    rewrite forallb_forall in F. specialize (F v Hv).
    unfold references_ok in F. apply andb_prop in F.
    simpl. split; apply mem_string_In; tauto.
Qed.

(** No program of statements breaks the integrity of the store. *)
Lemma run_keeps_integrity {A : Type} (now : timestamp) (p : prog A)
  (s : store) : integrity s -> integrity (snd (run now p s)).
Proof.
  revert s.
  induction p as [a|e|w k IH|w o k IH|v w k IH|w k IH|i k IH|vs k IH|body IH];
    intros s Hs; cbn [run].
  - exact Hs.
  - exact Hs.
  - now apply IH.
  - now apply IH.
  - apply IH. now apply update_integrity.
  - apply IH. now apply delete_integrity.
  - apply IH. now apply delete_todoTags_integrity.
  - destruct (insert_todoTags now s vs) as [s'|] eqn:E; [|exact Hs].
    apply IH. exact (insert_todoTags_integrity now s s' vs E Hs).
  - specialize (IH s Hs).
    destruct (run now body s) as [[a|e] s']; [exact IH|exact Hs].
Qed.

Lemma integrity_sample : integrity Sample.db.
Proof.
  split; [split; repeat constructor; simpl; intuition discriminate|].
  intros a [<-|[<-|[]]]; simpl; tauto.
Qed.

(** X1. [updateTodo], [toggleTodo] and [deleteTodo] keep the integrity of the
    store, whatever their input and outcome: ids stay unique and every
    association row still references an existing todo and an existing tag. *)
Theorem mutations_keep_integrity (s : store) (caller : string)
  (now : timestamp) (input : UpdateTodoInput.t) (id : string) :
  integrity s ->
  integrity (snd (run now (todosRouter.updateTodo caller now input) s))
  /\ integrity (snd (run now (todosRouter.toggleTodo caller now id) s))
  /\ integrity (snd (run now (todosRouter.deleteTodo caller id) s)).
Proof.
  intros H. repeat split; now apply run_keeps_integrity.
Qed.

Lemma mutations_keep_integrity_witness :
  integrity
    (snd (run 40
            (todosRouter.updateTodo Sample.alice 40
               (Sample.only_tagIds "t1" ["g2"])) Sample.db))
  /\ integrity
       (snd (run 40 (todosRouter.toggleTodo Sample.alice 40 "t1") Sample.db))
  /\ integrity
       (snd (run 40 (todosRouter.deleteTodo Sample.alice "t1") Sample.db)).
Proof.
  apply (mutations_keep_integrity Sample.db Sample.alice 40
           (Sample.only_tagIds "t1" ["g2"]) "t1").
  split; [split; repeat constructor; simpl; intuition discriminate|].
  intros a [<-|[<-|[]]]; simpl; tauto.
Defined.

Lemma NoDup_snoc {A : Type} (l : list A) (x : A) :
  NoDup l -> ~ In x l -> NoDup (l ++ [x]).
Proof.
  induction l as [|a l IH]; simpl; intros Hl Hx.
  - constructor; [tauto|constructor].
  - inversion Hl as [|? ? Ha Hl']; subst. constructor.
    + intros Hin. apply in_app_or in Hin. simpl in Hin.
      destruct Hin as [Hin|[E|[]]]; [tauto|]. apply Hx. now left.
    + apply IH; [exact Hl'|]. intros Hin. apply Hx. now right.
Qed.

Lemma insert_todo_integrity (uuid : string) (now : timestamp) (s s' : store)
  (v : NewTodo.t) (r : Todo.t) :
  insert_todo uuid now s v = Some (r, s') -> integrity s -> integrity s'.
Proof.
  unfold insert_todo.
  destruct (mem_string uuid (map Todo.id (todos s))) eqn:M; [discriminate|].
  apply mem_string_false in M.
  intros E [[Ht Hg] Href]. injection E as <- <-. split; [split|].
  - simpl. rewrite map_app. simpl. now apply NoDup_snoc.
  - exact Hg.
  - intros a Ha. destruct (Href a Ha) as [H1 H2]. split; [|exact H2].
    simpl. rewrite map_app. apply in_or_app. now left.
Qed.

Lemma insert_tag_integrity (uuid : string) (now : timestamp) (s s' : store)
  (name : string) (color : option string) (u : string) (g : Tag.t) :
  insert_tag uuid now s name color u = Some (g, s') ->
  integrity s -> integrity s'.
Proof.
  unfold insert_tag.
  destruct (mem_string uuid (map Tag.id (tags s))) eqn:M; [discriminate|].
  apply mem_string_false in M.
  intros E [[Ht Hg] Href]. injection E as <- <-. split; [split|].
  - exact Ht.
  - simpl. rewrite map_app. simpl. now apply NoDup_snoc.
  - intros a Ha. destruct (Href a Ha) as [H1 H2]. split; [exact H1|].
    simpl. rewrite map_app. apply in_or_app. now left.
Qed.

Lemma delete_tags_integrity (s : store) (w : TagSQL) :
  integrity s -> integrity (snd (delete_tags s w)).
Proof.
  intros [[Ht Hg] Href]. split; [split|].
  - exact Ht.
  - simpl. now apply filter_keeps_keys_unique.
  - intros a Ha. simpl in Ha. apply filter_In in Ha. destruct Ha as [Ha Hm].
    apply negb_true_iff, mem_string_false in Hm.
    destruct (Href a Ha) as [H1 H2]. split; [exact H1|].
    simpl. now apply In_map_filter_negb.
Qed.

Lemma transaction_integrity {A : Type} (m : action A) (s : store) :
  integrity s -> integrity (snd (m s)) ->
  integrity (snd (transaction m s)).
Proof.
  intros Hs Hm. unfold transaction.
  destruct (m s) as [[a|f] s']; [exact Hm|exact Hs].
Qed.

Lemma lift_integrity {A : Type} (now : timestamp) (p : prog A) (s : store) :
  integrity s -> integrity (snd (lift now p s)).
Proof.
  intros Hs. pose proof (run_keeps_integrity now p s Hs) as H.
  unfold lift. now destruct (run now p s) as [[a|e] s'].
Qed.

Lemma createTodo_integrity (uuid : string) (now : timestamp) (u : string)
  (input : CreateTodoInput.t) (s : store) :
  integrity s ->
  integrity (snd (todosRouter'.createTodo uuid now u input s)).
Proof.
  intros Hs. unfold todosRouter'.createTodo.
  apply transaction_integrity; [exact Hs|].
  unfold bind at 1, insertTodo.
  destruct (insert_todo uuid now s _) as [[r s1]|] eqn:E; [|exact Hs].
  pose proof (insert_todo_integrity _ _ _ _ _ _ E Hs) as H1.
  unfold bind.
  destruct (CreateTodoInput.tagIds input) as [[|g ids]|]; try exact H1.
  pose proof (lift_integrity now
                (InsertTodoTags
                   (map (fun tagId => (Todo.id r, tagId)) (g :: ids))
                   (fun _ => Return tt)) s1 H1) as H2.
  destruct (lift now _ s1) as [[a|f] s2]; exact H2.
Qed.

(** X2. [createTodo], [createTag] and [deleteTag] keep the integrity of the
    store as well, whether they succeed or fail. *)
Theorem inserts_and_deleteTag_keep_integrity (s : store) (uuid : string)
  (now : timestamp) (caller : string) (todo : CreateTodoInput.t)
  (tag : CreateTagInput.t) (id : string) :
  integrity s ->
  integrity (snd (todosRouter'.createTodo uuid now caller todo s))
  /\ integrity (snd (todosRouter'.createTag uuid now caller tag s))
  /\ integrity (snd (todosRouter'.deleteTag caller id s)).
Proof.
  intros Hs. split; [now apply createTodo_integrity|]. split.
  - unfold todosRouter'.createTag, bind, insertTag.
    destruct (insert_tag uuid now s _ _ _) as [[g s1]|] eqn:E; [|exact Hs].
    exact (insert_tag_integrity _ _ _ _ _ _ _ _ E Hs).
  - unfold todosRouter'.deleteTag, bind, deleteTags.
    pose proof (delete_tags_integrity s
                  (And_tag [Eq_tag_id id; Eq_tag_userId caller]) Hs) as H.
    now destruct (fst (delete_tags s _)).
Qed.

Lemma inserts_and_deleteTag_keep_integrity_witness :
  integrity
    (snd (todosRouter'.createTodo "t9" 40 Sample.alice
            (CreateTodoInput.mk "Call mum" None low None (Some ["g1"]))
            Sample.db))
  /\ integrity
       (snd (todosRouter'.createTag "t9" 40 Sample.alice
               (CreateTagInput.mk "urgent" "#FF0000") Sample.db))
  /\ integrity (snd (todosRouter'.deleteTag Sample.alice "g1" Sample.db)).
Proof.
  apply (inserts_and_deleteTag_keep_integrity Sample.db "t9" 40 Sample.alice
           (CreateTodoInput.mk "Call mum" None low None (Some ["g1"]))
           (CreateTagInput.mk "urgent" "#FF0000") "g1").
  split; [split; repeat constructor; simpl; intuition discriminate|].
  intros a [<-|[<-|[]]]; simpl; tauto.
Defined.

(** ** What the read procedures return *)

Lemma tag_named_some (s : store) (i : string) :
  In i (map Tag.id (tags s)) ->
  exists g, tag_named s i = Some g /\ In g (tags s) /\ Tag.id g = i.
Proof.
  unfold tag_named. induction (tags s) as [|a l IH]; simpl; [contradiction|].
  intros H. destruct (String.eqb_spec (Tag.id a) i) as [E|Hne].
  - exists a. tauto.
  - destruct H as [H|H]; [contradiction|].
    destruct (IH H) as [g [Hg [Hin Hid]]]. exists g. tauto.
Qed.

Lemma enrich_tags (s : store) (r : Todo.t) :
  Enriched.tags (enrich (with_relations s r))
  = map (tag_named s) (tagIds_of s (Todo.id r)).
Proof.
  unfold enrich, with_relations, tagIds_of. simpl.
  rewrite !map_map. reflexivity.
Qed.

Lemma tagIds_of_referenced (s : store) (i g : string) :
  references_hold s -> In g (tagIds_of s i) -> In g (map Tag.id (tags s)).
Proof.
  intros Href Hg. unfold tagIds_of, todoTags_of in Hg.
  apply in_map_iff in Hg. destruct Hg as [a [<- Ha]].
  apply filter_In in Ha. now apply Href.
Qed.

(** X3. In a store with integrity, the [tags] of every task [getTodos]
    returns are the tag rows its associations reference, one per association
    row and in their order; no entry is null. *)
Theorem getTodos_tags_are_the_referenced_rows (s : store) (now : timestamp)
  (caller : string) (input : GetTodosInput.t) :
  integrity s ->
  exists l,
    run now (todosRouter.getTodos caller input) s = (Ok l, s)
    /\ forall e,
         In e l ->
         Enriched.tags e
         = map (tag_named s) (tagIds_of s (Todo.id (Enriched.todo e)))
         /\ forall x,
              In x (Enriched.tags e) ->
              exists g,
                x = Some g /\ In g (tags s)
                /\ In (Tag.id g) (tagIds_of s (Todo.id (Enriched.todo e))).
Proof.
  intros [_ Href]. eexists. split; [apply run_getTodos|].
  intros e He. apply in_map_iff in He. destruct He as [w [<- Hw]].
  unfold findMany in Hw. apply in_map_iff in Hw. destruct Hw as [r [<- _]].
  rewrite enrich_tags. split; [reflexivity|].
  intros x Hx. apply in_map_iff in Hx. destruct Hx as [i [<- Hi]].
  simpl in Hi |- *.
  destruct (tag_named_some s i (tagIds_of_referenced s _ i Href Hi))
    as [g [Hg [Hin Hid]]].
  exists g. rewrite Hid. tauto.
Qed.

Lemma getTodos_tags_are_the_referenced_rows_witness :
  exists l,
    run 0 (todosRouter.getTodos Sample.alice Sample.no_filter) Sample.db
    = (Ok l, Sample.db)
    /\ forall e,
         In e l ->
         Enriched.tags e
         = map (tag_named Sample.db)
             (tagIds_of Sample.db (Todo.id (Enriched.todo e)))
         /\ forall x,
              In x (Enriched.tags e) ->
              exists g,
                x = Some g /\ In g (tags Sample.db)
                /\ In (Tag.id g)
                     (tagIds_of Sample.db (Todo.id (Enriched.todo e))).
Proof.
  apply (getTodos_tags_are_the_referenced_rows Sample.db 0 Sample.alice
           Sample.no_filter).
  split; [split; repeat constructor; simpl; intuition discriminate|].
  intros a [<-|[<-|[]]]; simpl; tauto.
Defined.

(** *** The order of the result *)

Lemma in_order_cons {A : Type} (le : A -> A -> bool) (x : A) (l : list A) :
  in_order le (x :: l)
  <-> match l with [] => True | y :: _ => le x y = true end
      /\ in_order le l.
Proof. destruct l as [|y l]; simpl; tauto. Qed.

Lemma insert_by_in_order {A : Type} (le : A -> A -> bool) (x : A)
  (l : list A) :
  (forall a b, le a b = false -> le b a = true) ->
  in_order le l -> in_order le (insert_by le x l).
Proof.
  intros Htot. induction l as [|y l IH]; intros Hl; [exact I|].
  cbn [insert_by]. destruct (le x y) eqn:Hxy.
  - apply in_order_cons. split; [exact Hxy|exact Hl].
  - apply in_order_cons in Hl. destruct Hl as [Hy Hl].
    apply in_order_cons. split; [|now apply IH].
    destruct l as [|z l]; cbn [insert_by]; [now apply Htot|].
    destruct (le x z); [now apply Htot|exact Hy].
Qed.

Lemma sort_by_in_order {A : Type} (le : A -> A -> bool) (l : list A) :
  (forall a b, le a b = false -> le b a = true) ->
  in_order le (sort_by le l).
Proof.
  intros Htot. induction l as [|x l IH]; [exact I|].
  simpl. now apply insert_by_in_order.
Qed.

Lemma column_leb_total (k : SortBy.t) (a b : Todo.t) :
  column_leb k a b = false -> column_leb k b a = true.
Proof.
  destruct k; simpl.
  - intros H. apply Z.leb_gt in H. apply Z.leb_le. lia.
  - destruct (Todo.dueDate a), (Todo.dueDate b); try discriminate; auto.
    intros H. apply Z.leb_gt in H. apply Z.leb_le. lia.
  - intros H. apply Z.leb_gt in H. apply Z.leb_le. lia.
  - intros H. destruct (String.leb_total (Todo.title a) (Todo.title b));
      congruence.
Qed.

(** X4. The rows [getTodos] returns are in the requested order: ascending
    by the chosen column for [asc], descending for [desc], where priorities
    compare by their declaration order (low, medium, high, urgent) and a
    missing due date counts as later than every date. *)
Theorem getTodos_in_requested_order (s : store) (now : timestamp)
  (caller : string) (input : GetTodosInput.t) :
  in_order
    (fun a b =>
       match GetTodosInput.sortOrder input with
       | SortOrder.asc => column_leb (GetTodosInput.sortBy input) a b
       | SortOrder.desc => column_leb (GetTodosInput.sortBy input) b a
       end)
    (getTodos_rows now caller input s).
Proof.
  rewrite getTodos_rows_eq. unfold order_leb.
  apply sort_by_in_order. intros a b.
  destruct (GetTodosInput.sortOrder input); apply column_leb_total.
Qed.

(** *** getTodos without filters, getTodo *)

Lemma applied_predicate_unfiltered (s : store) (u : string)
  (input : GetTodosInput.t) (r : Todo.t) :
  unfiltered input = true -> applied_predicate s u input r = owned_by u r.
Proof.
  unfold unfiltered, applied_predicate.
  destruct (GetTodosInput.completed input), (GetTodosInput.priority input);
    try discriminate.
  destruct (GetTodosInput.search input) as [q|];
    [destruct (truthy q); try discriminate|];
    (destruct (GetTodosInput.tagId input) as [g|];
     [destruct (truthy g); try discriminate|]);
    intros _; now rewrite !andb_true_r.
Qed.

Lemma sort_by_length {A : Type} (le : A -> A -> bool) (l : list A) :
  List.length (sort_by le l) = List.length l.
Proof. apply Permutation_length, sort_by_perm. Qed.

(** X5. When no filter takes effect, [getTodos] returns exactly the tasks of
    the caller, each once per stored row, and as many of them as [getStats]
    reports as [total]. *)
Theorem getTodos_unfiltered_returns_all_own (s : store) (now : timestamp)
  (caller : string) (input : GetTodosInput.t) (zone : timestamp -> Z) :
  unfiltered input = true ->
  Permutation (getTodos_rows now caller input s)
    (filter (owned_by caller) (todos s))
  /\ (forall r,
        In r (getTodos_rows now caller input s)
        <-> In r (todos s) /\ Todo.userId r = caller)
  /\ exists l st,
       run now (todosRouter.getTodos caller input) s = (Ok l, s)
       /\ run now (todosRouter.getStats caller zone now) s = (Ok st, s)
       /\ length_Z l = Stats.total st.
Proof.
  intros Hun.
  assert (Hrows : getTodos_rows now caller input s
                  = sort_by (order_leb (GetTodosInput.sortBy input)
                               (GetTodosInput.sortOrder input))
                      (filter (owned_by caller) (todos s))).
  { rewrite getTodos_rows_eq, select_conditions. f_equal.
    apply filter_ext. intros r. now apply applied_predicate_unfiltered. }
  assert (Hperm : Permutation (getTodos_rows now caller input s)
                    (filter (owned_by caller) (todos s)))
    by (rewrite Hrows; apply sort_by_perm).
  split; [exact Hperm|]. split.
  - intros r. split.
    + intros H. apply (Permutation_in _ Hperm), filter_In in H.
      destruct H as [H1 H2]. split; [exact H1|now apply String.eqb_eq].
    + intros [H1 H2]. apply (Permutation_in _ (Permutation_sym Hperm)).
      apply filter_In. split; [exact H1|now apply String.eqb_eq].
  - destruct (run_getStats s caller zone now) as [st [Hst [Ht _]]].
    eexists _, st. split; [apply run_getTodos|]. split; [exact Hst|].
    rewrite Ht. unfold length_Z, count, length_Z. f_equal.
    unfold findMany. rewrite !length_map. cbn [ordered].
    rewrite sort_by_length, select_conditions. f_equal.
    apply filter_ext. intros r. now apply applied_predicate_unfiltered.
Qed.

Lemma getTodos_unfiltered_returns_all_own_witness :
  Permutation (getTodos_rows 0 Sample.alice Sample.empty_tagId Sample.db)
    (filter (owned_by Sample.alice) (todos Sample.db))
  /\ (forall r,
        In r (getTodos_rows 0 Sample.alice Sample.empty_tagId Sample.db)
        <-> In r (todos Sample.db) /\ Todo.userId r = Sample.alice)
  /\ exists l st,
       run 0 (todosRouter.getTodos Sample.alice Sample.empty_tagId) Sample.db
       = (Ok l, Sample.db)
       /\ run 0 (todosRouter.getStats Sample.alice Sample.utc 0) Sample.db
          = (Ok st, Sample.db)
       /\ length_Z l = Stats.total st.
Proof.
  exact (getTodos_unfiltered_returns_all_own Sample.db 0 Sample.alice
           Sample.empty_tagId Sample.utc eq_refl).
Defined.

Lemma run_getTodo_not_found (s : store) (now : timestamp) (u i : string) :
  (forall r, In r (todos s) -> Todo.id r = i -> Todo.userId r <> u) ->
  run now (todosRouter.getTodo u i) s = (Err todosRouter.not_found, s).
Proof.
  intros H. unfold todosRouter.getTodo. cbn [run]. unfold findMany.
  cbn [ordered]. now rewrite (select_not_owned s u i H).
Qed.

(** X6. [getTodo] fails with NOT_FOUND exactly when the id names no task of
    the caller (a missing id and somebody else's task alike); otherwise it
    returns the stored row with its association rows and the tags they
    name.  The store is not changed either way. *)
Theorem getTodo_found_iff_owned (s : store) (now : timestamp)
  (caller id : string) :
  ((forall r, In r (todos s) -> Todo.id r = id -> Todo.userId r <> caller) ->
   run now (todosRouter.getTodo caller id) s
   = (Err (ORPCError "NOT_FOUND"
             "Todo not found or you don't have access to it"), s))
  /\ (forall t,
        pk_unique s -> In t (todos s) ->
        Todo.id t = id -> Todo.userId t = caller ->
        exists e,
          run now (todosRouter.getTodo caller id) s = (Ok e, s)
          /\ Enriched.todo e = t
          /\ map fst (Enriched.todoTags e) = todoTags_of s id
          /\ Enriched.tags e = map (tag_named s) (tagIds_of s id)).
Proof.
  split; [apply run_getTodo_not_found|].
  intros t Hpk Ht <- <-.
  exists (enrich (with_relations s t)).
  split; [|split; [reflexivity|split]].
  - unfold todosRouter.getTodo. cbn [run]. unfold findMany. cbn [ordered].
    now rewrite (select_id_userId s t (proj1 Hpk) Ht).
  - simpl. rewrite map_map. simpl. apply map_id.
  - apply enrich_tags.
Qed.

Lemma getTodo_found_iff_owned_witness :
  run 0 (todosRouter.getTodo Sample.alice "t3") Sample.db
  = (Err (ORPCError "NOT_FOUND"
            "Todo not found or you don't have access to it"), Sample.db)
  /\ exists e,
       run 0 (todosRouter.getTodo Sample.alice "t1") Sample.db
       = (Ok e, Sample.db)
       /\ Enriched.todo e = Sample.t1
       /\ map fst (Enriched.todoTags e) = todoTags_of Sample.db "t1"
       /\ Enriched.tags e
          = map (tag_named Sample.db) (tagIds_of Sample.db "t1").
Proof.
  split.
  - apply (proj1 (getTodo_found_iff_owned Sample.db 0 Sample.alice "t3")).
    simpl. intros r [<-|[<-|[<-|[]]]] E; discriminate.
  - apply (proj2 (getTodo_found_iff_owned Sample.db 0 Sample.alice "t1")
             Sample.t1).
    + split; repeat constructor; simpl; intuition discriminate.
    + simpl. tauto.
    + reflexivity.
    + reflexivity.
Defined.

(** ** toggleTodo and updateTodo on the task row *)

Lemma replace_row_spec (s : store) (v : SetTodo.t) (t : Todo.t) :
  pk_unique s -> In t (todos s) ->
  snd (update s v (Eq_id (Todo.id t)))
  = mkStore (replace_row t (apply_set v t) (todos s)) (tags s) (todoTags s).
Proof.
  intros [Hnd _] Ht. unfold update, replace_row. simpl. f_equal.
  apply map_ext_in. intros r Hr. rewrite holds_id.
  destruct (String.eqb_spec (Todo.id r) (Todo.id t)) as [E|]; [|reflexivity].
  now rewrite (NoDup_map_inj Todo.id _ r t Hnd Hr Ht E).
Qed.

Lemma replace_row_keeps (old new r : Todo.t) (l : list Todo.t) :
  NoDup (map Todo.id l) -> In old l -> In r l -> r <> old ->
  In r (replace_row old new l).
Proof.
  intros Hnd Hold Hr Hne. unfold replace_row. apply in_map_iff. exists r.
  split; [|exact Hr].
  destruct (String.eqb_spec (Todo.id r) (Todo.id old)) as [E|]; [|reflexivity].
  elim Hne. exact (NoDup_map_inj Todo.id _ r old Hnd Hr Hold E).
Qed.

Lemma replace_row_new (old new : Todo.t) (l : list Todo.t) :
  In old l -> In new (replace_row old new l).
Proof.
  intros H. unfold replace_row. apply in_map_iff. exists old.
  now rewrite String.eqb_refl.
Qed.

Lemma run_toggleTodo_not_found (s : store) (now : timestamp) (u i : string) :
  (forall r, In r (todos s) -> Todo.id r = i -> Todo.userId r <> u) ->
  run now (todosRouter.toggleTodo u now i) s = (Err todosRouter.not_found, s).
Proof.
  intros H. unfold todosRouter.toggleTodo. cbn [run].
  now rewrite (select_not_owned s u i H).
Qed.

(** X7. [toggleTodo] on an id that names no task of the caller (missing, or
    somebody else's) fails with NOT_FOUND and changes nothing: in particular
    it cannot flip another user's task. *)
Theorem toggleTodo_not_found (s : store) (now : timestamp)
  (caller id : string) :
  (forall r, In r (todos s) -> Todo.id r = id -> Todo.userId r <> caller) ->
  run now (todosRouter.toggleTodo caller now id) s
  = (Err (ORPCError "NOT_FOUND"
            "Todo not found or you don't have access to it"), s).
Proof. apply run_toggleTodo_not_found. Qed.

Lemma toggleTodo_not_found_witness :
  run 40 (todosRouter.toggleTodo Sample.alice 40 "t3") Sample.db
  = (Err (ORPCError "NOT_FOUND"
            "Todo not found or you don't have access to it"), Sample.db).
Proof.
  apply (toggleTodo_not_found Sample.db 40 Sample.alice "t3").
  simpl. intros r [<-|[<-|[<-|[]]]] E; discriminate.
Defined.

(** X8. [toggleTodo] on a task of the caller returns and stores that row
    with [completed] negated and [updatedAt] set to the current time, every
    other column as it was; all other tasks, the tags and the associations
    are untouched. *)
Theorem toggleTodo_changes_one_row (s : store) (now : timestamp)
  (caller : string) (t : Todo.t) :
  pk_unique s -> In t (todos s) -> Todo.userId t = caller ->
  exists s',
    run now (todosRouter.toggleTodo caller now (Todo.id t)) s
    = (Ok (Some (toggled now t)), s')
    /\ todos s' = replace_row t (toggled now t) (todos s)
    /\ tags s' = tags s /\ todoTags s' = todoTags s
    /\ In (toggled now t) (todos s')
    /\ (forall r, In r (todos s) -> r <> t -> In r (todos s'))
    /\ List.length (todos s') = List.length (todos s).
Proof.
  intros Hpk Ht <-.
  eexists. split.
  - rewrite (run_toggleTodo s now t Hpk Ht).
    rewrite (replace_row_spec s _ t Hpk Ht). reflexivity.
  - simpl. repeat split.
    + now apply replace_row_new.
    + intros r Hr Hne. now apply replace_row_keeps; [apply Hpk| | |].
    + unfold replace_row. apply length_map.
Qed.

Lemma toggleTodo_changes_one_row_witness :
  exists s',
    run 40 (todosRouter.toggleTodo Sample.alice 40 "t1") Sample.db
    = (Ok (Some (toggled 40 Sample.t1)), s')
    /\ todos s' = replace_row Sample.t1 (toggled 40 Sample.t1)
                    (todos Sample.db)
    /\ tags s' = tags Sample.db /\ todoTags s' = todoTags Sample.db
    /\ In (toggled 40 Sample.t1) (todos s')
    /\ (forall r, In r (todos Sample.db) -> r <> Sample.t1 -> In r (todos s'))
    /\ List.length (todos s') = List.length (todos Sample.db).
Proof.
  apply (toggleTodo_changes_one_row Sample.db 40 Sample.alice Sample.t1).
  - split; repeat constructor; simpl; intuition discriminate.
  - simpl. tauto.
  - reflexivity.
Defined.

Lemma run_updateTodo_not_found (s : store) (now : timestamp) (u : string)
  (input : UpdateTodoInput.t) :
  (forall r, In r (todos s) ->
             Todo.id r = UpdateTodoInput.id input -> Todo.userId r <> u) ->
  run now (todosRouter.updateTodo u now input) s
  = (Err todosRouter.not_found, s).
Proof.
  intros H. unfold todosRouter.updateTodo. cbn [run].
  now rewrite (select_not_owned s u _ H).
Qed.

(** X9. [updateTodo] on an id that names no task of the caller fails with
    NOT_FOUND before any write: neither the task row of another user nor any
    association is changed, whatever fields and [tagIds] were supplied. *)
Theorem updateTodo_not_found (s : store) (now : timestamp) (caller : string)
  (input : UpdateTodoInput.t) :
  (forall r, In r (todos s) ->
             Todo.id r = UpdateTodoInput.id input ->
             Todo.userId r <> caller) ->
  run now (todosRouter.updateTodo caller now input) s
  = (Err (ORPCError "NOT_FOUND"
            "Todo not found or you don't have access to it"), s).
Proof. apply run_updateTodo_not_found. Qed.

Lemma updateTodo_not_found_witness :
  run 40
    (todosRouter.updateTodo Sample.alice 40
       (UpdateTodoInput.mk "t3" (Value "mine now") Absent (Value true)
          Absent Absent (Some [])))
    Sample.db
  = (Err (ORPCError "NOT_FOUND"
            "Todo not found or you don't have access to it"), Sample.db).
Proof.
  apply (updateTodo_not_found Sample.db 40 Sample.alice).
  simpl. intros r [<-|[<-|[<-|[]]]] E; discriminate.
Defined.

Lemma apply_updateTodo_set (now : timestamp) (input : UpdateTodoInput.t)
  (t : Todo.t) :
  apply_set (todosRouter.updateTodo_set now input) t = patched now input t.
Proof.
  destruct input as [i a b c d e g].
  unfold apply_set, patched, todosRouter.updateTodo_set, assign, supplied,
    defined. cbn.
  destruct a, b, c, d, e as [| |[x|]]; reflexivity.
Qed.

Lemma replace_row_ids (old new : Todo.t) (l : list Todo.t) :
  Todo.id new = Todo.id old ->
  map Todo.id (replace_row old new l) = map Todo.id l.
Proof.
  intros E. unfold replace_row. rewrite map_map. apply map_ext. intros r.
  destruct (String.eqb_spec (Todo.id r) (Todo.id old)) as [E'|];
    [congruence|reflexivity].
Qed.

Lemma run_fetch_updated_row (s : store) (now : timestamp) (t : Todo.t) :
  pk_unique s -> In t (todos s) ->
  run now (todosRouter.fetch_updated (Todo.id t)) s
  = (Ok (enrich (with_relations s t)), s).
Proof.
  intros Hpk Ht. unfold todosRouter.fetch_updated. cbn [run].
  unfold findMany. cbn [ordered].
  now rewrite (select_id s t (proj1 Hpk) Ht).
Qed.

(** X10. [updateTodo] without [tagIds] on a task of the caller.  As soon as
    one of the keys title, description, completed, priority, dueDate is in
    the call, the row is written: a key that carries a value takes that
    value (an explicit null clears description or due date), a key that is
    absent or [undefined] keeps its column, [updatedAt] becomes the current
    time (also when every key that is there is [undefined]), and [id], owner
    and [createdAt] stay; no other row changes.  With none of the five keys
    in the call the store is left exactly as it was.  Tags and associations
    are untouched either way. *)
Theorem updateTodo_applies_supplied_fields (s : store) (now : timestamp)
  (caller : string) (input : UpdateTodoInput.t) (t : Todo.t) :
  pk_unique s -> In t (todos s) ->
  Todo.id t = UpdateTodoInput.id input -> Todo.userId t = caller ->
  UpdateTodoInput.tagIds input = None ->
  exists e s',
    run now (todosRouter.updateTodo caller now input) s = (Ok e, s')
    /\ tags s' = tags s /\ todoTags s' = todoTags s
    /\ Enriched.tags e = map (tag_named s) (tagIds_of s (Todo.id t))
    /\ (names_a_field input ->
        Enriched.todo e = patched now input t
        /\ todos s' = replace_row t (patched now input t) (todos s)
        /\ forall r, In r (todos s) -> r <> t -> In r (todos s'))
    /\ (names_no_field input ->
        Enriched.todo e = t /\ s' = s).
Proof.
  intros Hpk Ht Hid <- Htags.
  unfold todosRouter.updateTodo. rewrite <- Hid, Htags. cbn [run].
  rewrite (select_id_userId s t (proj1 Hpk) Ht).
  unfold todosRouter.update_tags.
  destruct (todosRouter.has_updateData input) eqn:Hd; cbn [run].
  - rewrite (replace_row_spec s _ t Hpk Ht), apply_updateTodo_set.
    set (t' := patched now input t).
    set (s' := mkStore (replace_row t t' (todos s)) (tags s) (todoTags s)).
    assert (Hpk' : pk_unique s').
    { split; [|exact (proj2 Hpk)]. simpl.
      rewrite replace_row_ids by reflexivity. exact (proj1 Hpk). }
    assert (Ht' : In t' (todos s')) by now apply replace_row_new.
    change (Todo.id t) with (Todo.id t').
    rewrite (run_fetch_updated_row s' now t' Hpk' Ht').
    exists (enrich (with_relations s' t')), s'.
    split; [reflexivity|]. split; [reflexivity|]. split; [reflexivity|].
    split; [apply (enrich_tags s' t')|]. split.
    + intros _. split; [reflexivity|]. split; [reflexivity|].
      intros r Hr Hne. now apply replace_row_keeps; [apply Hpk| | |].
    + intros Hnone. rewrite (has_updateData_none input Hnone) in Hd.
      discriminate.
  - rewrite (run_fetch_updated_row s now t Hpk Ht).
    exists (enrich (with_relations s t)), s.
    split; [reflexivity|]. split; [reflexivity|]. split; [reflexivity|].
    split; [apply enrich_tags|]. split.
    + intros Hsome. rewrite (has_updateData_some input Hsome) in Hd.
      discriminate.
    + intros _. split; reflexivity.
Qed.

Lemma updateTodo_applies_supplied_fields_witness :
  exists e s',
    run 40
      (todosRouter.updateTodo Sample.alice 40
         (UpdateTodoInput.mk "t2" (Value "proj done") (Value None) Undefined
            Absent (Value None) None))
      Sample.db
    = (Ok e, s')
    /\ Todo.title (Enriched.todo e) = "proj done"
    /\ Todo.description (Enriched.todo e) = None
    /\ Todo.completed (Enriched.todo e) = true
    /\ Todo.dueDate (Enriched.todo e) = None
    /\ Todo.updatedAt (Enriched.todo e) = 40
    /\ todoTags s' = todoTags Sample.db.
Proof.
  destruct (updateTodo_applies_supplied_fields Sample.db 40 Sample.alice
              (UpdateTodoInput.mk "t2" (Value "proj done") (Value None)
                 Undefined Absent (Value None) None) Sample.t2)
    as [e [s' [Hrun [_ [Htt [_ [Hset _]]]]]]].
  - split; repeat constructor; simpl; intuition discriminate.
  - simpl. tauto.
  - reflexivity.
  - reflexivity.
  - reflexivity.
  - exists e, s'.
    assert (Hnames : names_a_field
                       (UpdateTodoInput.mk "t2" (Value "proj done")
                          (Value None) Undefined Absent (Value None) None))
      by (left; discriminate).
    destruct (Hset Hnames) as [He _]. rewrite He. repeat split; try reflexivity; assumption.
Defined.

(** X11. [updateTodo] is all or nothing: whenever it fails the store is
    exactly as before.  In particular, when a supplied tag id names no tag,
    the call fails after the field update and the deletion of the old
    associations were issued, and neither is persisted. *)
Theorem updateTodo_all_or_nothing (s : store) (now : timestamp)
  (caller : string) (input : UpdateTodoInput.t) :
  (forall e s',
     run now (todosRouter.updateTodo caller now input) s = (Err e, s') ->
     s' = s)
  /\ forall t ids g,
       In t (todos s) -> Todo.id t = UpdateTodoInput.id input ->
       Todo.userId t = caller ->
       UpdateTodoInput.tagIds input = Some ids ->
       In g ids -> ~ In g (map Tag.id (tags s)) ->
       run now (todosRouter.updateTodo caller now input) s
       = (Err ForeignKeyViolation, s).
Proof.
  split.
  - intros e s'. unfold todosRouter.updateTodo. cbn [run].
    destruct (run now _ s) as [[a|e0] s0]; [discriminate|].
    intros E. now injection E as _ <-.
  - intros t ids g Ht Hid <- Htags Hg Hno.
    exact (updateTodo_unknown_tag s now input ids t g Ht Hid Htags Hg Hno).
Qed.

Lemma updateTodo_all_or_nothing_witness :
  run 40
    (todosRouter.updateTodo Sample.alice 40
       (UpdateTodoInput.mk "t1" (Value "renamed") Absent Absent Absent
          Absent (Some ["g1"; "ghost"])))
    Sample.db
  = (Err ForeignKeyViolation, Sample.db).
Proof.
  apply (proj2 (updateTodo_all_or_nothing Sample.db 40 Sample.alice
                  (UpdateTodoInput.mk "t1" (Value "renamed") Absent Absent
                     Absent Absent (Some ["g1"; "ghost"])))
           Sample.t1 ["g1"; "ghost"] "ghost").
  - simpl. tauto.
  - reflexivity.
  - reflexivity.
  - reflexivity.
  - simpl. tauto.
  - simpl. intros [E|[E|[]]]; discriminate.
Defined.

(** ** deleteTodo when it succeeds *)

Lemma mem_string_singleton (x y : string) :
  mem_string x [y] = (x =? y)%string.
Proof. unfold mem_string. simpl. apply orb_false_r. Qed.

Lemma delete_owned (s : store) (t : Todo.t) :
  pk_unique s -> In t (todos s) ->
  delete s (And [Eq_id (Todo.id t); Eq_userId (Todo.userId t)])
  = ([t],
     mkStore
       (filter (fun r => negb (Todo.id r =? Todo.id t)%string) (todos s))
       (tags s)
       (filter (fun a => negb (TodoTag.todoId a =? Todo.id t)%string)
          (todoTags s))).
Proof.
  intros [Hnd _] Ht. unfold delete.
  rewrite (select_id_userId s t Hnd Ht). f_equal. f_equal.
  - apply filter_ext_in. intros r Hr. f_equal.
    rewrite holds_id_userId. unfold owned_by.
    destruct (String.eqb_spec (Todo.id r) (Todo.id t)) as [E|]; [|reflexivity].
    rewrite (NoDup_map_inj Todo.id _ r t Hnd Hr Ht E).
    apply String.eqb_refl.
  - apply filter_ext. intros a. cbn [map]. now rewrite mem_string_singleton.
Qed.

Lemma filter_key_out (s : store) (t r : Todo.t) :
  pk_unique s -> In t (todos s) -> In r (todos s) -> r <> t ->
  In r (filter (fun x => negb (Todo.id x =? Todo.id t)%string) (todos s)).
Proof.
  intros [Hnd _] Ht Hr Hne. apply filter_In. split; [exact Hr|].
  apply negb_true_iff, String.eqb_neq. intros E. apply Hne.
  exact (NoDup_map_inj Todo.id _ r t Hnd Hr Ht E).
Qed.

(** X12. A successful [deleteTodo] removes exactly the caller's task with
    that id and, by the cascade, exactly the association rows of that task;
    the other tasks, their associations and all tags stay.  Afterwards the
    id is gone: [getTodo] and a second [deleteTodo] on it fail with
    NOT_FOUND. *)
Theorem deleteTodo_removes_task_and_associations (s : store)
  (now : timestamp) (caller : string) (t : Todo.t) :
  pk_unique s -> In t (todos s) -> Todo.userId t = caller ->
  exists s',
    run now (todosRouter.deleteTodo caller (Todo.id t)) s
    = (Ok (Deleted.mk true (Todo.id t)), s')
    /\ ~ In (Todo.id t) (map Todo.id (todos s'))
    /\ (forall r, In r (todos s') <-> In r (todos s) /\ r <> t)
    /\ tags s' = tags s
    /\ todoTags_of s' (Todo.id t) = []
    /\ (forall a,
          In a (todoTags s')
          <-> In a (todoTags s) /\ TodoTag.todoId a <> Todo.id t)
    /\ run now (todosRouter.getTodo caller (Todo.id t)) s'
       = (Err todosRouter.not_found, s')
    /\ run now (todosRouter.deleteTodo caller (Todo.id t)) s'
       = (Err todosRouter.not_found, s').
Proof.
  intros Hpk Ht <-.
  set (s' := mkStore
               (filter (fun r => negb (Todo.id r =? Todo.id t)%string)
                  (todos s))
               (tags s)
               (filter (fun a => negb (TodoTag.todoId a =? Todo.id t)%string)
                  (todoTags s))).
  exists s'. split.
  { unfold todosRouter.deleteTodo. cbn [run].
    now rewrite (delete_owned s t Hpk Ht). }
  assert (Hgone : ~ In (Todo.id t) (map Todo.id (todos s'))).
  { intros H. apply in_map_iff in H. destruct H as [r [E Hr]].
    apply filter_In in Hr. destruct Hr as [_ Hr].
    apply negb_true_iff, String.eqb_neq in Hr. contradiction. }
  split; [exact Hgone|]. split.
  { intros r. split.
    - intros Hr. apply filter_In in Hr. destruct Hr as [Hr Hk].
      split; [exact Hr|]. intros ->. rewrite String.eqb_refl in Hk.
      discriminate.
    - intros [Hr Hne]. now apply filter_key_out. }
  split; [reflexivity|]. split.
  { unfold todoTags_of, s'. cbn [todoTags]. rewrite <- filter_andb.
    apply filter_none. intros a _.
    now destruct (TodoTag.todoId a =? Todo.id t)%string. }
  split.
  { intros a. unfold s'. cbn [todoTags].
    rewrite filter_In, negb_true_iff, String.eqb_neq. tauto. }
  assert (Hnone : forall r,
            In r (todos s') ->
            Todo.id r = Todo.id t -> Todo.userId r <> Todo.userId t).
  { intros r Hr E. elim Hgone. apply in_map_iff. now exists r. }
  split.
  - now apply run_getTodo_not_found.
  - unfold todosRouter.deleteTodo. cbn [run].
    rewrite delete_nothing; [reflexivity|].
    now apply select_not_owned.
Qed.

Lemma deleteTodo_removes_task_and_associations_witness :
  exists s',
    run 40 (todosRouter.deleteTodo Sample.alice "t1") Sample.db
    = (Ok (Deleted.mk true "t1"), s')
    /\ todos s' = [Sample.t2; Sample.t3]
    /\ todoTags s' = [TodoTag.mk "t3" "g2" 2]
    /\ run 40 (todosRouter.deleteTodo Sample.alice "t1") s'
       = (Err todosRouter.not_found, s').
Proof.
  destruct (deleteTodo_removes_task_and_associations Sample.db 40
              Sample.alice Sample.t1)
    as [s' [Hrun [_ [_ [_ [_ [_ [_ Hagain]]]]]]]].
  - split; repeat constructor; simpl; intuition discriminate.
  - simpl. tauto.
  - reflexivity.
  - exists s'. split; [exact Hrun|].
    injection Hrun as <-. repeat split.
Defined.

(** X13. The two copies of [deleteTodo] act alike on the store and succeed
    on the same calls; they differ in what they answer (the full router adds
    the id) and in the message of the NOT_FOUND error. *)
Theorem deleteTodo_copies_agree (s : store) (now : timestamp)
  (caller id : string) :
  snd (run now (earlierRouter.deleteTodo caller id) s)
  = snd (run now (todosRouter.deleteTodo caller id) s)
  /\ match fst (run now (todosRouter.deleteTodo caller id) s),
           fst (run now (earlierRouter.deleteTodo caller id) s) with
     | Ok d, Ok d' =>
         d = Deleted.mk true id /\ d' = earlierRouter.Deleted.mk true
     | Err e, Err e' =>
         e = ORPCError "NOT_FOUND"
               "Todo not found or you don't have access to it"
         /\ e' = ORPCError "NOT_FOUND" "Todo not found"
     | _, _ => False
     end.
Proof.
  unfold earlierRouter.deleteTodo, todosRouter.deleteTodo. cbn [run].
  destruct (fst (delete s (And [Eq_id id; Eq_userId caller])))
    as [|r rest] eqn:E; simpl; [split; [reflexivity|split; reflexivity]|].
  split; [reflexivity|]. split; [|reflexivity]. f_equal.
  assert (Hr : In r (select s (And [Eq_id id; Eq_userId caller])))
    by (unfold delete in E; simpl in E; rewrite E; now left).
  apply filter_In in Hr. destruct Hr as [_ Hr].
  rewrite holds_id_userId in Hr. apply andb_prop in Hr.
  now apply String.eqb_eq.
Qed.

(** ** createTodo *)

Lemma insert_todo_fresh (uuid : string) (now : timestamp) (s : store)
  (v : NewTodo.t) :
  ~ In uuid (map Todo.id (todos s)) ->
  insert_todo uuid now s v
  = Some (new_todo uuid now v,
          mkStore (todos s ++ [new_todo uuid now v]) (tags s) (todoTags s)).
Proof.
  intros H. unfold insert_todo.
  now rewrite (proj2 (mem_string_false _ _) H).
Qed.

Lemma createTodo_run (uuid : string) (now : timestamp) (u : string)
  (input : CreateTodoInput.t) (s : store) :
  ~ In uuid (map Todo.id (todos s)) ->
  let t := Todo.mk uuid (CreateTodoInput.title input)
             (CreateTodoInput.description input) false
             (CreateTodoInput.priority input)
             (CreateTodoInput.dueDate input) u now now in
  let s1 := mkStore (todos s ++ [t]) (tags s) (todoTags s) in
  todosRouter'.createTodo uuid now u input s
  = match CreateTodoInput.tagIds input with
    | Some (g :: rest) =>
        match insert_todoTags now s1
                (map (fun tagId => (uuid, tagId)) (g :: rest)) with
        | Some s2 => (Done t, s2)
        | None => (Failed (Thrown ForeignKeyViolation), s)
        end
    | _ => (Done t, s1)
    end.
Proof.
  intros Hfresh t s1.
  unfold todosRouter'.createTodo, transaction, bind at 1, insertTodo.
  rewrite (insert_todo_fresh uuid now s _ Hfresh).
  change (new_todo uuid now _) with t. fold s1.
  destruct (CreateTodoInput.tagIds input) as [[|g rest]|];
    try reflexivity.
  unfold bind, lift. cbn [run Todo.id t].
  now destruct (insert_todoTags now s1 _).
Qed.

(** X14. With a fresh id and tag ids that exist, [createTodo] appends one
    task owned by the caller, not completed, created and updated at the
    current time, and one association per supplied tag id; nothing else
    changes.  It does not look at who owns the tags.  A following [getTodo]
    returns the new task with exactly those tags. *)
Theorem createTodo_creates_task_with_tags (s : store) (uuid : string)
  (now : timestamp) (caller : string) (input : CreateTodoInput.t)
  (ids : list string) :
  integrity s ->
  ~ In uuid (map Todo.id (todos s)) ->
  ids = match CreateTodoInput.tagIds input with
        | Some l => l
        | None => []
        end ->
  (forall g, In g ids -> In g (map Tag.id (tags s))) ->
  let t := Todo.mk uuid (CreateTodoInput.title input)
             (CreateTodoInput.description input) false
             (CreateTodoInput.priority input)
             (CreateTodoInput.dueDate input) caller now now in
  exists s',
    todosRouter'.createTodo uuid now caller input s = (Done t, s')
    /\ todos s' = (todos s ++ [t])%list
    /\ tags s' = tags s
    /\ todoTags s'
       = (todoTags s ++ map (fun g => TodoTag.mk uuid g now) ids)%list
    /\ tagIds_of s' uuid = ids
    /\ exists e,
         run now (todosRouter.getTodo caller uuid) s' = (Ok e, s')
         /\ Enriched.todo e = t
         /\ Enriched.tags e = map (tag_named s) ids.
Proof.
  intros [[Hnd Hg] Href] Hfresh Hids Hfk t.
  set (s' := mkStore (todos s ++ [t]) (tags s)
               (todoTags s ++ map (fun g => TodoTag.mk uuid g now) ids)).
  assert (Hrun : todosRouter'.createTodo uuid now caller input s
                 = (Done t, s')).
  { rewrite (createTodo_run uuid now caller input s Hfresh). fold t.
    destruct (CreateTodoInput.tagIds input) as [[|g rest]|]; subst ids.
    - unfold s'. simpl. now rewrite app_nil_r.
    - unfold insert_todoTags.
      assert (Hok : forallb
                      (references_ok
                         (mkStore (todos s ++ [t]) (tags s) (todoTags s)))
                      (map (fun tagId => (uuid, tagId)) (g :: rest)) = true).
      { apply forallb_forall. intros v Hv.
        apply in_map_iff in Hv. destruct Hv as [x [<- Hx]].
        unfold references_ok. cbn [fst snd todos tags].
        apply andb_true_intro. split; apply mem_string_In.
        - rewrite map_app. apply in_or_app. right. now left.
        - now apply Hfk. }
      rewrite Hok. unfold s'. cbn [todos tags todoTags].
      now rewrite map_map.
    - unfold s'. simpl. now rewrite app_nil_r. }
  assert (Htags_of : todoTags_of s' uuid
                     = map (fun g => TodoTag.mk uuid g now) ids).
  { unfold todoTags_of, s'. cbn [todoTags]. rewrite filter_app.
    rewrite filter_none, filter_all; [reflexivity| |].
    - intros a Ha. apply in_map_iff in Ha. destruct Ha as [g [<- _]].
      apply String.eqb_refl.
    - intros a Ha. apply String.eqb_neq. intros E. apply Hfresh.
      rewrite <- E. now apply Href. }
  assert (Hids_of : tagIds_of s' uuid = ids).
  { unfold tagIds_of. rewrite Htags_of, map_map. apply map_id. }
  exists s'. split; [exact Hrun|]. repeat split; try exact Hids_of.
  assert (Hpk' : pk_unique s').
  { split; [|exact Hg]. unfold s'. cbn [todos]. rewrite map_app.
    now apply NoDup_snoc. }
  assert (Ht' : In t (todos s'))
    by (unfold s'; cbn [todos]; apply in_or_app; right; now left).
  exists (enrich (with_relations s' t)). split; [|split; [reflexivity|]].
  - pose proof (select_id_userId s' t (proj1 Hpk') Ht') as Hsel.
    change (select s' (And [Eq_id uuid; Eq_userId caller]) = [t]) in Hsel.
    unfold todosRouter.getTodo. cbn [run]. unfold findMany. cbn [ordered].
    now rewrite Hsel.
  - rewrite enrich_tags. change (Todo.id t) with uuid. now rewrite Hids_of.
Qed.

Lemma createTodo_creates_task_with_tags_witness :
  exists s',
    todosRouter'.createTodo "t9" 40 Sample.alice
      (CreateTodoInput.mk "Call mum" None low None (Some ["g2"])) Sample.db
    = (Done (Todo.mk "t9" "Call mum" None false low None Sample.alice 40 40),
       s')
    /\ tagIds_of s' "t9" = ["g2"]
    /\ exists e,
         run 40 (todosRouter.getTodo Sample.alice "t9") s' = (Ok e, s')
         /\ Enriched.tags e = [Some Sample.g2].
Proof.
  destruct (createTodo_creates_task_with_tags Sample.db "t9" 40 Sample.alice
              (CreateTodoInput.mk "Call mum" None low None (Some ["g2"]))
              ["g2"])
    as [s' [Hrun [_ [_ [_ [Hids [e [Hget [_ He]]]]]]]]].
  - split; [split; repeat constructor; simpl; intuition discriminate|].
    intros a [<-|[<-|[]]]; simpl; tauto.
  - simpl. intros [E|[E|[E|[]]]]; discriminate.
  - reflexivity.
  - simpl. intros g [<-|[]]. tauto.
  - exists s'. split; [exact Hrun|]. split; [exact Hids|].
    exists e. split; [exact Hget|]. exact He.
Defined.

(** X15. [createTodo] is all or nothing.  Whenever it fails the store is as
    before; when a supplied tag id names no tag the insert of the
    associations is refused and the task row inserted just before is not
    kept; when the id is already taken no row is added. *)
Theorem createTodo_all_or_nothing (s : store) (uuid : string)
  (now : timestamp) (caller : string) (input : CreateTodoInput.t) :
  (forall f s',
     todosRouter'.createTodo uuid now caller input s = (Failed f, s') ->
     s' = s)
  /\ (In uuid (map Todo.id (todos s)) ->
      todosRouter'.createTodo uuid now caller input s
      = (Failed UniqueViolation, s))
  /\ (forall ids g,
        ~ In uuid (map Todo.id (todos s)) ->
        CreateTodoInput.tagIds input = Some ids ->
        In g ids -> ~ In g (map Tag.id (tags s)) ->
        todosRouter'.createTodo uuid now caller input s
        = (Failed (Thrown ForeignKeyViolation), s)).
Proof.
  split; [|split].
  - intros f s'. unfold todosRouter'.createTodo, transaction.
    destruct (bind _ _ s) as [[a|f0] s0]; [discriminate|].
    intros E. now injection E as _ <-.
  - intros Hin. unfold todosRouter'.createTodo, transaction, bind,
      insertTodo, insert_todo.
    now rewrite (proj2 (mem_string_In _ _) Hin).
  - intros ids g Hfresh Htags Hg Hno.
    rewrite (createTodo_run uuid now caller input s Hfresh), Htags.
    destruct ids as [|g0 rest]; [contradiction|].
    unfold insert_todoTags.
    destruct (forallb _ _) eqn:F; [|reflexivity].
    rewrite forallb_forall in F.
    specialize (F (uuid, g) (in_map _ _ _ Hg)).
    unfold references_ok in F. apply andb_prop in F. destruct F as [_ F].
    apply mem_string_In in F. contradiction.
Qed.

Lemma createTodo_all_or_nothing_witness :
  todosRouter'.createTodo "t1" 40 Sample.alice
    (CreateTodoInput.mk "Call mum" None low None None) Sample.db
  = (Failed UniqueViolation, Sample.db)
  /\ todosRouter'.createTodo "t9" 40 Sample.alice
       (CreateTodoInput.mk "Call mum" None low None (Some ["ghost"]))
       Sample.db
     = (Failed (Thrown ForeignKeyViolation), Sample.db).
Proof.
  split.
  - apply (proj1 (proj2 (createTodo_all_or_nothing Sample.db "t1" 40
                           Sample.alice
                           (CreateTodoInput.mk "Call mum" None low None
                              None)))).
    simpl. tauto.
  - apply (proj2 (proj2 (createTodo_all_or_nothing Sample.db "t9" 40
                           Sample.alice
                           (CreateTodoInput.mk "Call mum" None low None
                              (Some ["ghost"]))))
             ["ghost"] "ghost").
    + simpl. intros [E|[E|[E|[]]]]; discriminate.
    + reflexivity.
    + simpl. tauto.
    + simpl. intros [E|[E|[]]]; discriminate.
Defined.

(** ** Tags: getTags, createTag, deleteTag *)

Lemma findMany_tags_In (s : store) (u : string) (g : Tag.t) :
  In g (findMany_tags s (Eq_tag_userId u))
  <-> In g (tags s) /\ Tag.userId g = u.
Proof.
  unfold findMany_tags.
  assert (H : In g (filter (holds_tag (Eq_tag_userId u)) (tags s))
              <-> In g (tags s) /\ Tag.userId g = u).
  { rewrite filter_In. simpl. now rewrite String.eqb_eq. }
  rewrite <- H.
  split; apply Permutation_in;
    [apply sort_by_perm|apply Permutation_sym, sort_by_perm].
Qed.

(** X16. [getTags] returns exactly the tags of the caller, ordered by name
    ascending, and leaves the store alone; tags of other users never
    appear. *)
Theorem getTags_own_tags_by_name (s : store) (caller : string) :
  exists l,
    todosRouter'.getTags caller s = (Done l, s)
    /\ (forall g, In g l <-> In g (tags s) /\ Tag.userId g = caller)
    /\ in_order (fun a b => String.leb (Tag.name a) (Tag.name b)) l.
Proof.
  eexists. split; [reflexivity|]. split.
  - intros g. apply findMany_tags_In.
  - unfold findMany_tags. apply sort_by_in_order. intros a b H.
    destruct (String.leb_total (Tag.name a) (Tag.name b)); congruence.
Qed.

Lemma insert_tag_fresh (uuid : string) (now : timestamp) (s : store)
  (name : string) (color : option string) (u : string) :
  ~ In uuid (map Tag.id (tags s)) ->
  insert_tag uuid now s name color u
  = Some (new_tag uuid now name color u,
          mkStore (todos s) (tags s ++ [new_tag uuid now name color u])
            (todoTags s)).
Proof.
  intros H. unfold insert_tag.
  now rewrite (proj2 (mem_string_false _ _) H).
Qed.

(** X17. With a fresh id, [createTag] appends one tag owned by the caller
    with the given name and colour, whether or not the caller already has a
    tag of that name; the caller's [getTags] then shows the new tag besides
    the former ones, and the [getTags] of every other user is unchanged.
    With an id that is taken it fails and adds nothing. *)
Theorem createTag_adds_own_tag (s : store) (uuid : string)
  (now : timestamp) (caller : string) (input : CreateTagInput.t) :
  (~ In uuid (map Tag.id (tags s)) ->
   let g := Tag.mk uuid (CreateTagInput.name input)
              (CreateTagInput.color input) caller now in
   exists s',
     todosRouter'.createTag uuid now caller input s = (Done g, s')
     /\ todos s' = todos s /\ todoTags s' = todoTags s
     /\ tags s' = (tags s ++ [g])%list
     /\ (forall x,
           In x (listed (todosRouter'.getTags caller s'))
           <-> In x (listed (todosRouter'.getTags caller s)) \/ x = g)
     /\ forall other,
          other <> caller ->
          listed (todosRouter'.getTags other s')
          = listed (todosRouter'.getTags other s))
  /\ (In uuid (map Tag.id (tags s)) ->
      todosRouter'.createTag uuid now caller input s
      = (Failed UniqueViolation, s)).
Proof.
  split.
  - intros Hfresh g.
    set (s' := mkStore (todos s) (tags s ++ [g]) (todoTags s)).
    exists s'. split.
    { unfold todosRouter'.createTag, bind, insertTag.
      now rewrite (insert_tag_fresh uuid now s _ _ _ Hfresh). }
    split; [reflexivity|]. split; [reflexivity|]. split; [reflexivity|].
    split.
    + intros x. unfold listed, todosRouter'.getTags, findManyTags. cbn [fst].
      rewrite !findMany_tags_In. unfold s'. cbn [tags].
      rewrite in_app_iff. simpl. split.
      * intros [[H|[H|[]]] Hu]; [left; tauto|right; now symmetry].
      * intros [[H Hu]|E]; [tauto|]. rewrite E. tauto.
    + intros other Hne. unfold listed, todosRouter'.getTags, findManyTags.
      cbn [fst]. unfold findMany_tags, s'. cbn [tags].
      rewrite filter_app. simpl.
      apply String.eqb_neq in Hne. rewrite String.eqb_sym in Hne.
      rewrite Hne. now rewrite app_nil_r.
  - intros Hin. unfold todosRouter'.createTag, bind, insertTag, insert_tag.
    now rewrite (proj2 (mem_string_In _ _) Hin).
Qed.

Lemma createTag_adds_own_tag_witness :
  (exists s',
     todosRouter'.createTag "g9" 40 Sample.alice
       (CreateTagInput.mk "home" "#FF0000") Sample.db
     = (Done (Tag.mk "g9" "home" "#FF0000" Sample.alice 40), s')
     /\ listed (todosRouter'.getTags Sample.bob s')
        = listed (todosRouter'.getTags Sample.bob Sample.db))
  /\ todosRouter'.createTag "g1" 40 Sample.alice
       (CreateTagInput.mk "home" "#FF0000") Sample.db
     = (Failed UniqueViolation, Sample.db).
Proof.
  split.
  - destruct (proj1 (createTag_adds_own_tag Sample.db "g9" 40 Sample.alice
                       (CreateTagInput.mk "home" "#FF0000")))
      as [s' [Hrun [_ [_ [_ [_ Hother]]]]]].
    + simpl. intros [E|[E|[]]]; discriminate.
    + exists s'. split; [exact Hrun|]. apply Hother. discriminate.
  - apply (proj2 (createTag_adds_own_tag Sample.db "g1" 40 Sample.alice
                    (CreateTagInput.mk "home" "#FF0000"))).
    simpl. tauto.
Defined.

Lemma holds_tag_id_userId (i u : string) (g : Tag.t) :
  holds_tag (And_tag [Eq_tag_id i; Eq_tag_userId u]) g
  = ((Tag.id g =? i)%string && (Tag.userId g =? u)%string).
Proof. simpl. now rewrite andb_true_r. Qed.

Lemma delete_tags_nothing (s : store) (w : TagSQL) :
  filter (holds_tag w) (tags s) = [] -> delete_tags s w = ([], s).
Proof.
  intros E. unfold delete_tags. rewrite E. f_equal.
  assert (Hkeep : filter (fun g => negb (holds_tag w g)) (tags s) = tags s).
  { apply filter_all. intros g Hg.
    destruct (holds_tag w g) eqn:Hw; [|reflexivity].
    assert (Hin : In g (filter (holds_tag w) (tags s)))
      by (apply filter_In; now split).
    rewrite E in Hin. contradiction. }
  rewrite Hkeep. simpl. rewrite filter_all by reflexivity.
  apply store_eta.
Qed.

(** X18. [deleteTag] on an id that names no tag of the caller (missing, or
    somebody else's tag) fails with NOT_FOUND and removes nothing: neither
    the tag nor any association. *)
Theorem deleteTag_not_found (s : store) (caller id : string) :
  (forall g, In g (tags s) -> Tag.id g = id -> Tag.userId g <> caller) ->
  todosRouter'.deleteTag caller id s
  = (Failed (Thrown (ORPCError "NOT_FOUND"
                       "Tag not found or you don't have access to it")), s).
Proof.
  intros H. unfold todosRouter'.deleteTag, bind, deleteTags.
  rewrite delete_tags_nothing; [reflexivity|].
  apply filter_none. intros g Hg. rewrite holds_tag_id_userId.
  destruct (String.eqb_spec (Tag.id g) id) as [Hi|]; [|reflexivity].
  destruct (String.eqb_spec (Tag.userId g) caller) as [Hu|]; [|reflexivity].
  now elim (H g Hg Hi).
Qed.

Lemma deleteTag_not_found_witness :
  todosRouter'.deleteTag Sample.alice "g2" Sample.db
  = (Failed (Thrown (ORPCError "NOT_FOUND"
                       "Tag not found or you don't have access to it")),
     Sample.db).
Proof.
  apply (deleteTag_not_found Sample.db Sample.alice "g2").
  simpl. intros g [<-|[<-|[]]] E; discriminate.
Defined.

Lemma delete_tags_owned (s : store) (g : Tag.t) :
  pk_unique s -> In g (tags s) ->
  delete_tags s (And_tag [Eq_tag_id (Tag.id g); Eq_tag_userId (Tag.userId g)])
  = ([g],
     mkStore (todos s)
       (filter (fun x => negb (Tag.id x =? Tag.id g)%string) (tags s))
       (filter (fun a => negb (TodoTag.tagId a =? Tag.id g)%string)
          (todoTags s))).
Proof.
  intros [_ Hnd] Hg. unfold delete_tags.
  assert (Hsel : filter (holds_tag (And_tag [Eq_tag_id (Tag.id g);
                                             Eq_tag_userId (Tag.userId g)]))
                   (tags s) = [g]).
  { rewrite (filter_ext _ (fun x => (Tag.id x =? Tag.id g)%string
                                    && (Tag.userId x =? Tag.userId g)%string))
      by (intros x; apply holds_tag_id_userId).
    rewrite filter_andb, (filter_key Tag.id _ _ Hnd Hg). simpl.
    now rewrite String.eqb_refl. }
  rewrite Hsel. f_equal. f_equal.
  - apply filter_ext_in. intros x Hx. f_equal.
    rewrite holds_tag_id_userId.
    destruct (String.eqb_spec (Tag.id x) (Tag.id g)) as [E|]; [|reflexivity].
    rewrite (NoDup_map_inj Tag.id _ x g Hnd Hx Hg E).
    apply String.eqb_refl.
  - apply filter_ext. intros a. cbn [map]. now rewrite mem_string_singleton.
Qed.

Lemma tag_named_In (s : store) (i : string) (g : Tag.t) :
  tag_named s i = Some g -> In g (tags s) /\ Tag.id g = i.
Proof.
  unfold tag_named. intros H. apply find_some in H.
  destruct H as [H1 H2]. split; [exact H1|now apply String.eqb_eq].
Qed.

(** X19. A successful [deleteTag] removes the caller's tag and, by the
    cascade, every association with it, on whoever's task it was; tasks and
    the other tags and associations stay.  Afterwards no task shows the tag:
    it is in the [tags] of no row that [getTodos] returns, for any user and
    any filter. *)
Theorem deleteTag_detaches_tag_everywhere (s : store) (now : timestamp)
  (caller : string) (g : Tag.t) :
  pk_unique s -> In g (tags s) -> Tag.userId g = caller ->
  exists s',
    todosRouter'.deleteTag caller (Tag.id g) s
    = (Done (Deleted.mk true (Tag.id g)), s')
    /\ todos s' = todos s
    /\ (forall x, In x (tags s') <-> In x (tags s) /\ x <> g)
    /\ (forall a,
          In a (todoTags s')
          <-> In a (todoTags s) /\ TodoTag.tagId a <> Tag.id g)
    /\ (forall i,
          tagIds_of s' i
          = filter (fun x => negb (x =? Tag.id g)%string) (tagIds_of s i))
    /\ forall user input l e x,
         run now (todosRouter.getTodos user input) s' = (Ok l, s') ->
         In e l -> In (Some x) (Enriched.tags e) ->
         Tag.id x <> Tag.id g.
Proof.
  intros Hpk Hg <-.
  set (s' := mkStore (todos s)
               (filter (fun x => negb (Tag.id x =? Tag.id g)%string) (tags s))
               (filter (fun a => negb (TodoTag.tagId a =? Tag.id g)%string)
                  (todoTags s))).
  exists s'. split.
  { unfold todosRouter'.deleteTag, bind, deleteTags.
    now rewrite (delete_tags_owned s g Hpk Hg). }
  split; [reflexivity|]. split.
  { intros x. unfold s'. cbn [tags]. rewrite filter_In, negb_true_iff,
      String.eqb_neq. split.
    - intros [Hx Hne]. split; [exact Hx|]. congruence.
    - intros [Hx Hne]. split; [exact Hx|]. intros E. apply Hne.
      exact (NoDup_map_inj Tag.id _ x g (proj2 Hpk) Hx Hg E). }
  split.
  { intros a. unfold s'. cbn [todoTags].
    rewrite filter_In, negb_true_iff, String.eqb_neq. tauto. }
  split.
  { intros i. unfold tagIds_of, todoTags_of, s'. cbn [todoTags].
    rewrite <- !filter_andb.
    induction (todoTags s) as [|a l IH]; [reflexivity|]. simpl.
    destruct (TodoTag.tagId a =? Tag.id g)%string eqn:E1,
             (TodoTag.todoId a =? i)%string eqn:E2; simpl;
      rewrite ?E1; simpl; rewrite ?IH; reflexivity. }
  intros user input l e x Hrun He Hx.
  rewrite run_getTodos in Hrun. injection Hrun as <-.
  apply in_map_iff in He. destruct He as [w [<- Hw]].
  unfold findMany in Hw. apply in_map_iff in Hw. destruct Hw as [r [<- _]].
  rewrite enrich_tags in Hx. apply in_map_iff in Hx.
  destruct Hx as [i [Hi _]]. apply tag_named_In in Hi. destruct Hi as [Hi _].
  unfold s' in Hi. cbn [tags] in Hi. apply filter_In in Hi.
  destruct Hi as [_ Hi]. now apply negb_true_iff, String.eqb_neq in Hi.
Qed.

Lemma deleteTag_detaches_tag_everywhere_witness :
  exists s',
    todosRouter'.deleteTag Sample.alice "g1" Sample.db
    = (Done (Deleted.mk true "g1"), s')
    /\ todos s' = todos Sample.db
    /\ tagIds_of s' "t1" = [].
Proof.
  destruct (deleteTag_detaches_tag_everywhere Sample.db 40 Sample.alice
              Sample.g1)
    as [s' [Hrun [Htodos [_ [_ [Hids _]]]]]].
  - split; repeat constructor; simpl; intuition discriminate.
  - simpl. tauto.
  - reflexivity.
  - exists s'. split; [exact Hrun|]. split; [exact Htodos|].
    now rewrite Hids.
Defined.

(** ** More on getStats *)

Lemma run_getStats_fields (s : store) (u : string) (zone : timestamp -> Z)
  (now : timestamp) :
  let own := filter (owned_by u) (todos s) in
  run now (todosRouter.getStats u zone now) s
  = (Ok (Stats.mk (length_Z own) (count Todo.completed own)
           (length_Z own - count Todo.completed own)
           (count (todosRouter.is_overdue now) own)
           (count (todosRouter.is_dueToday zone now) own)
           (todosRouter.completionRate (length_Z own)
              (count Todo.completed own))
           (Stats.mkByPriority
              (count (todosRouter.is_priority low) own)
              (count (todosRouter.is_priority medium) own)
              (count (todosRouter.is_priority high) own)
              (count (todosRouter.is_priority urgent) own))), s).
Proof.
  intros own. unfold todosRouter.getStats. cbn [run].
  now rewrite select_userId.
Qed.

Lemma count_cons {A : Type} (f : A -> bool) (a : A) (l : list A) :
  count f (a :: l) = (if f a then 1 else 0) + count f l.
Proof.
  unfold count, length_Z. cbn [filter].
  destruct (f a); cbn [List.length]; rewrite ?Nat2Z.inj_succ; lia.
Qed.

Lemma length_Z_cons {A : Type} (a : A) (l : list A) :
  length_Z (a :: l) = 1 + length_Z l.
Proof. unfold length_Z. cbn [List.length]. rewrite Nat2Z.inj_succ. lia. Qed.

Lemma count_implies {A : Type} (f g : A -> bool) (l : list A) :
  (forall x, f x = true -> g x = true) -> count f l <= count g l.
Proof.
  intros H. induction l as [|a l IH]; [reflexivity|].
  rewrite !count_cons. specialize (H a).
  destruct (f a), (g a); try lia; discriminate (H eq_refl).
Qed.

Lemma count_by_priority (l : list Todo.t) :
  count (todosRouter.is_priority low) l
  + count (todosRouter.is_priority medium) l
  + count (todosRouter.is_priority high) l
  + count (todosRouter.is_priority urgent) l
  = length_Z l.
Proof.
  induction l as [|a l IH]; [reflexivity|].
  rewrite !count_cons, length_Z_cons.
  set (c1 := count (todosRouter.is_priority low) l) in *.
  set (c2 := count (todosRouter.is_priority medium) l) in *.
  set (c3 := count (todosRouter.is_priority high) l) in *.
  set (c4 := count (todosRouter.is_priority urgent) l) in *.
  unfold todosRouter.is_priority.
  destruct (Todo.priority a); cbn [priority_eqb]; lia.
Qed.

(** X20. The figures of [getStats] are consistent with one another: the four
    [byPriority] counts add up to [total]; [overdue] and [dueToday] count
    pending tasks only, so neither exceeds [pending]; and
    0 <= completed <= total. *)
Theorem getStats_figures_are_consistent (s : store) (caller : string)
  (zone : timestamp -> Z) (now : timestamp) :
  exists st,
    run now (todosRouter.getStats caller zone now) s = (Ok st, s)
    /\ Stats.low (Stats.byPriority st) + Stats.medium (Stats.byPriority st)
       + Stats.high (Stats.byPriority st) + Stats.urgent (Stats.byPriority st)
       = Stats.total st
    /\ 0 <= Stats.completed st <= Stats.total st
    /\ 0 <= Stats.overdue st <= Stats.pending st
    /\ 0 <= Stats.dueToday st <= Stats.pending st.
Proof.
  eexists. split; [apply run_getStats_fields|].
  cbn [Stats.total Stats.completed Stats.pending Stats.overdue Stats.dueToday
       Stats.byPriority Stats.low Stats.medium Stats.high Stats.urgent].
  set (own := filter (owned_by caller) (todos s)).
  pose proof (length_filter_split Todo.completed own) as Hsplit.
  split; [apply count_by_priority|].
  split; [split; [apply count_nonneg|apply count_le]|].
  assert (Hpend : length_Z own - count Todo.completed own
                  = count (fun x => negb (Todo.completed x)) own) by lia.
  rewrite Hpend. split; (split; [apply count_nonneg|]); apply count_implies.
  - intros x. unfold todosRouter.is_overdue.
    now destruct (Todo.completed x).
  - intros x. unfold todosRouter.is_dueToday.
    destruct (Todo.dueDate x); [|discriminate].
    now destruct (Todo.completed x).
Qed.

Lemma replace_row_absent (old new : Todo.t) (l : list Todo.t) :
  ~ In (Todo.id old) (map Todo.id l) -> replace_row old new l = l.
Proof.
  intros H. unfold replace_row. rewrite <- (map_id l) at 2.
  apply map_ext_in. intros r Hr.
  destruct (String.eqb_spec (Todo.id r) (Todo.id old)) as [E|]; [|reflexivity].
  elim H. rewrite <- E. now apply in_map.
Qed.

Lemma count_replace_row (f : Todo.t -> bool) (old new : Todo.t)
  (l : list Todo.t) :
  NoDup (map Todo.id l) -> In old l ->
  count f (replace_row old new l)
  = count f l - (if f old then 1 else 0) + (if f new then 1 else 0).
Proof.
  induction l as [|a l IH]; intros Hnd Hin; [contradiction|].
  inversion Hnd as [|? ? Ha Hl]; subst.
  change (replace_row old new (a :: l))
    with ((if (Todo.id a =? Todo.id old)%string then new else a)
          :: replace_row old new l).
  destruct Hin as [->|Hin].
  - rewrite String.eqb_refl, (replace_row_absent old new l Ha).
    rewrite !count_cons. lia.
  - assert (E : (Todo.id a =? Todo.id old)%string = false).
    { apply String.eqb_neq. intros E. apply Ha. rewrite E. now apply in_map. }
    rewrite E, !count_cons, (IH Hl Hin). lia.
Qed.

(** X21. Toggling a task of the caller moves it between [completed] and
    [pending] in the caller's statistics: [total] and the [byPriority]
    counts stay, [completed] goes up by one when the task was pending and
    down by one when it was completed, and [pending] the other way.  A task
    whose due date is past leaves [overdue] when it is completed and enters
    it when it is reopened, and likewise [dueToday] for a task due today;
    other tasks leave both counts as they are.  [completionRate] is the rate
    of the new counts. *)
Theorem toggleTodo_moves_one_task_in_stats (s : store) (now now' : timestamp)
  (zone : timestamp -> Z) (caller : string) (t : Todo.t) :
  pk_unique s -> In t (todos s) -> Todo.userId t = caller ->
  exists s' st st',
    run now (todosRouter.toggleTodo caller now (Todo.id t)) s
    = (Ok (Some (toggled now t)), s')
    /\ run now' (todosRouter.getStats caller zone now') s = (Ok st, s)
    /\ run now' (todosRouter.getStats caller zone now') s' = (Ok st', s')
    /\ Stats.total st' = Stats.total st
    /\ Stats.completed st'
       = Stats.completed st + (if Todo.completed t then -1 else 1)
    /\ Stats.pending st'
       = Stats.pending st - (if Todo.completed t then -1 else 1)
    /\ Stats.byPriority st' = Stats.byPriority st
    /\ Stats.overdue st'
       = Stats.overdue st
         + (if due_before now' t
            then if Todo.completed t then 1 else -1
            else 0)
    /\ Stats.dueToday st'
       = Stats.dueToday st
         + (if due_on_day zone now' t
            then if Todo.completed t then 1 else -1
            else 0)
    /\ Stats.completionRate st'
       = todosRouter.completionRate (Stats.total st) (Stats.completed st').
Proof.
  intros Hpk Ht <-.
  set (s' := mkStore (replace_row t (toggled now t) (todos s)) (tags s)
               (todoTags s)).
  eexists s', _, _. split.
  { rewrite (run_toggleTodo s now t Hpk Ht).
    now rewrite (replace_row_spec s _ t Hpk Ht). }
  split; [apply run_getStats_fields|]. split; [apply run_getStats_fields|].
  cbn [Stats.total Stats.completed Stats.pending Stats.byPriority
       Stats.overdue Stats.dueToday Stats.completionRate].
  assert (Hcount : forall f,
            count f (filter (owned_by (Todo.userId t)) (todos s'))
            = count f (filter (owned_by (Todo.userId t)) (todos s))
              - (if f t then 1 else 0) + (if f (toggled now t) then 1 else 0)).
  { intros f. rewrite !count_filter. unfold s'. cbn [todos].
    rewrite (count_replace_row _ t (toggled now t) _ (proj1 Hpk) Ht).
    unfold owned_by. cbn [toggled Todo.userId].
    now rewrite String.eqb_refl. }
  assert (Hlen : length_Z (filter (owned_by (Todo.userId t)) (todos s'))
                 = length_Z (filter (owned_by (Todo.userId t)) (todos s))).
  { pose proof (Hcount (fun _ => true)) as H. unfold count in H.
    rewrite !(filter_all (fun _ => true)) in H by reflexivity. lia. }
  rewrite Hlen, (Hcount Todo.completed).
  cbn [toggled Todo.completed].
  split; [reflexivity|]. split; [destruct (Todo.completed t); simpl; lia|].
  split; [destruct (Todo.completed t); simpl; lia|].
  split.
  { f_equal; rewrite Hcount; unfold todosRouter.is_priority;
      cbn [toggled Todo.priority];
      destruct (priority_eqb (Todo.priority t) _); lia. }
  split.
  { rewrite Hcount. unfold todosRouter.is_overdue, due_before.
    cbn [toggled Todo.completed Todo.dueDate].
    destruct (Todo.completed t), (Todo.dueDate t) as [d|]; cbn [negb andb];
      try destruct (d <? now'); lia. }
  split; [|reflexivity].
  rewrite Hcount. unfold todosRouter.is_dueToday, due_on_day.
  cbn [toggled Todo.completed Todo.dueDate].
  destruct (Todo.completed t), (Todo.dueDate t) as [d|]; cbn [negb];
    try destruct (local_day zone d =? local_day zone now'); lia.
Qed.

Lemma toggleTodo_moves_one_task_in_stats_witness :
  exists s' st st',
    run 40 (todosRouter.toggleTodo Sample.alice 40 "t2") Sample.db
    = (Ok (Some (toggled 40 Sample.t2)), s')
    /\ run 50 (todosRouter.getStats Sample.alice Sample.utc 50) Sample.db
       = (Ok st, Sample.db)
    /\ run 50 (todosRouter.getStats Sample.alice Sample.utc 50) s'
       = (Ok st', s')
    /\ Stats.total st' = Stats.total st
    /\ Stats.completed st' = Stats.completed st + -1
    /\ Stats.pending st' = Stats.pending st - -1
    /\ Stats.byPriority st' = Stats.byPriority st
    /\ Stats.overdue st' = Stats.overdue st + 1
    /\ Stats.dueToday st' = Stats.dueToday st + 1
    /\ Stats.completionRate st'
       = todosRouter.completionRate (Stats.total st) (Stats.completed st').
Proof.
  apply (toggleTodo_moves_one_task_in_stats Sample.db 40 50 Sample.utc
           Sample.alice Sample.t2).
  - split; repeat constructor; simpl; intuition discriminate.
  - simpl. tauto.
  - reflexivity.
Defined.

(** *** What another user's calls leave of my statistics *)

Lemma getStats_reads_own_rows (s1 s2 : store) (u : string)
  (zone : timestamp -> Z) (now : timestamp) :
  filter (owned_by u) (todos s1) = filter (owned_by u) (todos s2) ->
  fst (run now (todosRouter.getStats u zone now) s1)
  = fst (run now (todosRouter.getStats u zone now) s2).
Proof.
  intros H. rewrite !run_getStats_fields. cbn [fst]. now rewrite H.
Qed.

Lemma filter_owned_update (s : store) (v : SetTodo.t) (u i : string) :
  (forall r, In r (todos s) -> Todo.id r = i -> Todo.userId r <> u) ->
  filter (owned_by u) (todos (snd (update s v (Eq_id i))))
  = filter (owned_by u) (todos s).
Proof.
  intros H. cbn [update snd todos].
  induction (todos s) as [|a l IH]; [reflexivity|].
  cbn [map filter]. rewrite IH by (intros r Hr; apply H; now right).
  rewrite holds_id.
  destruct (String.eqb_spec (Todo.id a) i) as [E|]; [|reflexivity].
  assert (Hne : owned_by u a = false)
    by (apply String.eqb_neq, (H a); [now left|exact E]).
  unfold owned_by in *. cbn [apply_set Todo.userId]. now rewrite Hne.
Qed.

Lemma filter_owned_delete (s : store) (u v i : string) :
  v <> u ->
  filter (owned_by u)
    (todos (snd (delete s (And [Eq_id i; Eq_userId v]))))
  = filter (owned_by u) (todos s).
Proof.
  intros Hne. cbn [delete snd todos]. rewrite <- filter_andb.
  apply filter_ext. intros r. rewrite holds_id_userId. unfold owned_by.
  destruct (String.eqb_spec (Todo.userId r) u) as [E|];
    [|apply andb_false_r].
  assert (Hv : (Todo.userId r =? v)%string = false)
    by (apply String.eqb_neq; congruence).
  rewrite Hv, andb_false_r. reflexivity.
Qed.

Lemma rows_of_other (s : store) (u v i : string) (t : Todo.t) :
  pk_unique s -> v <> u -> In t (todos s) ->
  Todo.id t = i -> Todo.userId t = v ->
  forall r, In r (todos s) -> Todo.id r = i -> Todo.userId r <> u.
Proof.
  intros [Hnd _] Hne Ht Hi Hv r Hr E.
  rewrite (NoDup_map_inj Todo.id _ r t Hnd Hr Ht) by congruence.
  congruence.
Qed.

Lemma update_tags_todos (s : store) (now : timestamp) (i : string)
  (tagIds : option (list string)) :
  todos (snd (run now (todosRouter.update_tags i tagIds) s)) = todos s.
Proof.
  unfold todosRouter.update_tags.
  destruct tagIds as [[|g ids]|]; cbn [run].
  - now rewrite fetch_updated_store.
  - destruct (insert_todoTags now _ _) as [s''|] eqn:E; [|reflexivity].
    rewrite fetch_updated_store.
    now rewrite (insert_todoTags_todos _ _ _ _ E).
  - now rewrite fetch_updated_store.
Qed.

Lemma updateTodo_todos_cases (s : store) (now : timestamp) (v : string)
  (input : UpdateTodoInput.t) :
  todos (snd (run now (todosRouter.updateTodo v now input) s)) = todos s
  \/ (exists t,
        In t (todos s) /\ Todo.id t = UpdateTodoInput.id input
        /\ Todo.userId t = v)
     /\ todos (snd (run now (todosRouter.updateTodo v now input) s))
        = todos (snd (update s (todosRouter.updateTodo_set now input)
                        (Eq_id (UpdateTodoInput.id input)))).
Proof.
  unfold todosRouter.updateTodo. cbn [run].
  destruct (select s _) as [|r rest] eqn:E; [now left|].
  assert (Hr : In r (select s (And [Eq_id (UpdateTodoInput.id input);
                                    Eq_userId v])))
    by (rewrite E; now left).
  apply filter_In in Hr. destruct Hr as [Hin Hr].
  rewrite holds_id_userId in Hr. apply andb_prop in Hr.
  destruct Hr as [Hi Hu]. apply String.eqb_eq in Hi, Hu.
  destruct (todosRouter.has_updateData input); cbn [run].
  - pose proof (update_tags_todos
                  (snd (update s (todosRouter.updateTodo_set now input)
                          (Eq_id (UpdateTodoInput.id input))))
                  now (UpdateTodoInput.id input)
                  (UpdateTodoInput.tagIds input)) as H.
    destruct (run now (todosRouter.update_tags _ _) _) as [[a|e] s0];
      [|now left].
    right. split; [now exists r|exact H].
  - pose proof (update_tags_todos s now (UpdateTodoInput.id input)
                  (UpdateTodoInput.tagIds input)) as H.
    left. now destruct (run now (todosRouter.update_tags _ _) s)
      as [[a|e] s0].
Qed.

(** X22. The statistics of a user depend on that user's tasks only, and no
    call made by another user changes them: after another user's
    [toggleTodo], [deleteTodo], [updateTodo] or [createTodo], with any
    input and whether it succeeds or fails, [getStats] answers the caller as
    before. *)
Theorem others_cannot_change_my_stats (s : store) (now now' : timestamp)
  (zone : timestamp -> Z) (caller other id uuid : string)
  (input : UpdateTodoInput.t) (new : CreateTodoInput.t) :
  pk_unique s -> other <> caller ->
  let stats := fun s0 =>
    fst (run now' (todosRouter.getStats caller zone now') s0) in
  stats (snd (run now (todosRouter.toggleTodo other now id) s)) = stats s
  /\ stats (snd (run now (todosRouter.deleteTodo other id) s)) = stats s
  /\ stats (snd (run now (todosRouter.updateTodo other now input) s))
     = stats s
  /\ stats (snd (todosRouter'.createTodo uuid now other new s)) = stats s.
Proof.
  intros Hpk Hne stats. unfold stats.
  split; [|split; [|split]]; apply getStats_reads_own_rows.
  - unfold todosRouter.toggleTodo. cbn [run].
    destruct (select s _) as [|r rest] eqn:E; [reflexivity|].
    assert (Hr : In r (select s (And [Eq_id id; Eq_userId other])))
      by (rewrite E; now left).
    apply filter_In in Hr. destruct Hr as [Hin Hr].
    rewrite holds_id_userId in Hr. apply andb_prop in Hr.
    destruct Hr as [Hi Hu]. apply String.eqb_eq in Hi, Hu.
    cbn [run snd]. apply filter_owned_update.
    exact (rows_of_other s caller other id r Hpk Hne Hin Hi Hu).
  - unfold todosRouter.deleteTodo. cbn [run].
    pose proof (filter_owned_delete s caller other id Hne) as H.
    now destruct (fst (delete s _)).
  - destruct (updateTodo_todos_cases s now other input)
      as [H|[[t [Ht [Hi Hu]]] H]]; rewrite H; [reflexivity|].
    apply filter_owned_update.
    exact (rows_of_other s caller other _ t Hpk Hne Ht Hi Hu).
  - assert (H : todos (snd (todosRouter'.createTodo uuid now other new s))
                = todos s
                \/ exists t, Todo.userId t = other
                   /\ todos (snd (todosRouter'.createTodo uuid now other
                                    new s))
                      = (todos s ++ [t])%list).
    { destruct (in_dec String.string_dec uuid (map Todo.id (todos s)))
        as [Hin|Hfresh].
      - left. unfold todosRouter'.createTodo, transaction, bind,
          insertTodo, insert_todo.
        now rewrite (proj2 (mem_string_In _ _) Hin).
      - rewrite (createTodo_run uuid now other new s Hfresh).
        destruct (CreateTodoInput.tagIds new) as [[|g rest]|].
        + right. eexists. split; [|reflexivity]. reflexivity.
        + destruct (insert_todoTags now _ _) as [s2|] eqn:E; [|now left].
          right. eexists. split; [|exact (insert_todoTags_todos _ _ _ _ E)].
          reflexivity.
        + right. eexists. split; [|reflexivity]. reflexivity. }
    destruct H as [->|[t [Hu ->]]]; [reflexivity|].
    rewrite filter_app. cbn [filter]. unfold owned_by at 2. rewrite Hu.
    apply String.eqb_neq in Hne. rewrite Hne. apply app_nil_r.
Qed.

Lemma others_cannot_change_my_stats_witness :
  fst (run 50 (todosRouter.getStats Sample.alice Sample.utc 50)
         (snd (run 40 (todosRouter.toggleTodo Sample.bob 40 "t3") Sample.db)))
  = fst (run 50 (todosRouter.getStats Sample.alice Sample.utc 50) Sample.db)
  /\ fst (run 50 (todosRouter.getStats Sample.alice Sample.utc 50)
            (snd (run 40 (todosRouter.deleteTodo Sample.bob "t1") Sample.db)))
     = fst (run 50 (todosRouter.getStats Sample.alice Sample.utc 50)
              Sample.db).
Proof.
  destruct (others_cannot_change_my_stats Sample.db 40 50 Sample.utc
              Sample.alice Sample.bob "t3" "t9"
              (Sample.only_tagIds "t3" [])
              (CreateTodoInput.mk "x" None low None None))
    as [H1 _].
  - split; repeat constructor; simpl; intuition discriminate.
  - discriminate.
  - split; [exact H1|].
    destruct (others_cannot_change_my_stats Sample.db 40 50 Sample.utc
                Sample.alice Sample.bob "t1" "t9"
                (Sample.only_tagIds "t3" [])
                (CreateTodoInput.mk "x" None low None None))
      as [_ [H2 _]].
    + split; repeat constructor; simpl; intuition discriminate.
    + discriminate.
    + exact H2.
Defined.

(** ** toggleTodo's answer *)

Lemma toggleTodo_sequential_answer (s : store) (now : timestamp)
  (u i : string) :
  fst (run now (todosRouter.toggleTodo u now i) s) = Err todosRouter.not_found
  \/ exists r, fst (run now (todosRouter.toggleTodo u now i) s) = Ok (Some r).
Proof.
  unfold todosRouter.toggleTodo. cbn [run].
  destruct (select s _) as [|r rest] eqn:E; [now left|]. right.
  assert (Hr : In r (select s (And [Eq_id i; Eq_userId u])))
    by (rewrite E; now left).
  apply filter_In in Hr. destruct Hr as [Hin Hr].
  rewrite holds_id_userId in Hr. apply andb_prop in Hr. destruct Hr as [Hi _].
  assert (Hsel : In r (select s (Eq_id i)))
    by (apply filter_In; split; [exact Hin|now rewrite holds_id]).
  cbn [run fst update]. destruct (select s (Eq_id i)) as [|x l];
    [contradiction|]. now eexists.
Qed.

(** X23. Served alone, [toggleTodo] either fails with NOT_FOUND or answers
    with the updated row.  But its update is not checked: when the caller's
    own [deleteTodo] of the same task is served between the read and the
    write of a [toggleTodo], the toggle updates no row and answers with
    [undefined] rather than NOT_FOUND, while the delete succeeds. *)
Theorem toggleTodo_answers_undefined_after_delete (s : store)
  (now : timestamp) (caller : string) (t : Todo.t) :
  (fst (run now (todosRouter.toggleTodo caller now (Todo.id t)) s)
   = Err todosRouter.not_found
   \/ exists r,
        fst (run now (todosRouter.toggleTodo caller now (Todo.id t)) s)
        = Ok (Some r))
  /\ (pk_unique s -> In t (todos s) -> Todo.userId t = caller ->
      exists s',
        run2 now [true; false; true]
          (todosRouter.toggleTodo caller now (Todo.id t))
          (todosRouter.deleteTodo caller (Todo.id t)) s
        = (Return None, Return (Deleted.mk true (Todo.id t)), s')
        /\ s' = snd (run now (todosRouter.deleteTodo caller (Todo.id t)) s)
        /\ ~ In (Todo.id t) (map Todo.id (todos s'))).
Proof.
  split; [apply toggleTodo_sequential_answer|].
  intros Hpk Ht <-.
  set (s' := mkStore
               (filter (fun r => negb (Todo.id r =? Todo.id t)%string)
                  (todos s))
               (tags s)
               (filter (fun a => negb (TodoTag.todoId a =? Todo.id t)%string)
                  (todoTags s))).
  assert (Hgone : ~ In (Todo.id t) (map Todo.id (todos s'))).
  { intros H. apply in_map_iff in H. destruct H as [r [E Hr]].
    apply filter_In in Hr. destruct Hr as [_ Hr].
    apply negb_true_iff, String.eqb_neq in Hr. contradiction. }
  assert (Hsel : select s' (Eq_id (Todo.id t)) = []).
  { apply filter_none. intros r Hr. rewrite holds_id.
    apply String.eqb_neq. intros E. apply Hgone. rewrite <- E.
    now apply in_map. }
  exists s'. split; [|split; [|exact Hgone]].
  - unfold todosRouter.toggleTodo, todosRouter.deleteTodo.
    cbn [run2 step fst snd].
    rewrite (select_id_userId s t (proj1 Hpk) Ht).
    rewrite (delete_owned s t Hpk Ht). cbn [fst snd]. fold s'.
    cbn [step]. unfold update. cbn [fst snd]. rewrite Hsel.
    cbn [map hd_error]. f_equal.
    rewrite <- (store_eta s') at 4. f_equal.
    rewrite <- (map_id (todos s')) at 2.
    apply map_ext_in. intros r Hr. rewrite holds_id.
    destruct (String.eqb_spec (Todo.id r) (Todo.id t)) as [E|]; [|reflexivity].
    elim Hgone. rewrite <- E. now apply in_map.
  - unfold todosRouter.deleteTodo. cbn [run].
    now rewrite (delete_owned s t Hpk Ht).
Qed.

Lemma toggleTodo_answers_undefined_after_delete_witness :
  exists s',
    run2 40 [true; false; true]
      (todosRouter.toggleTodo Sample.alice 40 "t1")
      (todosRouter.deleteTodo Sample.alice "t1") Sample.db
    = (Return None, Return (Deleted.mk true "t1"), s')
    /\ s' = snd (run 40 (todosRouter.deleteTodo Sample.alice "t1") Sample.db)
    /\ ~ In "t1" (map Todo.id (todos s')).
Proof.
  apply (proj2 (toggleTodo_answers_undefined_after_delete Sample.db 40
                  Sample.alice Sample.t1)).
  - split; repeat constructor; simpl; intuition discriminate.
  - simpl. tauto.
  - reflexivity.
Defined.

(** ** The two copies of createTag *)

(** X25. The two copies of [createTag] insert the same row and fail on the
    same calls (only when the id is taken); the full router's check for a
    missing returned row never fires, so it never answers
    INTERNAL_SERVER_ERROR, and the earlier copy never answers [undefined]. *)
Theorem createTag_copies_agree (s : store) (uuid : string) (now : timestamp)
  (caller : string) (input : CreateTagInput.t) :
  match todosRouter'.createTag uuid now caller input s,
        earlierRouter'.createTag uuid now caller input s with
  | (Done g, s1), (Done answer, s2) =>
      answer = Some g /\ s1 = s2
      /\ g = Tag.mk uuid (CreateTagInput.name input)
               (CreateTagInput.color input) caller now
      /\ ~ In uuid (map Tag.id (tags s))
  | (Failed f1, s1), (Failed f2, s2) =>
      f1 = UniqueViolation /\ f2 = UniqueViolation /\ s1 = s /\ s2 = s
      /\ In uuid (map Tag.id (tags s))
  | _, _ => False
  end.
Proof.
  unfold todosRouter'.createTag, earlierRouter'.createTag, bind, insertTag,
    insert_tag.
  destruct (mem_string uuid (map Tag.id (tags s))) eqn:M; cbn.
  - repeat split. now apply mem_string_In.
  - repeat split. now apply mem_string_false.
Qed.

(** ** Statistics after creating and deleting a task *)

Lemma createTodo_done (s : store) (uuid : string) (now : timestamp)
  (u : string) (input : CreateTodoInput.t) :
  ~ In uuid (map Todo.id (todos s)) ->
  (forall ids, CreateTodoInput.tagIds input = Some ids ->
               forall g, In g ids -> In g (map Tag.id (tags s))) ->
  let t := Todo.mk uuid (CreateTodoInput.title input)
             (CreateTodoInput.description input) false
             (CreateTodoInput.priority input)
             (CreateTodoInput.dueDate input) u now now in
  exists s',
    todosRouter'.createTodo uuid now u input s = (Done t, s')
    /\ todos s' = (todos s ++ [t])%list.
Proof.
  intros Hfresh Hfk t.
  rewrite (createTodo_run uuid now u input s Hfresh). fold t.
  destruct (CreateTodoInput.tagIds input) as [[|g rest]|] eqn:Htag;
    try (eexists; split; reflexivity).
  destruct (insert_todoTags now _ _) as [s2|] eqn:E.
  - exists s2. split; [reflexivity|].
    exact (insert_todoTags_todos _ _ _ _ E).
  - exfalso. unfold insert_todoTags in E.
    destruct (forallb _ _) eqn:F; [discriminate|].
    assert (Hok : forallb
                    (references_ok
                       (mkStore (todos s ++ [t]) (tags s) (todoTags s)))
                    (map (fun tagId => (uuid, tagId)) (g :: rest)) = true).
    { apply forallb_forall. intros v Hv.
      apply in_map_iff in Hv. destruct Hv as [x [<- Hx]].
      unfold references_ok. cbn [fst snd todos tags].
      apply andb_true_intro. split; apply mem_string_In.
      - rewrite map_app. apply in_or_app. right. now left.
      - exact (Hfk _ eq_refl x Hx). }
    congruence.
Qed.

Lemma count_app {A : Type} (f : A -> bool) (l1 l2 : list A) :
  count f (l1 ++ l2) = count f l1 + count f l2.
Proof.
  unfold count, length_Z.
  now rewrite filter_app, List.length_app, Nat2Z.inj_add.
Qed.

Lemma count_remove_key (f : Todo.t -> bool) (t : Todo.t) (l : list Todo.t) :
  NoDup (map Todo.id l) -> In t l ->
  count f (filter (fun r => negb (Todo.id r =? Todo.id t)%string) l)
  = count f l - (if f t then 1 else 0).
Proof.
  induction l as [|a l IH]; intros Hnd Hin; [contradiction|].
  inversion Hnd as [|? ? Ha Hl]; subst. cbn [filter].
  destruct Hin as [->|Hin].
  - rewrite String.eqb_refl. cbn [negb]. rewrite count_cons.
    rewrite filter_all; [lia|].
    intros r Hr. apply negb_true_iff, String.eqb_neq. intros E.
    apply Ha. rewrite <- E. now apply in_map.
  - assert (E : (Todo.id a =? Todo.id t)%string = false).
    { apply String.eqb_neq. intros E. apply Ha. rewrite E. now apply in_map. }
    rewrite E. cbn [negb]. rewrite !count_cons, (IH Hl Hin). lia.
Qed.

(** X26. A task just created counts as one more pending task of its
    priority in the creator's statistics: in the answer of [getStats],
    [total] and [pending] go up by one, [completed] stays, and of the four
    [byPriority] counts only the one of its priority goes up, by one. *)
Theorem createTodo_adds_one_pending_task_to_stats (s : store)
  (uuid : string) (now now' : timestamp) (zone : timestamp -> Z)
  (caller : string) (input : CreateTodoInput.t) :
  ~ In uuid (map Todo.id (todos s)) ->
  (forall ids, CreateTodoInput.tagIds input = Some ids ->
               forall g, In g ids -> In g (map Tag.id (tags s))) ->
  exists t s' st st',
    todosRouter'.createTodo uuid now caller input s = (Done t, s')
    /\ run now' (todosRouter.getStats caller zone now') s = (Ok st, s)
    /\ run now' (todosRouter.getStats caller zone now') s' = (Ok st', s')
    /\ Stats.total st' = Stats.total st + 1
    /\ Stats.completed st' = Stats.completed st
    /\ Stats.pending st' = Stats.pending st + 1
    /\ forall p,
         by_priority (Stats.byPriority st') p
         = by_priority (Stats.byPriority st) p
           + (if priority_eqb (CreateTodoInput.priority input) p
              then 1 else 0).
Proof.
  intros Hfresh Hfk.
  destruct (createTodo_done s uuid now caller input Hfresh Hfk)
    as [s' [Hrun Htodos]].
  eexists _, s', _, _. split; [exact Hrun|].
  split; [apply run_getStats_fields|]. split; [apply run_getStats_fields|].
  cbn [Stats.total Stats.completed Stats.pending Stats.byPriority].
  assert (Hown : filter (owned_by caller) (todos s')
                 = (filter (owned_by caller) (todos s)
                    ++ [Todo.mk uuid (CreateTodoInput.title input)
                          (CreateTodoInput.description input) false
                          (CreateTodoInput.priority input)
                          (CreateTodoInput.dueDate input) caller now now])%list).
  { rewrite Htodos, filter_app. cbn [filter]. unfold owned_by at 2.
    cbn [Todo.userId]. now rewrite String.eqb_refl. }
  rewrite Hown.
  assert (Hlen : forall (l : list Todo.t) x,
            length_Z (l ++ [x]) = length_Z l + 1).
  { intros l x. unfold length_Z.
    now rewrite List.length_app, Nat2Z.inj_add. }
  rewrite Hlen, !count_app.
  split; [reflexivity|].
  split; [unfold count; cbn; lia|].
  split; [unfold count; cbn; lia|].
  intros p.
  destruct p;
    cbn [by_priority Stats.low Stats.medium Stats.high Stats.urgent];
    f_equal; unfold count, todosRouter.is_priority;
    cbn [filter Todo.priority];
    now destruct (priority_eqb (CreateTodoInput.priority input) _).
Qed.

Lemma createTodo_adds_one_pending_task_to_stats_witness :
  exists t s' st st',
    todosRouter'.createTodo "t9" 40 Sample.alice
      (CreateTodoInput.mk "Call mum" None low None None) Sample.db
    = (Done t, s')
    /\ run 50 (todosRouter.getStats Sample.alice Sample.utc 50) Sample.db
       = (Ok st, Sample.db)
    /\ run 50 (todosRouter.getStats Sample.alice Sample.utc 50) s'
       = (Ok st', s')
    /\ Stats.total st' = Stats.total st + 1
    /\ Stats.completed st' = Stats.completed st
    /\ Stats.pending st' = Stats.pending st + 1
    /\ Stats.low (Stats.byPriority st')
       = Stats.low (Stats.byPriority st) + 1
    /\ Stats.high (Stats.byPriority st')
       = Stats.high (Stats.byPriority st) + 0.
Proof.
  destruct (createTodo_adds_one_pending_task_to_stats Sample.db "t9" 40 50
              Sample.utc Sample.alice
              (CreateTodoInput.mk "Call mum" None low None None))
    as [t [s' [st [st' [H1 [H2 [H3 [H4 [H5 [H6 H7]]]]]]]]]].
  - simpl. intros [E|[E|[E|[]]]]; discriminate.
  - simpl. discriminate.
  - exists t, s', st, st'.
    split; [exact H1|]. split; [exact H2|]. split; [exact H3|].
    split; [exact H4|]. split; [exact H5|]. split; [exact H6|].
    split; [exact (H7 low)|exact (H7 high)].
Defined.

(** X27. Deleting a task of the caller takes exactly that task out of the
    caller's statistics: in the answer of [getStats], [total] goes down by
    one, [completed] by one when the task was completed and [pending] by one
    when it was not, and of the four [byPriority] counts only the one of its
    priority goes down, by one. *)
Theorem deleteTodo_takes_one_task_out_of_stats (s : store)
  (now now' : timestamp) (zone : timestamp -> Z) (caller : string)
  (t : Todo.t) :
  pk_unique s -> In t (todos s) -> Todo.userId t = caller ->
  exists s' st st',
    run now (todosRouter.deleteTodo caller (Todo.id t)) s
    = (Ok (Deleted.mk true (Todo.id t)), s')
    /\ run now' (todosRouter.getStats caller zone now') s = (Ok st, s)
    /\ run now' (todosRouter.getStats caller zone now') s' = (Ok st', s')
    /\ Stats.total st' = Stats.total st - 1
    /\ Stats.completed st'
       = Stats.completed st - (if Todo.completed t then 1 else 0)
    /\ Stats.pending st'
       = Stats.pending st - (if Todo.completed t then 0 else 1)
    /\ forall p,
         by_priority (Stats.byPriority st') p
         = by_priority (Stats.byPriority st) p
           - (if priority_eqb (Todo.priority t) p then 1 else 0).
Proof.
  intros Hpk Ht <-.
  set (s' := mkStore
               (filter (fun r => negb (Todo.id r =? Todo.id t)%string)
                  (todos s))
               (tags s)
               (filter (fun a => negb (TodoTag.todoId a =? Todo.id t)%string)
                  (todoTags s))).
  exists s'. eexists _, _. split.
  { unfold todosRouter.deleteTodo. cbn [run].
    now rewrite (delete_owned s t Hpk Ht). }
  split; [apply run_getStats_fields|]. split; [apply run_getStats_fields|].
  cbn [Stats.total Stats.completed Stats.pending Stats.byPriority].
  assert (Hcount : forall f,
            count f (filter (owned_by (Todo.userId t)) (todos s'))
            = count f (filter (owned_by (Todo.userId t)) (todos s))
              - (if f t then 1 else 0)).
  { intros f. rewrite !count_filter. unfold s'. cbn [todos].
    rewrite (count_remove_key _ t _ (proj1 Hpk) Ht).
    unfold owned_by. now rewrite String.eqb_refl. }
  assert (Hlen : length_Z (filter (owned_by (Todo.userId t)) (todos s'))
                 = length_Z (filter (owned_by (Todo.userId t)) (todos s)) - 1).
  { pose proof (Hcount (fun _ => true)) as H. unfold count in H.
    rewrite !(filter_all (fun _ => true)) in H by reflexivity. exact H. }
  rewrite Hlen, (Hcount Todo.completed).
  split; [reflexivity|]. split; [reflexivity|].
  split; [destruct (Todo.completed t); lia|].
  intros p.
  destruct p;
    cbn [by_priority Stats.low Stats.medium Stats.high Stats.urgent];
    now rewrite Hcount.
Qed.

Lemma deleteTodo_takes_one_task_out_of_stats_witness :
  exists s' st st',
    run 40 (todosRouter.deleteTodo Sample.alice "t2") Sample.db
    = (Ok (Deleted.mk true "t2"), s')
    /\ run 50 (todosRouter.getStats Sample.alice Sample.utc 50) Sample.db
       = (Ok st, Sample.db)
    /\ run 50 (todosRouter.getStats Sample.alice Sample.utc 50) s'
       = (Ok st', s')
    /\ Stats.total st' = Stats.total st - 1
    /\ Stats.completed st' = Stats.completed st - 1
    /\ Stats.pending st' = Stats.pending st - 0
    /\ Stats.low (Stats.byPriority st')
       = Stats.low (Stats.byPriority st) - 1
    /\ Stats.high (Stats.byPriority st')
       = Stats.high (Stats.byPriority st) - 0.
Proof.
  destruct (deleteTodo_takes_one_task_out_of_stats Sample.db 40 50
              Sample.utc Sample.alice Sample.t2)
    as [s' [st [st' [H1 [H2 [H3 [H4 [H5 [H6 H7]]]]]]]]].
  - split; repeat constructor; simpl; intuition discriminate.
  - simpl. tauto.
  - reflexivity.
  - exists s', st, st'.
    split; [exact H1|]. split; [exact H2|]. split; [exact H3|].
    split; [exact H4|]. split; [exact H5|]. split; [exact H6|].
    split; [exact (H7 low)|exact (H7 high)].
Defined.
